(** * Tote label generator (tote.py): a shallow embedding and its properties

    The development follows the source file top to bottom:
    - the fragment of the Python runtime the script relies on (strings as
      sequences of code points, truthiness, [str()], exceptions);
    - [parse_location_string], with [str.strip] and [re.findall];
    - the column search at the head of [generate_sticker_labels];
    - the per-row label (the nested ReportLab tables) and the story that
      is handed to [doc.build];
    - [main]: the preview of the uploaded file, the button and the
      download;
    - the vocabulary of the properties, and then the properties, in the
      order of the definitions they talk about. *)

From Stdlib Require Import NArith ZArith QArith List Lia Bool String Ascii DecimalString.
From stdpp Require Import base list option.
From Equations Require Import Equations.
Import ListNotations.

Set Default Proof Using "Type".

(* ===================================================================== *)
(** * 1. Python values                                                    *)
(* ===================================================================== *)

(** A Python [str] is a sequence of Unicode code points. *)
Definition codepoint := N.
Definition pystr := list codepoint.

(** String literals of the script, all of them ASCII. *)
Definition lit (s : string) : pystr := map N_of_ascii (list_ascii_of_string s).

Definition empty_str : pystr := [].

(** [Py_UNICODE_ISSPACE]: the code points for which [str.isspace] holds.
    Both [str.strip()] and the regular-expression class [\s] (on [str]
    patterns) use this table. *)
Definition Py_UNICODE_ISSPACE (c : codepoint) : bool :=
  ((9 <=? c) && (c <=? 13)            (* \t \n \v \f \r *)
   || (28 <=? c) && (c <=? 32)        (* FS GS RS US and the space *)
   || (c =? 133) || (c =? 160)        (* NEL, no-break space *)
   || (c =? 5760)                     (* ogham space mark *)
   || (8192 <=? c) && (c <=? 8202)    (* en quad .. hair space *)
   || (c =? 8232) || (c =? 8233)      (* line and paragraph separator *)
   || (c =? 8239) || (c =? 8287) || (c =? 12288))%N.

(** The scalars that reach the functions of the script as arguments or as
    column labels. *)
Inductive pyval : Type :=
| PyNone
| PyBool (b : bool)
| PyInt (z : Z)
| PyStr (s : pystr).

(** [bool(x)], the test behind [if x], [not x], [x and y]. *)
Class Truth (A : Type) := truthy : A -> bool.

#[export] Instance pystr_truth : Truth pystr :=
  fun s => match s with [] => false | _ :: _ => true end.

#[export] Instance pyval_truth : Truth pyval :=
  fun v => match v with
           | PyNone => false
           | PyBool b => b
           | PyInt z => negb (z =? 0)%Z
           | PyStr s => truthy s
           end.

(** [isinstance(x, str)]. [bool] is a subclass of [int], not of [str]. *)
Definition isinstance_str (v : pyval) : bool :=
  match v with PyStr _ => true | _ => false end.

(** [str(x)]. *)
Class Str (A : Type) := py_str : A -> pystr.

#[export] Instance pyval_str : Str pyval :=
  fun v => match v with
           | PyNone => lit "None"
           | PyBool true => lit "True"
           | PyBool false => lit "False"
           | PyInt z => lit (NilZero.string_of_int (Z.to_int z))
           | PyStr s => s
           end.

(** [x == y] on scalars: [bool] and [int] compare as numbers, a [str] is
    equal to a [str] with the same code points, [None] only to itself. *)
Definition pystr_eqb (s t : pystr) : bool := bool_decide (s = t).

Definition py_eqb (x y : pyval) : bool :=
  match x, y with
  | PyNone, PyNone => true
  | PyBool a, PyBool b => Bool.eqb a b
  | PyBool a, PyInt z | PyInt z, PyBool a => (z =? (if a then 1 else 0))%Z
  | PyInt a, PyInt b => (a =? b)%Z
  | PyStr s, PyStr t => pystr_eqb s t
  | _, _ => false
  end.

(** The exceptions that the modelled statements can raise. *)
Inductive exn : Type :=
| IndexError
| TypeError
| KeyError
| ValueError
| ZeroDivisionError
| StreamlitAPIException.

Inductive result (A : Type) : Type :=
| Ok (a : A)
| Raise (e : exn).
Arguments Ok {A} a.
Arguments Raise {A} e.

#[export] Instance result_ret : MRet result := fun _ a => Ok a.

#[export] Instance result_bind : MBind result :=
  fun _ _ k r => match r with Ok a => k a | Raise e => Raise e end.

#[export] Instance result_fmap : FMap result :=
  fun _ _ f r => match r with Ok a => Ok (f a) | Raise e => Raise e end.

(* ===================================================================== *)
(** * 2. [str] methods and [re.findall]                                   *)
(* ===================================================================== *)

(** [s.lstrip()], [s.rstrip()] and [s.strip()] with no argument. *)
Fixpoint str_lstrip (s : pystr) : pystr :=
  match s with
  | c :: s' => if Py_UNICODE_ISSPACE c then str_lstrip s' else s
  | [] => []
  end.

Definition str_rstrip (s : pystr) : pystr := rev (str_lstrip (rev s)).

Definition str_strip (s : pystr) : pystr := str_rstrip (str_lstrip s).

(** [t.startswith(p)] and the substring test [p in t]. *)
Fixpoint startswith (p t : pystr) : bool :=
  match p, t with
  | [], _ => true
  | _ :: _, [] => false
  | a :: p', b :: t' => (a =? b)%N && startswith p' t'
  end.

Fixpoint str_contains (p t : pystr) : bool :=
  startswith p t ||
  match t with
  | [] => false
  | _ :: t' => str_contains p t'
  end.

(** [sep.join(parts)]. *)
Fixpoint str_join (sep : pystr) (parts : list pystr) : pystr :=
  match parts with
  | [] => []
  | [p] => p
  | p :: rest => p ++ sep ++ str_join sep rest
  end.

(** The character class [[^_\s]] of the pattern [r'([^_\s]+)']. *)
Definition underscore : codepoint := 95%N.

Definition not_underscore_space (c : codepoint) : bool :=
  negb ((c =? underscore)%N || Py_UNICODE_ISSPACE c).

(** A greedy [cls*] at the head of [s]: the longest prefix inside the
    class, and what follows it. *)
Fixpoint greedy (cls : codepoint -> bool) (s : pystr) : pystr * pystr :=
  match s with
  | c :: s' =>
      if cls c then let '(m, rest) := greedy cls s' in (c :: m, rest)
      else ([], s)
  | [] => ([], [])
  end.

(** [re.findall(r'([^_\s]+)', s)]: scan from the left; where the pattern
    matches, report the group (the whole match) and resume after it; where
    it does not, move one code point on. *)
Equations? re_findall (s : pystr) : list pystr by wf (length s) lt :=
  re_findall [] := [];
  re_findall (c :: s') :=
    if not_underscore_space c
    then (c :: (greedy not_underscore_space s').1)
           :: re_findall (greedy not_underscore_space s').2
    else re_findall s'.
Proof.
  all: try (simpl; lia).
  assert (Hle : forall t, length (greedy not_underscore_space t).2 <= length t).
  { induction t as [|a t IH]; simpl; [lia|].
    destruct (not_underscore_space a); [|simpl; lia].
    destruct (greedy not_underscore_space t); simpl in *; lia. }
  specialize (Hle s'). simpl. lia.
Qed.

(* ===================================================================== *)
(** * 3. [parse_location_string]                                          *)
(* ===================================================================== *)

(** [enumerate(l)]. *)
Definition enumerate {A} (l : list A) : list (nat * A) := imap pair l.

(** The function, statement by statement.  The loop assigns
    [location_parts[i] = match]; [i] stays below 7, so the assignment is
    always in range (where Python would raise, stdpp's insert would leave
    the list alone). *)
Definition parse_location_string (location_str : pyval) : list pystr :=
  let location_parts := replicate 7 (empty_str) in
  if negb (truthy location_str) || negb (isinstance_str location_str)
  then location_parts
  else
    match location_str with
    | PyStr location_str =>
        let location_str := str_strip location_str in
        let matches := re_findall location_str in
        fold_left (fun parts '(i, m) => <[i:=m]> parts)
                  (enumerate (take 7 matches)) location_parts
    | _ => location_parts
    end.

(** The words of the specification, for comparison: the tokens of a string
    are its maximal runs of code points that are neither whitespace nor
    underscore.  [MaximalRuns s toks] cuts [s] into separators and tokens:
    every token is non-empty, free of separators, preceded by a (possibly
    empty, at the start) separator run and followed by a separator or by the
    end of the string. *)
Definition is_separator (c : codepoint) : bool :=
  Py_UNICODE_ISSPACE c || (c =? underscore)%N.

Inductive MaximalRuns : pystr -> list pystr -> Prop :=
| runs_done (seps : pystr) :
    Forall (fun c => is_separator c = true) seps ->
    MaximalRuns seps []
| runs_token (seps tok rest : pystr) (toks : list pystr) :
    Forall (fun c => is_separator c = true) seps ->
    tok <> [] ->
    Forall (fun c => is_separator c = false) tok ->
    (rest = [] \/ exists c rest', rest = c :: rest' /\ is_separator c = true) ->
    MaximalRuns rest toks ->
    MaximalRuns (seps ++ tok ++ rest) (tok :: toks).

(** Slot [i] of a token list: the token when there is one, else empty. *)
Definition slot_of (toks : list pystr) (i : nat) : pystr := nth i toks (empty_str).

(* ===================================================================== *)
(** * 4. ReportLab: flowables, styles, pages                              *)
(* ===================================================================== *)

(** Lengths are in points.  The script computes them in binary floating
    point; here they are the exact rationals its decimal literals denote. *)
Definition inch : Q := 72.
Definition cm : Q := inch / 2.54.

Inductive TextAlign : Type := TA_LEFT | TA_CENTER.

(** [ParagraphStyle(name=..., fontName=..., fontSize=..., alignment=...,
    leading=...)]; a field the script leaves out has ReportLab's default
    ([leading=12]). *)
Record ParagraphStyle : Type := mkParagraphStyle {
  style_name : string;
  fontName : string;
  fontSize : Z;
  alignment : TextAlign;
  leading : Z
}.

Record Color : Type := mkColor { red : Q; green : Q; blue : Q; alpha : Q }.

Definition coord : Type := Z * Z.

Inductive TableStyleCmd : Type :=
| GRID (start stop : coord) (weight : Q) (colour : Color)
| ALIGN (start stop : coord) (how : string)
| VALIGN (start stop : coord) (how : string)
| FONTNAME (start stop : coord) (font : string)
| FONTSIZE (start stop : coord) (size : Z).

(** What [generate_qr_code] draws: the PNG of a QR code, kept as the
    parameters it was made from. *)
Record QRCode : Type := mkQRCode {
  qr_version : Z;
  qr_error_correction : string;
  qr_box_size : Z;
  qr_border : Z;
  qr_data : pystr
}.

(** The flowables the script creates.  A table cell holds a plain string
    or a flowable; [Table(...)] followed by [setStyle(TableStyle(cmds))]
    is one constructor. *)
Inductive Flowable : Type :=
| Spacer (width height : Q)
| Paragraph (text : pystr) (style : ParagraphStyle)
| Image (png : QRCode) (width height : Q)
| Table (data : list (list TableCell)) (colWidths rowHeights : list Q)
        (style : list TableStyleCmd)
| PageBreak
with TableCell : Type :=
| Text (s : pystr)
| Flow (f : Flowable).

Definition is_PageBreak (f : Flowable) : bool :=
  match f with PageBreak => true | _ => false end.

(** The drawing calls of [draw_border]. *)
Inductive canvas_op : Type :=
| saveState
| setStrokeColor (c : Color)
| setLineWidth (w : Q)
| rect (x y width height : Q)
| restoreState.

Record Page : Type := mkPage {
  page_canvas : list canvas_op;
  page_flowables : list Flowable
}.

Definition Document : Type := list Page.

(* ===================================================================== *)
(** * 5. What the script takes from its libraries                         *)
(* ===================================================================== *)

(** The behaviour of the libraries that is not written in the script:
    - [toupper_full c]: the Unicode upper-case mapping of one code point
      (one to three code points), which [str.upper] applies to each code
      point in turn;
    - [qr_error data]: the message of the exception that [qrcode] or PIL
      raises while encoding [data], if any (too much data for a symbol);
    - [build_error story]: the message of the exception that [doc.build]
      raises on [story], if any;
    - [series_str label name cells]: [str()] of the pandas Series that
      [row[label]] is when the label occurs more than once;
    - [paragraph_error text]: the exception that [Paragraph(text, style)]
      raises, if any: ReportLab reads the text as markup when the
      paragraph is made, and raises on text it cannot parse (an unclosed
      or unknown tag). *)
Record Platform : Type := mkPlatform {
  toupper_full : codepoint -> list codepoint;
  qr_error : pystr -> option pystr;
  build_error : list Flowable -> option pystr;
  series_str : pyval -> Z -> list pystr -> pystr;
  paragraph_error : pystr -> option exn
}.

(** On ASCII, [toupper_full] maps a..z to A..Z and leaves the rest. *)
Definition ascii_upper (c : codepoint) : codepoint :=
  if ((97 <=? c) && (c <=? 122))%N then (c - 32)%N else c.

Definition ascii_case (P : Platform) : Prop :=
  forall c, (c < 128)%N -> toupper_full P c = [ascii_upper c].

Definition is_ascii (s : pystr) : Prop := Forall (fun c => (c < 128)%N) s.

(** [s.upper()]. *)
Definition str_upper (P : Platform) (s : pystr) : pystr :=
  c ← s; toupper_full P c.

(* ===================================================================== *)
(** * 6. pandas: the table and its rows                                   *)
(* ===================================================================== *)

(** A cell as the loader leaves it: a string, a missing value ([nan] or
    [None]), or another scalar (a number, a date), which the script only
    ever passes to [str()] and [pd.notna] and which is kept as the text
    [str()] gives.  A missing value is not [notna], and the row that
    [iterrows] yields prints it as nan, whichever of the two it was in the
    table. *)
Inductive cell : Type :=
| CellStr (s : pystr)
| CellNaN
| CellNone
| CellScalar (text : pystr).

#[export] Instance cell_str : Str cell :=
  fun c => match c with
           | CellStr s => s
           | CellNaN => lit "nan"
           | CellNone => lit "nan"
           | CellScalar text => text
           end.

Definition notna (c : cell) : bool :=
  match c with CellNaN | CellNone => false | _ => true end.

(** A DataFrame: the column labels, and the rows, each under its index
    label.  A row shorter than the header reads as [nan] in the missing
    places, the way the loaders pad it.  The index labels are integers,
    as in every table that has just been read and in every table with a
    RangeIndex or an integer index; a table indexed by strings or dates,
    on which [index + 1] is another operation, is outside these
    definitions. *)
Record DataFrame : Type := mkDataFrame {
  columns : list pyval;
  rows : list (Z * list cell)
}.

(** [len(df)]. *)
Definition len (df : DataFrame) : Z := Z.of_nat (length (rows df)).

(** The default index of a table that has just been read: the rows are
    numbered 0, 1, 2, ... *)
Fixpoint RangeIndex (start : nat) (body : list (list cell)) : list (Z * list cell) :=
  match body with
  | [] => []
  | cells :: body' => (Z.of_nat start, cells) :: RangeIndex (S start) body'
  end.

(** [pd.read_csv(f)] and [pd.read_excel(f)] as [main] calls them, on a file
    with the given header and body. *)
Definition read_table (header : list pyval) (body : list (list cell)) : DataFrame :=
  {| columns := header; rows := RangeIndex 0 body |}.

(** One row of [df.iterrows()]: a Series over the frame's column labels. *)
Record Row : Type := mkRow {
  row_labels : list pyval;
  row_name : Z;
  row_cells : list cell
}.

Definition iterrows (df : DataFrame) : list (Z * Row) :=
  map (fun '(index, cells) => (index, mkRow (columns df) index cells)) (rows df).

(** [label in row]: membership in the row's index. *)
Definition row_contains (row : Row) (label : pyval) : bool :=
  existsb (py_eqb label) (row_labels row).

(** The cells of a row under a label, in column order. *)
Fixpoint cells_at (labels : list pyval) (cells : list cell) (label : pyval) : list cell :=
  match labels with
  | [] => []
  | l :: labels' =>
      (if py_eqb l label then [hd CellNaN cells] else [])
        ++ cells_at labels' (tl cells) label
  end.

(** [row[label]]: the cell when the label occurs once, a Series of the
    cells when it occurs several times, [KeyError] when it does not occur. *)
Inductive item : Type :=
| Scalar (c : cell)
| Series (label : pyval) (name : Z) (cs : list cell).

Definition row_getitem (row : Row) (label : pyval) : result item :=
  match cells_at (row_labels row) (row_cells row) label with
  | [] => Raise KeyError
  | [c] => Ok (Scalar c)
  | cs => Ok (Series label (row_name row) cs)
  end.

Definition item_str (P : Platform) (x : item) : pystr :=
  match x with
  | Scalar c => py_str c
  | Series label name cs => series_str P label name (map py_str cs)
  end.

(** [pd.notna(x)] used as a condition: on a Series it is a Series of
    booleans, whose truth value pandas refuses to give. *)
Definition notna_truth (x : item) : result bool :=
  match x with
  | Scalar c => Ok (notna c)
  | Series _ _ _ => Raise ValueError
  end.

(* ===================================================================== *)
(** * 7. The column search of [generate_sticker_labels]                   *)
(* ===================================================================== *)

(** [needle in col] for a string literal [needle]: a substring test on a
    [str]; on [None], a [bool] or an [int] Python raises [TypeError]
    (the argument is not iterable). *)
Definition contains (needle : string) (col : pyval) : result bool :=
  match col with
  | PyStr s => Ok (str_contains (lit needle) s)
  | _ => Raise TypeError
  end.

(** [col in [a, b]]: list membership, by [==]. *)
Definition among (names : list string) (col : pyval) : result bool :=
  Ok (existsb (fun name => py_eqb col (PyStr (lit name))) names).

(** [a and b], [a or b]: the right operand is evaluated only when the left
    one does not decide. *)
Definition and_then (a b : result bool) : result bool :=
  a ≫= λ x : bool, if x then b else Ok false.

Definition or_else (a b : result bool) : result bool :=
  a ≫= λ x : bool, if x then Ok true else b.

(** [next((col for col in cols if cond(col)), default)].  Python evaluates
    the arguments of a call before the call: [default] is a value by the
    time the generator runs. *)
Fixpoint next_match (cond : pyval -> result bool) (cols : list pyval)
         (default : pyval) : result pyval :=
  match cols with
  | [] => Ok default
  | col :: rest =>
      cond col ≫= λ b : bool,
      if b then Ok col else next_match cond rest default
  end.

(** [cols[i]]. *)
Definition getitem (cols : list pyval) (i : nat) : result pyval :=
  match cols !! i with
  | Some col => Ok col
  | None => Raise IndexError
  end.

Record ColumnMapping : Type := mkColumnMapping {
  part_no_col : pyval;
  desc_col : pyval;
  qty_bin_col : pyval;
  loc_col : pyval;
  store_loc_col : pyval
}.

(** Lines 133-153 ("Find relevant columns"), on the upper-cased labels. *)
Definition find_relevant_columns (cols : list pyval) : result ColumnMapping :=
  part_no_col ←
    (d0 ← getitem cols 0;
     d1 ← next_match (among ["PARTNO"; "PART"]%string) cols d0;
     next_match
       (fun col => and_then (contains "PART" col)
                     (or_else (contains "NO" col)
                        (or_else (contains "NUM" col) (contains "#" col))))
       cols d1);
  desc_col ←
    (d0 ← (if decide (1 < length cols) then getitem cols 1 else Ok part_no_col);
     d1 ← next_match (contains "NAME") cols d0;
     next_match (contains "DESC") cols d1);
  qty_bin_col ←
    (d1 ← next_match (fun col => and_then (contains "QTY" col) (contains "BIN" col))
            cols PyNone;
     next_match
       (fun col => or_else (contains "QTY/BIN" col)
                     (or_else (contains "QTY_BIN" col) (contains "QTYBIN" col)))
       cols d1);
  qty_bin_col ←
    (if negb (truthy qty_bin_col)
     then d1 ← next_match (contains "QUANTITY") cols PyNone;
          next_match (contains "QTY") cols d1
     else Ok qty_bin_col);
  loc_col ←
    (d0 ← (if decide (2 < length cols) then getitem cols 2 else Ok desc_col);
     next_match
       (fun col => or_else (contains "LOC" col)
                     (or_else (contains "POS" col) (contains "LOCATION" col)))
       cols d0);
  store_loc_col ←
    (d1 ← next_match (contains "STORELOCATION") cols PyNone;
     next_match (fun col => and_then (contains "STORE" col) (contains "LOC" col))
       cols d1);
  Ok {| part_no_col := part_no_col;
        desc_col := desc_col;
        qty_bin_col := qty_bin_col;
        loc_col := loc_col;
        store_loc_col := store_loc_col |}.

(** Line 129: [col.upper() if isinstance(col, str) else col]. *)
Definition upper_label (P : Platform) (col : pyval) : pyval :=
  match col with
  | PyStr s => PyStr (str_upper P s)
  | _ => col
  end.

(** The column resolver of the specification: the labels as they come,
    upper-cased and searched. *)
Definition resolve (P : Platform) (names : list pyval) : result ColumnMapping :=
  find_relevant_columns (map (upper_label P) names).

(** The name a resolved label had before line 129 replaced it: the entry
    of [original_columns] at the position of the label in [cols]. *)
Fixpoint original_name (original_columns cols : list pyval) (label : pyval)
  : option pyval :=
  match original_columns, cols with
  | o :: os, c :: cs => if py_eqb c label then Some o else original_name os cs label
  | _, _ => None
  end.

(** Test doubles of the libraries, for running the model on ASCII data:
    upper-casing by [ascii_upper], a QR encoder that gives up on a text of
    more than [capacity] code points, a document builder that does not
    fail, a paragraph parser that takes plain text and gives up on a
    text with a [<] in it.  [ascii_platform] has the 2331 bytes of the
    largest symbol at level M. *)
Definition test_platform (capacity : nat) : Platform :=
  {| toupper_full := fun c => [ascii_upper c];
     qr_error := fun data =>
       if decide (capacity < length data) then Some (lit "data overflow") else None;
     build_error := fun _ => None;
     series_str := fun _ _ cs => str_join [10%N] cs;
     paragraph_error := fun text =>
       if existsb (N.eqb 60) text then Some ValueError else None |}.

Definition ascii_platform : Platform := test_platform 2331.

(* ===================================================================== *)
(** * 8. The state the script works on                                    *)
(* ===================================================================== *)

(** What the script shows through Streamlit. *)
Inductive event : Type :=
| st_error (msg : pystr)
| status_write (msg : pystr)
| status_success (msg : pystr)
| status_error (msg : pystr)
| progress (value : Q).

(** The DataFrame is an object shared with the caller: [main] holds the
    same reference that [generate_sticker_labels] assigns to.  The world is
    that object together with what has been shown so far. *)
Record world : Type := mkWorld {
  df : DataFrame;
  screen : list event
}.

(** Statements read and change the world, and complete or raise. *)
Definition M (A : Type) : Type := world -> result A * world.

#[export] Instance M_ret : MRet M := fun _ a w => (Ok a, w).

#[export] Instance M_bind : MBind M :=
  fun _ _ k m w =>
    match m w with
    | (Ok a, w') => k a w'
    | (Raise e, w') => (Raise e, w')
    end.

Definition lift {A} (r : result A) : M A := fun w => (r, w).

Definition emit (e : event) : M unit :=
  fun w => (Ok tt, {| df := df w; screen := screen w ++ [e] |}).

Definition get_df : M DataFrame := fun w => (Ok (df w), w).

(** [df.columns = labels]. *)
Definition set_columns (labels : list pyval) : M unit :=
  fun w => (Ok tt, {| df := {| columns := labels; rows := rows (df w) |};
                      screen := screen w |}).

(** [if c: stmt]. *)
Definition when (c : bool) (stmt : M unit) : M unit :=
  if c then stmt else mret tt.

(* ===================================================================== *)
(** * 9. The constants and [generate_qr_code]                             *)
(* ===================================================================== *)

Section Layout.
Local Open Scope Q_scope.

Definition STICKER_WIDTH : Q := 10 * cm.
Definition STICKER_HEIGHT : Q := 15 * cm.
Definition CONTENT_BOX_WIDTH : Q := 8 * cm.
Definition CONTENT_BOX_HEIGHT : Q := 3 * cm.
Definition COLUMN_WIDTH_PROPORTIONS : list Q := [1.0; 1.9; 0.8; 0.8; 0.7; 0.7; 0.8].
Definition CONTENT_LEFT_OFFSET : Q := 1.4 * cm.

Definition bold_style : ParagraphStyle :=
  mkParagraphStyle "Bold" "Helvetica-Bold" 9 TA_CENTER 10.
Definition desc_style : ParagraphStyle :=
  mkParagraphStyle "Desc" "Helvetica" 7 TA_LEFT 9.
Definition qty_style : ParagraphStyle :=
  mkParagraphStyle "Quantity" "Helvetica" 8 TA_CENTER 11.

Definition black95 : Color := mkColor 0 0 0 0.95.

(** [generate_qr_code(data_string)]: the image on success; on any
    exception the message goes to [st.error] and the result is [None]. *)
Definition generate_qr_code (P : Platform) (data_string : pystr) : M (option Flowable) :=
  match qr_error P data_string with
  | None =>
      mret (Some (Image (mkQRCode 1 "ERROR_CORRECT_M" 10 4 data_string)
                        (1.5 * cm) (1.5 * cm)))
  | Some e =>
      emit (st_error (lit "Error generating QR code: " ++ e));;
      mret None
  end.

(** [draw_border(canvas, doc)]. *)
Definition draw_border : list canvas_op :=
  let x_offset := CONTENT_LEFT_OFFSET in
  let y_offset := STICKER_HEIGHT - CONTENT_BOX_HEIGHT - 0.8 * cm in
  [ saveState;
    setStrokeColor black95;
    setLineWidth 1.5;
    rect x_offset y_offset CONTENT_BOX_WIDTH CONTENT_BOX_HEIGHT;
    restoreState ].

(* ===================================================================== *)
(** * 10. One sticker (the body of the loop)                              *)
(* ===================================================================== *)

Definition header_row_height : Q := 0.6 * cm.
Definition desc_row_height : Q := 0.8 * cm.
Definition qty_row_height : Q := 0.5 * cm.
Definition location_row_height : Q := 0.5 * cm.

Definition qr_width : Q := 1.5 * cm.
Definition main_content_width : Q := CONTENT_BOX_WIDTH - qr_width.

Definition header_col_width : Q := main_content_width * 0.22.
Definition content_col_width : Q := main_content_width * 0.71.

(** [desc[:30] + "..." if len(desc) > 30 else desc]: the conditional
    expression binds weaker than [+]. *)
Definition desc_text (desc : pystr) : pystr :=
  if decide (30 < length desc)%nat then take 30 desc ++ lit "..." else desc.

(** [Paragraph(text, style)]: the text is parsed when the paragraph is
    made. *)
Definition new_Paragraph (P : Platform) (text : pystr) (style : ParagraphStyle)
  : result Flowable :=
  match paragraph_error P text with
  | Some e => Raise e
  | None => Ok (Paragraph text style)
  end.

(** The main table around its three paragraphs. *)
Definition main_table_of (part_no_p desc_p qty_p : Flowable) : Flowable :=
  let main_table_data :=
    [ [Text (lit "Part No"); Flow part_no_p];
      [Text (lit "Desc"); Flow desc_p];
      [Text (lit "Q/B"); Flow qty_p] ] in
  Table main_table_data
        [header_col_width; content_col_width]
        [header_row_height; desc_row_height; qty_row_height]
        [ GRID (0, 0)%Z (-1, -1)%Z 1.0 black95;
          ALIGN (0, 0)%Z (-1, -1)%Z "CENTER";
          VALIGN (0, 0)%Z (-1, -1)%Z "MIDDLE";
          FONTNAME (0, 0)%Z (0, -1)%Z "Helvetica-Bold";
          FONTSIZE (0, 0)%Z (0, -1)%Z 8 ].

Definition main_table (part_no desc qty_bin : pystr) : Flowable :=
  main_table_of (Paragraph part_no bold_style)
                (Paragraph (desc_text desc) desc_style)
                (Paragraph qty_bin qty_style).

Definition inner_table_width : Q := content_col_width.

(** [sum(COLUMN_WIDTH_PROPORTIONS)] and the seven widths derived from it. *)
Definition total_proportion : Q := fold_left Qplus COLUMN_WIDTH_PROPORTIONS 0.

Definition inner_col_widths : list Q :=
  map (fun w => w * inner_table_width / total_proportion) COLUMN_WIDTH_PROPORTIONS.

(** The inner table of seven boxes, and the row that puts a label before
    it: the same construction for S.LOC and L.LOC. *)
Definition loc_inner_table (values : list pystr) : Flowable :=
  Table [map Text values] inner_col_widths [location_row_height]
        [ GRID (0, 0)%Z (-1, -1)%Z 1.0 black95;
          ALIGN (0, 0)%Z (-1, -1)%Z "CENTER";
          VALIGN (0, 0)%Z (-1, -1)%Z "MIDDLE";
          FONTNAME (0, 0)%Z (-1, -1)%Z "Helvetica-Bold";
          FONTSIZE (0, 0)%Z (-1, -1)%Z 8 ].

Definition loc_table (label : Flowable) (inner : Flowable) : Flowable :=
  Table [[Flow label; Flow inner]]
        [header_col_width; inner_table_width]
        [location_row_height]
        [ GRID (0, 0)%Z (-1, -1)%Z 1.0 black95;
          ALIGN (0, 0)%Z (-1, -1)%Z "CENTER";
          VALIGN (0, 0)%Z (-1, -1)%Z "MIDDLE" ].

Definition store_loc_style : ParagraphStyle :=
  mkParagraphStyle "StoreLoc" "Helvetica-Bold" 7 TA_CENTER 12.
Definition line_loc_style : ParagraphStyle :=
  mkParagraphStyle "LineLoc" "Helvetica-Bold" 7 TA_CENTER 12.

Definition store_loc_label : Flowable := Paragraph (lit "S.LOC") store_loc_style.

Definition line_loc_label : Flowable := Paragraph (lit "L.LOC") line_loc_style.

(** [parse_location_string(store_location) if store_location else
    ["", "", "", "", "", "", ""]]. *)
Definition store_loc_values (store_location : pystr) : list pystr :=
  if truthy store_location
  then parse_location_string (PyStr store_location)
  else [empty_str; empty_str; empty_str; empty_str; empty_str; empty_str; empty_str].

Definition store_loc_table (store_location : pystr) : Flowable :=
  loc_table store_loc_label (loc_inner_table (store_loc_values store_location)).

Definition line_loc_table (location_parts : list pystr) : Flowable :=
  loc_table line_loc_label (loc_inner_table location_parts).

Definition total_main_height : Q :=
  header_row_height + desc_row_height + qty_row_height.

Definition main_content_table (main store line : Flowable) : Flowable :=
  Table [[Flow main]; [Flow store]; [Flow line]]
        [main_content_width]
        [total_main_height; location_row_height; location_row_height]
        [ VALIGN (0, 0)%Z (-1, -1)%Z "TOP" ].

Definition qr_placeholder_style : ParagraphStyle :=
  mkParagraphStyle "QRPlaceholder" "Helvetica-Bold" 10 TA_CENTER 12.

Definition qr_placeholder : Flowable := Paragraph (lit "QR") qr_placeholder_style.

(** The table of the code region around what it holds. *)
Definition qr_table_of (content : Flowable) : Flowable :=
  Table [[Flow content]] [qr_width] [CONTENT_BOX_HEIGHT]
        [ ALIGN (0, 0)%Z (-1, -1)%Z "CENTER";
          VALIGN (0, 0)%Z (-1, -1)%Z "MIDDLE" ].

(** [if qr_image:] an Image object is true, [None] is not. *)
Definition qr_table (qr_image : option Flowable) : Flowable :=
  let data :=
    match qr_image with
    | Some img => [[Flow img]]
    | None => [[Flow qr_placeholder]]
    end in
  Table data [qr_width] [CONTENT_BOX_HEIGHT]
        [ ALIGN (0, 0)%Z (-1, -1)%Z "CENTER";
          VALIGN (0, 0)%Z (-1, -1)%Z "MIDDLE" ].

Definition final_table (content qr : Flowable) : Flowable :=
  Table [[Flow content; Flow qr]]
        [main_content_width; qr_width]
        [CONTENT_BOX_HEIGHT]
        [ VALIGN (0, 0)%Z (-1, -1)%Z "TOP" ].


(** The values read from one row ("Extract data"). *)
Record StickerRecord : Type := mkStickerRecord {
  part_no : pystr;
  desc : pystr;
  qty_bin : pystr;
  location_str : pystr;
  store_location : pystr
}.

(** [str(row[col]) if col and col in row else empty]. *)
Definition optional_field (P : Platform) (row : Row) (col : pyval) : result pystr :=
  if truthy col && row_contains row col
  then item_str P <$> row_getitem row col
  else Ok empty_str.

Definition extract_data (P : Platform) (m : ColumnMapping) (row : Row)
  : result StickerRecord :=
  part_no ← item_str P <$> row_getitem row (part_no_col m);
  desc ← item_str P <$> row_getitem row (desc_col m);
  qty_bin ←
    (and_then (Ok (truthy (qty_bin_col m)))
       (and_then (Ok (row_contains row (qty_bin_col m)))
          (row_getitem row (qty_bin_col m) ≫= notna_truth))
     ≫= λ c : bool,
     if c then item_str P <$> row_getitem row (qty_bin_col m) else Ok empty_str);
  location_str ← optional_field P row (loc_col m);
  store_location ← optional_field P row (store_loc_col m);
  Ok {| part_no := part_no;
        desc := desc;
        qty_bin := qty_bin;
        location_str := location_str;
        store_location := store_location |}.

(** The text that goes into the QR code. *)
Definition newline : pystr := [10%N].

Definition qr_data_of (r : StickerRecord) : pystr :=
  (lit "Part No: " ++ part_no r ++ newline
     ++ lit "Description: " ++ desc r ++ newline
     ++ lit "Location: " ++ location_str r ++ newline)
  ++ (lit "Store Location: " ++ store_location r ++ newline
        ++ lit "QTY/BIN: " ++ qty_bin r).

(** Lines 221-361 as they run: the paragraphs are made in the order of
    the source, any of them possibly raising, and the tables are built
    around them.  The paragraph QR is made only when there is no image. *)
Definition new_sticker_table (P : Platform) (r : StickerRecord)
    (qr_image : option Flowable) : result Flowable :=
  let location_parts := parse_location_string (PyStr (location_str r)) in
  part_no_p ← new_Paragraph P (part_no r) bold_style;
  desc_p ← new_Paragraph P (desc_text (desc r)) desc_style;
  qty_p ← new_Paragraph P (qty_bin r) qty_style;
  let main_table := main_table_of part_no_p desc_p qty_p in
  store_loc_label ← new_Paragraph P (lit "S.LOC") store_loc_style;
  let store_loc_table :=
    loc_table store_loc_label (loc_inner_table (store_loc_values (store_location r))) in
  line_loc_label ← new_Paragraph P (lit "L.LOC") line_loc_style;
  let line_loc_table := loc_table line_loc_label (loc_inner_table location_parts) in
  let main_content_table := main_content_table main_table store_loc_table line_loc_table in
  qr_table ←
    match qr_image with
    | Some img => Ok (qr_table_of img)
    | None =>
        placeholder ← new_Paragraph P (lit "QR") qr_placeholder_style;
        Ok (qr_table_of placeholder)
    end;
  Ok (final_table main_content_table qr_table).

(** The label of one record once its paragraphs have been made: the main
    content beside the QR region. *)
Definition sticker_table (r : StickerRecord) (qr_image : option Flowable) : Flowable :=
  let location_parts := parse_location_string (PyStr (location_str r)) in
  final_table
    (main_content_table
       (main_table (part_no r) (desc r) (qty_bin r))
       (store_loc_table (store_location r))
       (line_loc_table location_parts))
    (qr_table qr_image).

(** [a / b] on integers, and [progress_bar.progress(v)], which accepts a
    float between 0.0 and 1.0 only. *)
Definition true_div (a b : Z) : result Q :=
  if decide (b = 0)%Z then Raise ZeroDivisionError
  else Ok (inject_Z a / inject_Z b).

Definition progress_bar_progress (v : Q) : M unit :=
  if Qle_bool 0 v && Qle_bool v 1 then emit (progress v)
  else lift (Raise StreamlitAPIException).

(** Lines 179-361: the elements of one sticker. *)
Definition sticker_elements (P : Platform) (m : ColumnMapping)
    (progress_bar status_container : bool) (total_rows : Z)
    (index : Z) (row : Row) : M (list Flowable) :=
  when progress_bar
    (v ← lift (true_div (index + 1) total_rows); progress_bar_progress v);;
  when status_container
    (emit (status_write (lit "Creating sticker " ++ py_str (PyInt (index + 1))
                           ++ lit " of " ++ py_str (PyInt total_rows))));;
  r ← lift (extract_data P m row);
  qr_image ← generate_qr_code P (qr_data_of r);
  final_table ← lift (new_sticker_table P r qr_image);
  mret [Spacer 1 (0.3 * cm); final_table].

End Layout.

(* ===================================================================== *)
(** * 11. The loop, the document and [generate_sticker_labels]            *)
(* ===================================================================== *)

(** The [for] loop over [df.iterrows()], with [all_elements] as it stands
    before the rows that are left. *)
Fixpoint sticker_loop (P : Platform) (m : ColumnMapping)
    (progress_bar status_container : bool) (total_rows : Z)
    (todo : list (Z * Row)) (all_elements : list Flowable) : M (list Flowable) :=
  match todo with
  | [] => mret all_elements
  | (index, row) :: todo' =>
      elements ← sticker_elements P m progress_bar status_container total_rows index row;
      let all_elements := all_elements ++ elements in
      df ← get_df;
      let all_elements :=
        if decide (index < len df - 1)%Z
        then all_elements ++ [PageBreak]
        else all_elements in
      sticker_loop P m progress_bar status_container total_rows todo' all_elements
  end.

(** The frame that [SimpleDocTemplate] puts on every page: the page of
    [STICKER_PAGESIZE] inside the margins of 0.1 cm, less ReportLab's
    padding of 6 points at the top and at the bottom. *)
Definition frame_height : Q :=
  (STICKER_HEIGHT - 0.1 * cm - 0.1 * cm - 6 - 6)%Q.

(** The height a flowable takes in the frame: a spacer its height, a
    table with given row heights their sum, an image its height.  (A
    paragraph takes its lines; the script puts none into the story itself,
    and one line is counted here.) *)
Definition flowable_height (f : Flowable) : Q :=
  match f with
  | Spacer _ height => height
  | Paragraph _ style => inject_Z (leading style)
  | Image _ _ height => height
  | Table _ _ rowHeights _ => fold_left Qplus rowHeights 0%Q
  | PageBreak => 0%Q
  end.

Definition used_height (page : list Flowable) : Q :=
  fold_left Qplus (map flowable_height page) 0%Q.

Definition frame_takes (page : list Flowable) (f : Flowable) : bool :=
  Qle_bool (used_height page + flowable_height f) frame_height.

(** How Platypus fills pages from a story: the first flowable opens a
    page; a flowable goes on the page that is open while the frame has
    room for it, and otherwise closes that page and opens the next one; a
    [PageBreak] closes the page that is open (opening one first if none
    is); the end of the story closes the open page.  (A flowable too high
    for an empty frame makes [doc.build] raise, which is [build_error].) *)
Fixpoint lay_out (open : option (list Flowable)) (story : list Flowable)
  : list (list Flowable) :=
  match story with
  | [] => match open with Some p => [p] | None => [] end
  | PageBreak :: story' => default [] open :: lay_out None story'
  | f :: story' =>
      match open with
      | None => lay_out (Some [f]) story'
      | Some p =>
          if frame_takes p f then lay_out (Some (p ++ [f])) story'
          else p :: lay_out (Some [f]) story'
      end
  end.

(** [doc.build(story, onFirstPage=draw_border, onLaterPages=draw_border)]:
    every page gets the border. *)
Definition paginate (story : list Flowable) : Document :=
  map (mkPage draw_border) (lay_out None story).

(** Lines 370-379: the document (the script returns the path of the file
    that holds it) or [None]. *)
Definition build_document (P : Platform) (status_container : bool)
    (all_elements : list Flowable) : M (option Document) :=
  match build_error P all_elements with
  | None =>
      when status_container
        (emit (status_success (lit "PDF generated successfully!")));;
      mret (Some (paginate all_elements))
  | Some e =>
      when status_container
        (emit (status_error (lit "Error building PDF: " ++ e)));;
      mret None
  end.

(** Lines 127-153 and 155-162. *)
Definition identify_columns (P : Platform) (status_container : bool)
  : M ColumnMapping :=
  df0 ← get_df;
  let original_columns := columns df0 in
  set_columns (map (upper_label P) (columns df0));;
  df1 ← get_df;
  let cols := columns df1 in
  m ← lift (find_relevant_columns cols);
  when status_container
    (emit (status_write (lit "**Using columns:**"));;
     emit (status_write (lit "- Part No: " ++ py_str (part_no_col m)));;
     emit (status_write (lit "- Description: " ++ py_str (desc_col m)));;
     emit (status_write (lit "- Location: " ++ py_str (loc_col m)));;
     emit (status_write (lit "- Qty/Bin: " ++ py_str (qty_bin_col m)));;
     when (truthy (store_loc_col m))
       (emit (status_write (lit "- Store Location: " ++ py_str (store_loc_col m)))));;
  mret m.

(** Lines 174-368: [all_elements] when the loop is over. *)
Definition assemble_story (P : Platform) (m : ColumnMapping)
    (progress_bar status_container : bool) : M (list Flowable) :=
  df ← get_df;
  let total_rows := len df in
  sticker_loop P m progress_bar status_container total_rows (iterrows df) [].

Definition generate_sticker_labels (P : Platform)
    (progress_bar status_container : bool) : M (option Document) :=
  m ← identify_columns P status_container;
  all_elements ← assemble_story P m progress_bar status_container;
  build_document P status_container all_elements.

(** The call in [main]: the file is read into a fresh DataFrame, which
    the function is given together with a progress bar and a status area. *)
Definition uploaded (header : list pyval) (body : list (list cell)) : world :=
  {| df := read_table header body; screen := [] |}.

(* ===================================================================== *)
(** * 12. [main]: what the page shows                                     *)
(* ===================================================================== *)

(** [s.endswith(suffix)]. *)
Definition str_endswith (suffix s : pystr) : bool := startswith (rev suffix) (rev s).

(** [s.split(sep)] for a separator of one code point: the parts between
    the separators, one more than there are separators. *)
Fixpoint str_split1 (sep : codepoint) (s : pystr) : list pystr :=
  match s with
  | [] => [[]]
  | c :: s' =>
      if (c =? sep)%N then [] :: str_split1 sep s'
      else match str_split1 sep s' with
           | part :: parts => (c :: part) :: parts
           | [] => [[c]]
           end
  end.

Definition dot : codepoint := 46%N.

(** [sep.join(labels)] on a list of Python values: [TypeError] on the
    first item that is not a string. *)
Fixpoint join_labels (sep : pystr) (labels : list pyval) : result pystr :=
  match labels with
  | [] => Ok []
  | PyStr s :: rest =>
      match rest with
      | [] => Ok s
      | _ :: _ => t ← join_labels sep rest; Ok (s ++ sep ++ t)
      end
  | _ :: _ => Raise TypeError
  end.

(** The file the user has uploaded. *)
Record UploadedFile : Type := mkUploadedFile {
  file_name : pystr;
  file_bytes : list N
}.

(** What [main] takes from Python and pandas that is not written in the
    script:
    - [str_lower name]: [name.lower()];
    - [read_csv f], [read_excel f]: the DataFrame the loader makes of the
      file, or the message of the exception it raises;
    - [exception_str e]: [str(e)] for an exception raised further on. *)
Record Host : Type := mkHost {
  str_lower : pystr -> pystr;
  read_csv : UploadedFile -> pystr + DataFrame;
  read_excel : UploadedFile -> pystr + DataFrame;
  exception_str : exn -> pystr
}.

(** On ASCII, [lower] maps A..Z to a..z and leaves the rest; the ASCII
    code points of a name are mapped one by one whatever stands before
    them. *)
Definition ascii_lower (c : codepoint) : codepoint :=
  if ((65 <=? c) && (c <=? 90))%N then (c + 32)%N else c.

Definition lower_law (H : Host) : Prop :=
  forall s t, is_ascii t ->
    exists s', str_lower H (s ++ t) = s' ++ map ascii_lower t /\
               (s = [] -> s' = []).

(** The elements that the script puts on the page, one for each call of
    Streamlit, in the order of the calls.  (The status area holds one
    element at a time: a new line takes the place of the line before it;
    the progress bar keeps the last value it was given.) *)
Inductive widget : Type :=
| page_success (msg : pystr)
| page_error (msg : pystr)
| page_info (msg : pystr)
| page_subheader (msg : pystr)
| page_write (msg : pystr)
| page_dataframe (shown : DataFrame)
| page_button (label : pystr)
| page_spinner (msg : pystr)
| page_progress (value : Q)
| page_empty
| page_status (e : event)
| page_download_button (label : pystr) (data : Document) (name mime : pystr).

(** What [generate_sticker_labels] and [generate_qr_code] show lands on
    the page: [st.error] as an error of the page, the rest in the progress
    bar and the status area that [main] has created. *)
Definition on_page (e : event) : widget :=
  match e with
  | st_error msg => page_error msg
  | _ => page_status e
  end.

(** The icons of the labels, as the code points that stand in the file. *)
Definition icon_preview : pystr := [63743; 252; 236; 228]%N.
Definition icon_generate : pystr := [63743; 252; 246; 196]%N.
Definition icon_download : pystr := [63743; 252; 236; 8226]%N.
Definition icon_done : pystr := [8218; 250; 214]%N.
Definition icon_failed : pystr := [8218; 249; 229]%N.
Definition icon_upload : pystr := [63743; 252; 235; 224]%N.

(** Lines 416-419: the loader is chosen by the extension of the name. *)
Definition load_file (H : Host) (uploaded_file : UploadedFile) : pystr + DataFrame :=
  if str_endswith (lit ".csv") (str_lower H (file_name uploaded_file))
  then read_csv H uploaded_file
  else read_excel H uploaded_file.

(** [df.head(10)]. *)
Definition head10 (d : DataFrame) : DataFrame :=
  {| columns := columns d; rows := take 10 (rows d) |}.

(** Line 450: [f"{uploaded_file.name.split('.')[0]}_sticker_labels.pdf"];
    [split] never returns an empty list. *)
Definition download_file_name (name : pystr) : pystr :=
  hd empty_str (str_split1 dot name) ++ lit "_sticker_labels.pdf".

Definition error_reading_file (msg : pystr) : widget :=
  page_error (lit "Error reading file: " ++ msg).

(** Lines 430-457: the button has been pressed. *)
Definition generate_clicked (P : Platform) (H : Host) (uploaded_file : UploadedFile)
    (table : DataFrame) : list widget :=
  let '(pdf_path, w) :=
    generate_sticker_labels P true true {| df := table; screen := [] |} in
  [page_spinner (lit "Generating sticker labels..."); page_progress 0; page_empty]
    ++ map on_page (screen w)
    ++ match pdf_path with
       | Ok (Some pdf_data) =>
           [ page_download_button (icon_download ++ lit " Download PDF") pdf_data
               (download_file_name (file_name uploaded_file)) (lit "application/pdf");
             page_success (icon_done ++ lit " Tote labels generated successfully!") ]
       | Ok None =>
           [ page_error (icon_failed ++ lit " Failed to generate tote labels") ]
       | Raise e => [ error_reading_file (exception_str H e) ]
       end.

(** Lines 413-462, the left column: the preview of the table, and the
    labels when the button is pressed.  Every exception between the
    loader and the download ends in the one [except] of line 459. *)
Definition file_section (P : Platform) (H : Host)
    (uploaded_file : option UploadedFile) (clicked : bool) : list widget :=
  match uploaded_file with
  | Some f =>
      match load_file H f with
      | inl msg => [error_reading_file msg]
      | inr table =>
          [ page_subheader (icon_preview ++ lit " Data Preview");
            page_write (lit "**Total rows:** " ++ py_str (PyInt (len table))) ]
            ++ match join_labels (lit ", ") (columns table) with
               | Raise e => [error_reading_file (exception_str H e)]
               | Ok names =>
                   [ page_write (lit "**Columns:** " ++ names);
                     page_dataframe (head10 table);
                     page_button (icon_generate ++ lit " Generate Tote Labels") ]
                     ++ (if clicked then generate_clicked P H f table else [])
               end
      end
  | None =>
      [ page_info (icon_upload
                     ++ lit " Please upload an Excel or CSV file to get started") ]
  end.

(** [main], for what depends on the upload and on the button: the note in
    the sidebar (lines 406-407) and the left column.  The title, the
    header of the sidebar and the information column are the same on every
    run and are left out. *)
Definition main (P : Platform) (H : Host)
    (uploaded_file : option UploadedFile) (clicked : bool) : list widget :=
  match uploaded_file with
  | Some f => [page_success (lit "File uploaded: " ++ file_name f)]
  | None => []
  end
    ++ file_section P H uploaded_file clicked.

(** A test double of the host: ASCII lower-casing, a CSV loader that
    reads every file as the table of the example, no Excel reader, and for
    [str(e)] the texts of the exceptions that the examples meet. *)
Definition test_host (table : DataFrame) : Host :=
  {| str_lower := map ascii_lower;
     read_csv := fun _ => inr table;
     read_excel := fun _ => inl (lit "Missing optional dependency 'openpyxl'.");
     exception_str := fun e =>
       match e with
       | IndexError => lit "list index out of range"
       | TypeError => lit "sequence item 1: expected str instance, int found"
       | KeyError => lit "KeyError"
       | ValueError => lit "The truth value of a Series is ambiguous."
       | ZeroDivisionError => lit "division by zero"
       | StreamlitAPIException => lit "Progress Value has invalid value"
       end |}.

(* ===================================================================== *)
(** * 13. The vocabulary of the properties                                *)
(* ===================================================================== *)

(** Definitions that the statements below use: the rules and the words of
    the specification written out for comparison with the code, the
    places of a label, and the tables that serve as examples. *)

(** The rules of the specification, for comparison: each role takes the
    first column that satisfies its first rule, else the first that
    satisfies its second rule, and so on down to a positional column or to
    no column at all.  [ups] are the upper-cased names. *)
Definition has (needle : string) (c : pystr) : bool := str_contains (lit needle) c.

Definition is_part_no (c : pystr) : bool :=
  has "PART" c && (has "NO" c || (has "NUM" c || has "#" c)).
Definition is_part_exact (c : pystr) : bool :=
  existsb (fun name => pystr_eqb c (lit name)) ["PARTNO"; "PART"]%string.
Definition is_qty_bin (c : pystr) : bool :=
  has "QTY/BIN" c || (has "QTY_BIN" c || has "QTYBIN" c).
Definition is_qty_and_bin (c : pystr) : bool := has "QTY" c && has "BIN" c.
Definition is_loc (c : pystr) : bool :=
  has "LOC" c || (has "POS" c || has "LOCATION" c).
Definition is_store_loc (c : pystr) : bool := has "STORE" c && has "LOC" c.

Definition first_column (rule : pystr -> bool) (ups : list pystr) : option pyval :=
  PyStr <$> find rule ups.

Definition column_at (ups : list pystr) (i : nat) : pyval := PyStr (nth i ups []).

Definition resolve_by_rules (ups : list pystr) : ColumnMapping :=
  let part_no :=
    default (default (column_at ups 0) (first_column is_part_exact ups))
            (first_column is_part_no ups) in
  let description :=
    default (default (if decide (1 < length ups) then column_at ups 1 else part_no)
                     (first_column (has "NAME") ups))
            (first_column (has "DESC") ups) in
  let quantity_per_bin :=
    default (default (default (default PyNone (first_column (has "QUANTITY") ups))
                              (first_column (has "QTY") ups))
                     (first_column is_qty_and_bin ups))
            (first_column is_qty_bin ups) in
  let line_location :=
    default (if decide (2 < length ups) then column_at ups 2 else description)
            (first_column is_loc ups) in
  let store_location :=
    default (default PyNone (first_column (has "STORELOCATION") ups))
            (first_column is_store_loc ups) in
  {| part_no_col := part_no;
     desc_col := description;
     qty_bin_col := quantity_per_bin;
     loc_col := line_location;
     store_loc_col := store_location |}.

(** [is_ascii], as a test. *)
Definition is_asciib (s : pystr) : bool := forallb (fun c => (c <? 128)%N) s.

(** The header of the example in the specification. *)
Definition inventory_columns : list pystr :=
  [lit "Part Number"; lit "Description"; lit "Location"; lit "Qty/Bin";
   lit "Store Location"].

(** A role is mapped to a column of the table, or to no column. *)
Definition is_column (ups : list pystr) (v : pyval) : Prop :=
  exists c, v = PyStr c /\ In c ups.

(** The same, or [None]. *)
Definition column_or_none (ups : list pystr) (v : pyval) : Prop :=
  v = PyNone \/ is_column ups v.

(** A mapping over the upper-cased names [ups] in which the three
    mandatory roles are columns, the two optional roles are columns or
    [None], and the roles without a matching name sit at their fallback
    positions. *)
Definition resolved_with_fallbacks (ups : list pystr) (m : ColumnMapping) : Prop :=
  is_column ups (part_no_col m) /\
  is_column ups (desc_col m) /\
  is_column ups (loc_col m) /\
  column_or_none ups (qty_bin_col m) /\
  column_or_none ups (store_loc_col m) /\
  (Forall (fun c => is_part_no c = false) ups ->
   Forall (fun c => is_part_exact c = false) ups ->
   part_no_col m = column_at ups 0) /\
  (Forall (fun c => has "DESC" c = false) ups ->
   Forall (fun c => has "NAME" c = false) ups ->
   desc_col m = if decide (1 < length ups) then column_at ups 1 else part_no_col m) /\
  (Forall (fun c => is_loc c = false) ups ->
   loc_col m = if decide (2 < length ups) then column_at ups 2 else desc_col m).

(** The world after more has been shown. *)
Definition shows (w : world) (evs : list event) : world :=
  {| df := df w; screen := screen w ++ evs |}.

(** The image, or [None], that [generate_qr_code] returns for a text. *)
Definition qr_image_of (P : Platform) (data_string : pystr) : option Flowable :=
  match qr_error P data_string with
  | None => Some (Image (mkQRCode 1 "ERROR_CORRECT_M" 10 4 data_string)
                        (1.5 * cm)%Q (1.5 * cm)%Q)
  | Some _ => None
  end.

(** The texts of the paragraphs of a label, in the order in which they
    are made, and the exception of the first of them that cannot be
    parsed. *)
Definition label_texts (r : StickerRecord) (qr_image : option Flowable) : list pystr :=
  [part_no r; desc_text (desc r); qty_bin r; lit "S.LOC"; lit "L.LOC"]
    ++ match qr_image with Some _ => [] | None => [lit "QR"] end.

Fixpoint first_error (P : Platform) (texts : list pystr) : option exn :=
  match texts with
  | [] => None
  | text :: texts' =>
      match paragraph_error P text with
      | Some e => Some e
      | None => first_error P texts'
      end
  end.

Definition label_error (P : Platform) (r : StickerRecord) : option exn :=
  first_error P (label_texts r (qr_image_of P (qr_data_of r))).

(** Every label of these records can be made. *)
Definition labels_made (P : Platform) (recs : list StickerRecord) : Prop :=
  Forall (fun r => label_error P r = None) recs.

(** The exception of the first record whose label cannot be made. *)
Fixpoint first_label_error (P : Platform) (recs : list StickerRecord) : option exn :=
  match recs with
  | [] => None
  | r :: recs' =>
      match label_error P r with
      | Some e => Some e
      | None => first_label_error P recs'
      end
  end.

(** The elements of one sticker, as a function of the record read from
    the row. *)
Definition sticker_of (P : Platform) (r : StickerRecord) : list Flowable :=
  [Spacer 1 (0.3 * cm)%Q; sticker_table r (qr_image_of P (qr_data_of r))].

(** The words of the specification, for comparison: the stickers in
    order, with a page break after each one except the last. *)
Fixpoint with_breaks (stickers : list (list Flowable)) : list Flowable :=
  match stickers with
  | [] => []
  | [sticker] => sticker
  | sticker :: rest => sticker ++ PageBreak :: with_breaks rest
  end.

(** What the loop appends from row [k] on, when the table has [n] rows. *)
Fixpoint appended_from (n k : nat) (stickers : list (list Flowable)) : list Flowable :=
  match stickers with
  | [] => []
  | sticker :: rest =>
      sticker
        ++ (if decide (Z.of_nat k < Z.of_nat n - 1)%Z then [PageBreak] else [])
        ++ appended_from n (S k) rest
  end.

(** The records of the rows numbered from [k]. *)
Definition records_from (P : Platform) (m : ColumnMapping) (cols : list pyval)
    (k : nat) (body : list (list cell)) (recs : list StickerRecord) : Prop :=
  Forall2 (fun '(index, cells) r => extract_data P m (mkRow cols index cells) = Ok r)
          (RangeIndex k body) recs.

(** An entry of the index with its cells, as [iterrows] yields it. *)
Definition row_of (cols : list pyval) (it : Z * list cell) : Z * Row :=
  let '(index, cells) := it in (index, mkRow cols index cells).

(** The breaks of a story. *)
Definition count_breaks (story : list Flowable) : nat :=
  length (List.filter is_PageBreak story).

(** Statements that complete and only show something. *)
Definition only_shows (stmt : M unit) : Prop :=
  forall w, exists evs, stmt w = (Ok tt, shows w evs).

(** Cell [(r, c)] of a table, and the flowable in a cell. *)
Definition table_cell (f : Flowable) (r c : nat) : option TableCell :=
  match f with
  | Table data _ _ _ => row ← data !! r; row !! c
  | _ => None
  end.

Definition flowable_in (f : Flowable) (r c : nat) : option Flowable :=
  match table_cell f r c with
  | Some (Flow g) => Some g
  | _ => None
  end.

(** Where the description and the QR code sit in a label: the label is
    [main content | code region]; the main content stacks the main table
    over the two location rows; the description is the value of the second
    row of the main table. *)
Definition rendered_desc (label : Flowable) : option Flowable :=
  content ← flowable_in label 0 0;
  main ← flowable_in content 0 0;
  flowable_in main 1 1.

Definition code_region (label : Flowable) : option Flowable :=
  region ← flowable_in label 0 1;
  flowable_in region 0 0.

(** Statements that leave the DataFrame as it is. *)
Definition keeps_df {A} (stmt : M A) : Prop := forall w, df (stmt w).2 = df w.

(** Three rows under that header; the last one is a cell short. *)
Definition sample_rows : list (list cell) :=
  [ [CellStr (lit "P-100"); CellStr (lit "Hexagon head bolt M8 x 40 zinc plated");
     CellStr (lit "A_1_2"); CellScalar (lit "12"); CellStr (lit "S_4")];
    [CellStr (lit "P-200"); CellStr (lit "Washer"); CellNaN; CellNaN; CellNaN];
    [CellStr (lit "P-300"); CellStr (lit "Nut M8"); CellStr (lit "B 7"); CellScalar (lit "40")] ].

(** A table whose second row carries more text than the encoder of
    [test_platform 100] takes. *)
Definition overlong_rows : list (list cell) :=
  [ [CellStr (lit "P-100"); CellStr (lit "Bolt"); CellStr (lit "A_1"); CellScalar (lit "12");
     CellStr (lit "S_4")];
    [CellStr (lit "P-200");
     CellStr (lit "Hexagon head bolt M8 x 40 zinc plated, full thread, class 8.8");
     CellStr (lit "A_2"); CellScalar (lit "3"); CellStr (lit "S_5")] ].

(** The searches that always run to their first match: when each of them
    finds a column among [ups], the search for the columns never looks
    at the labels that come after [ups]. *)
Definition settles_every_role (ups : list pystr) : bool :=
  existsb is_part_no ups && existsb (has "NAME") ups && existsb (has "DESC") ups
  && existsb is_qty_bin ups && existsb (has "STORELOCATION") ups.

(** [c] is the one column that passes a test. *)
Definition only_match (rule : pystr -> bool) (ups : list pystr) (c : pystr) : Prop :=
  In c ups /\ rule c = true /\ forall c', In c' ups -> rule c' = true -> c' = c.

(** How many columns carry a label. *)
Definition occurrences (c : pystr) (ups : list pystr) : nat :=
  length (List.filter (fun u => bool_decide (u = c)) ups).

(** The quantity is read under a label that several columns carry. *)
Definition quantity_is_series (ups : list pystr) (m : ColumnMapping) : bool :=
  match qty_bin_col m with
  | PyStr q => bool_decide (1 < occurrences q ups)
  | _ => false
  end.

(** What the row with index label [index] shows, given the record read
    from it, and what it appends to the story of a table of [n] rows. *)
Definition row_events (P : Platform) (progress_bar status_container : bool)
    (total_rows index : Z) (r : StickerRecord) : list event :=
  (if progress_bar then [progress (inject_Z (index + 1) / inject_Z total_rows)%Q] else [])
    ++ (if status_container
        then [status_write (lit "Creating sticker " ++ py_str (PyInt (index + 1))
                              ++ lit " of " ++ py_str (PyInt total_rows))]
        else [])
    ++ match qr_error P (qr_data_of r) with
       | Some e => [st_error (lit "Error generating QR code: " ++ e)]
       | None => []
       end.

Definition row_story (P : Platform) (n index : Z) (r : StickerRecord) : list Flowable :=
  sticker_of P r ++ (if decide (index < n - 1)%Z then [PageBreak] else []).

(** The lines about the columns, and the line about the document. *)
Definition column_events (status_container : bool) (m : ColumnMapping) : list event :=
  if status_container
  then [ status_write (lit "**Using columns:**");
         status_write (lit "- Part No: " ++ py_str (part_no_col m));
         status_write (lit "- Description: " ++ py_str (desc_col m));
         status_write (lit "- Location: " ++ py_str (loc_col m));
         status_write (lit "- Qty/Bin: " ++ py_str (qty_bin_col m)) ]
         ++ (if truthy (store_loc_col m)
             then [status_write (lit "- Store Location: " ++ py_str (store_loc_col m))]
             else [])
  else [].

Definition build_events (P : Platform) (status_container : bool)
    (story : list Flowable) : list event :=
  if status_container
  then [ match build_error P story with
         | None => status_success (lit "PDF generated successfully!")
         | Some e => status_error (lit "Error building PDF: " ++ e)
         end ]
  else [].

(** The outcome of [doc.build]. *)
Definition built (P : Platform) (story : list Flowable) : option Document :=
  match build_error P story with
  | None => Some (paginate story)
  | Some _ => None
  end.

(** The rows with the records read from them. *)
Definition reads (P : Platform) (m : ColumnMapping) (cols : list pyval)
    (rws : list (Z * list cell)) (recs : list StickerRecord) : Prop :=
  Forall2 (fun it r => extract_data P m (mkRow cols it.1 it.2) = Ok r) rws recs.

Definition story_of (P : Platform) (n : Z) (labelled : list (Z * StickerRecord))
  : list Flowable :=
  concat (map (fun ir => row_story P n ir.1 ir.2) labelled).

Definition events_of (P : Platform) (progress_bar status_container : bool)
    (total_rows : Z) (labelled : list (Z * StickerRecord)) : list event :=
  concat (map (fun ir => row_events P progress_bar status_container total_rows ir.1 ir.2)
              labelled).

(** The index labels of the rows, paired with the records. *)
Definition labelled_with (rws : list (Z * list cell)) (recs : list StickerRecord)
  : list (Z * StickerRecord) :=
  zip (map fst rws) recs.

(** The progress bar takes these index labels: the table has rows and
    [(index + 1) / n] lies between 0 and 1. *)
Definition progress_accepts (n index : Z) : Prop := (0 < n /\ -1 <= index < n)%Z.


(** The test of line 367 on an index label. *)
Definition breaks_after (n index : Z) : bool := bool_decide (index < n - 1)%Z.

(** The shape that [Table(data, colWidths, rowHeights)] asks for: as many
    row heights as rows, in every row as many cells as column widths,
    and the same for the tables in the cells. *)
Fixpoint well_shaped (f : Flowable) : bool :=
  match f with
  | Table data colWidths rowHeights _ =>
      (length data =? length rowHeights)%nat
      && forallb (fun row => (length row =? length colWidths)%nat
                             && forallb (fun c => match c with
                                                  | Text _ => true
                                                  | Flow g => well_shaped g
                                                  end) row)
                 data
  | _ => true
  end.

(** The texts in the boxes of a location row of a label: the main content
    stacks the main table, the row of the store location and the row of
    the line location; a location row is a caption beside the boxes. *)
Definition boxes (row : Flowable) : option (list TableCell) :=
  inner ← flowable_in row 0 1;
  match inner with
  | Table data _ _ _ => data !! 0
  | _ => None
  end.

Definition store_loc_boxes (label : Flowable) : option (list TableCell) :=
  content ← flowable_in label 0 0;
  row ← flowable_in content 1 0;
  boxes row.

Definition line_loc_boxes (label : Flowable) : option (list TableCell) :=
  content ← flowable_in label 0 0;
  row ← flowable_in content 2 0;
  boxes row.

(** The cell of a row at a position; a row that is short of cells reads
    as [nan] there. *)
Definition cell_at (cells : list cell) (i : nat) : cell := nth i cells CellNaN.

(** A string without a line break. *)
Definition one_line (s : pystr) : Prop := ~ In 10%N s.

(** The page down to the button, for a file that has been read into
    [table] with the string labels [names]. *)
Definition preview (f : UploadedFile) (table : DataFrame) (names : list pystr)
  : list widget :=
  [ page_success (lit "File uploaded: " ++ file_name f);
    page_subheader (icon_preview ++ lit " Data Preview");
    page_write (lit "**Total rows:** " ++ py_str (PyInt (len table)));
    page_write (lit "**Columns:** " ++ str_join (lit ", ") names);
    page_dataframe (head10 table);
    page_button (icon_generate ++ lit " Generate Tote Labels") ].

(** What opens the part of the page that the button adds. *)
Definition working : list widget :=
  [page_spinner (lit "Generating sticker labels..."); page_progress 0; page_empty].

(** The two elements that offer a document, and the element that says
    that none was made. *)
Definition offer (f : UploadedFile) (pdf_data : Document) : list widget :=
  [ page_download_button (icon_download ++ lit " Download PDF") pdf_data
      (download_file_name (file_name f)) (lit "application/pdf");
    page_success (icon_done ++ lit " Tote labels generated successfully!") ].

Definition failed : list widget :=
  [ page_error (icon_failed ++ lit " Failed to generate tote labels") ].

(** A page with a download button. *)
Definition offers_download (page : list widget) (pdf_data : Document) (name : pystr) : Prop :=
  exists label mime, In (page_download_button label pdf_data name mime) page.

(** A result that is a value with a property, or one of the exceptions
    that are allowed; a statement all of whose runs end so. *)
Definition ends_in {A} (Q : A -> Prop) (E : exn -> Prop) (r : result A) : Prop :=
  match r with
  | Ok a => Q a
  | Raise e => E e
  end.

Definition runs_to {A} (Q : A -> Prop) (E : exn -> Prop) (stmt : M A) : Prop :=
  forall w, ends_in Q E (stmt w).1.

(** The roles of a mapping are labels of the table, the two optional ones
    possibly [None]. *)
Definition mapping_in (cols : list pyval) (m : ColumnMapping) : Prop :=
  In (part_no_col m) cols /\
  In (desc_col m) cols /\
  In (loc_col m) cols /\
  (qty_bin_col m = PyNone \/ In (qty_bin_col m) cols) /\
  (store_loc_col m = PyNone \/ In (store_loc_col m) cols).

(** A test on a label raises [TypeError] only, and only on a label that
    is not a string. *)
Definition label_test (cond : pyval -> result bool) : Prop :=
  forall col,
    ends_in (fun _ => True) (fun e => e = TypeError /\ isinstance_str col = false) (cond col).

(** The exceptions of the search for the columns, and of the loop. *)
Definition search_error (cols : list pyval) (e : exn) : Prop :=
  (e = IndexError /\ cols = []) \/
  (e = TypeError /\ Exists (fun v => isinstance_str v = false) cols).

Definition loop_error (P : Platform) (progress_bar : bool) (e : exn) : Prop :=
  e = ValueError \/
  (e = StreamlitAPIException /\ progress_bar = true) \/
  (exists text, paragraph_error P text = Some e).

(* ===================================================================== *)
(** * 14. Properties of the location parser                               *)
(* ===================================================================== *)

Lemma class_not_separator c : not_underscore_space c = negb (is_separator c).
Proof. unfold not_underscore_space, is_separator. by rewrite orb_comm. Qed.

Lemma greedy_split cls s : (greedy cls s).1 ++ (greedy cls s).2 = s.
Proof.
  induction s as [|c s IH]; simpl; [done|].
  destruct (cls c); [|done].
  destruct (greedy cls s) as [m rest]; simpl in *. by rewrite IH.
Qed.

Lemma greedy_inside cls s : Forall (fun c => cls c = true) (greedy cls s).1.
Proof.
  induction s as [|c s IH]; simpl; [constructor|].
  destruct (cls c) eqn:Hc; [|constructor].
  destruct (greedy cls s) as [m rest]; simpl in *. by constructor.
Qed.

Lemma greedy_stops cls s :
  (greedy cls s).2 = [] \/
  exists c rest, (greedy cls s).2 = c :: rest /\ cls c = false.
Proof.
  induction s as [|c s IH]; simpl; [by left|].
  destruct (cls c) eqn:Hc; [|right; eauto].
  destruct (greedy cls s) as [m rest]; simpl in *. exact IH.
Qed.

(** A token followed by a separator, or by the end, is matched whole. *)
Lemma greedy_token cls tok rest :
  Forall (fun c => cls c = true) tok ->
  (rest = [] \/ exists c rest', rest = c :: rest' /\ cls c = false) ->
  greedy cls (tok ++ rest) = (tok, rest).
Proof.
  intros Htok Hrest. induction Htok as [|c tok Hc _ IH]; simpl.
  - destruct Hrest as [->|(c & rest' & -> & Hc)]; simpl; [done|]. by rewrite Hc.
  - by rewrite Hc, IH.
Qed.

Lemma re_findall_skip seps s :
  Forall (fun c => is_separator c = true) seps ->
  re_findall (seps ++ s) = re_findall s.
Proof.
  induction 1 as [|c seps Hc _ IH]; simpl; [done|].
  simp re_findall. by rewrite class_not_separator, Hc.
Qed.

Lemma re_findall_token tok rest :
  tok <> [] ->
  Forall (fun c => is_separator c = false) tok ->
  (rest = [] \/ exists c rest', rest = c :: rest' /\ is_separator c = true) ->
  re_findall (tok ++ rest) = tok :: re_findall rest.
Proof.
  intros Hne Htok Hrest. destruct tok as [|c tok]; [done|].
  apply Forall_cons_1 in Htok as [Hc Htok]. simpl. simp re_findall.
  rewrite class_not_separator, Hc. simpl.
  rewrite (greedy_token not_underscore_space tok rest); [done| |].
  - eapply Forall_impl; [|exact Htok].
    intros x Hx. simpl in Hx. by rewrite class_not_separator, Hx.
  - destruct Hrest as [->|(x & rest' & -> & Hx)]; [by left|right].
    exists x, rest'. by rewrite class_not_separator, Hx.
Qed.

(** The regular expression finds the maximal runs, and nothing else does:
    the relation of the specification has [re_findall] as its only
    solution. *)
Lemma MaximalRuns_separator c s toks :
  is_separator c = true -> MaximalRuns s toks -> MaximalRuns (c :: s) toks.
Proof.
  intros Hc Hruns. destruct Hruns as [seps Hseps|seps tok rest toks Hseps Hne Htok Hrest Hruns].
  - apply runs_done. by constructor.
  - apply (runs_token (c :: seps)); auto.
Qed.

Lemma re_findall_MaximalRuns s : MaximalRuns s (re_findall s).
Proof.
  remember (length s) as n eqn:Hn. revert s Hn.
  induction n as [n IH] using lt_wf_ind. intros s Hn.
  destruct s as [|c s]; simp re_findall.
  - apply runs_done. constructor.
  - destruct (not_underscore_space c) eqn:Hc.
    + pose proof (greedy_split not_underscore_space s) as Hsplit.
      pose proof (greedy_inside not_underscore_space s) as Hin.
      pose proof (greedy_stops not_underscore_space s) as Hstop.
      destruct (greedy not_underscore_space s) as [m rest]; simpl in *.
      subst s.
      apply (runs_token [] (c :: m) rest).
      * constructor.
      * done.
      * constructor.
        -- rewrite class_not_separator in Hc. by apply negb_true_iff in Hc.
        -- eapply Forall_impl; [|exact Hin]. intros x Hx. simpl in Hx.
           rewrite class_not_separator in Hx. by apply negb_true_iff in Hx.
      * destruct Hstop as [->|(x & rest' & -> & Hx)]; [by left|right].
        exists x, rest'. split; [done|].
        rewrite class_not_separator in Hx. by apply negb_false_iff in Hx.
      * apply (IH (length rest)); [|done]. subst n. simpl. rewrite length_app. lia.
    + apply MaximalRuns_separator.
      * rewrite class_not_separator in Hc. by apply negb_false_iff in Hc.
      * apply (IH (length s)); [|done]. subst n. simpl. lia.
Qed.

Lemma MaximalRuns_re_findall s toks : MaximalRuns s toks -> toks = re_findall s.
Proof.
  induction 1 as [seps Hseps|seps tok rest toks Hseps Hne Htok Hrest _ IH].
  - rewrite <- (app_nil_r seps), re_findall_skip by done. by simp re_findall.
  - rewrite re_findall_skip by done.
    rewrite re_findall_token by done. by rewrite IH.
Qed.

Lemma MaximalRuns_unique s toks1 toks2 :
  MaximalRuns s toks1 -> MaximalRuns s toks2 -> toks1 = toks2.
Proof.
  intros H1 H2.
  by rewrite (MaximalRuns_re_findall _ _ H1), (MaximalRuns_re_findall _ _ H2).
Qed.

Lemma MaximalRuns_tokens s toks :
  MaximalRuns s toks ->
  Forall (fun tok => tok <> [] /\ Forall (fun c => is_separator c = false) tok) toks.
Proof. induction 1; constructor; auto. Qed.

(** Separators at the end of the string change nothing. *)
Lemma MaximalRuns_trailing s toks seps :
  Forall (fun c => is_separator c = true) seps ->
  MaximalRuns s toks -> MaximalRuns (s ++ seps) toks.
Proof.
  intros Hseps. induction 1 as [seps0 H0|seps0 tok rest toks H0 Hne Htok Hrest _ IH].
  - apply runs_done. by apply Forall_app.
  - rewrite <- !app_assoc. apply runs_token; auto.
    destruct Hrest as [->|(c & rest' & -> & Hc)].
    + destruct Hseps as [|c seps Hc Hseps]; [by left|right]. simpl. eauto.
    + right. simpl. eauto.
Qed.

Lemma str_lstrip_split s :
  exists spaces,
    Forall (fun c => Py_UNICODE_ISSPACE c = true) spaces /\ s = spaces ++ str_lstrip s.
Proof.
  induction s as [|c s (spaces & Hsp & Heq)]; simpl.
  - exists []. by split.
  - destruct (Py_UNICODE_ISSPACE c) eqn:Hc.
    + exists (c :: spaces). split; [by constructor|]. simpl. by rewrite <- Heq.
    + exists []. by split.
Qed.

Lemma str_strip_split s :
  exists before after,
    Forall (fun c => Py_UNICODE_ISSPACE c = true) before /\
    Forall (fun c => Py_UNICODE_ISSPACE c = true) after /\
    s = before ++ str_strip s ++ after.
Proof.
  destruct (str_lstrip_split s) as (before & Hb & Hs).
  destruct (str_lstrip_split (rev (str_lstrip s))) as (after & Ha & Hr).
  exists before, (rev after). split; [done|]. split.
  - by apply Forall_rev.
  - unfold str_strip, str_rstrip. rewrite <- rev_app_distr, <- Hr, rev_involutive.
    exact Hs.
Qed.

Lemma space_is_separator spaces :
  Forall (fun c => Py_UNICODE_ISSPACE c = true) spaces ->
  Forall (fun c => is_separator c = true) spaces.
Proof.
  apply Forall_impl. intros c Hc. unfold is_separator. by rewrite Hc.
Qed.

(** Trimming first does not change what the pattern finds. *)
Lemma re_findall_strip s : re_findall (str_strip s) = re_findall s.
Proof.
  destruct (str_strip_split s) as (before & after & Hb & Ha & Hs).
  apply MaximalRuns_re_findall.
  rewrite Hs at 1.
  pose proof (re_findall_MaximalRuns (str_strip s)) as Hruns.
  apply (MaximalRuns_trailing _ _ after) in Hruns; [|by apply space_is_separator].
  apply space_is_separator in Hb.
  clear -Hb Hruns. induction Hb as [|c before Hc _ IH]; simpl; [done|].
  by apply MaximalRuns_separator.
Qed.

(** The slots are the first seven tokens, padded with empty strings. *)
Lemma fill_slots (matches : list pystr) :
  fold_left (fun parts '(i, m) => <[i:=m]> parts)
            (enumerate (take 7 matches)) (replicate 7 empty_str)
  = map (slot_of matches) (seq 0 7).
Proof.
  do 7 (destruct matches as [|? matches]; [reflexivity|]). reflexivity.
Qed.

Lemma parse_location_string_str s :
  parse_location_string (PyStr s) = map (slot_of (re_findall s)) (seq 0 7).
Proof.
  unfold parse_location_string. destruct s as [|c s]; [reflexivity|].
  cbn [truthy pyval_truth pystr_truth isinstance_str negb orb].
  by rewrite fill_slots, re_findall_strip.
Qed.

Lemma parse_location_string_not_str v :
  isinstance_str v = false -> parse_location_string v = replicate 7 empty_str.
Proof.
  intros Hv. unfold parse_location_string. rewrite Hv.
  by rewrite orb_true_r.
Qed.

(** ** C1 *)

(** C1.  Whatever the argument, a string (empty or not), [None] or another
    scalar, [parse_location_string] returns seven slots.  On a string the
    slots are read off the maximal runs of code points that are neither
    whitespace nor underscore in the trimmed string: slot [i] (for [i]
    from 0 to 6) is token [i] when there is one and the empty string when
    there is not, so that tokens after the seventh are dropped.  On [None]
    and on non-strings the seven slots are empty.  ["A_B C"] gives
    [A, B, C] and four empty slots; the empty string gives seven empty
    slots. *)
Theorem parse_location_string_seven_slots :
  (forall v, length (parse_location_string v) = 7) /\
  (forall s, exists toks,
      MaximalRuns (str_strip s) toks /\
      parse_location_string (PyStr s) = map (slot_of toks) (seq 0 7)) /\
  parse_location_string PyNone = replicate 7 empty_str /\
  (forall b, parse_location_string (PyBool b) = replicate 7 empty_str) /\
  (forall z, parse_location_string (PyInt z) = replicate 7 empty_str) /\
  parse_location_string (PyStr (lit "A_B C"))
    = [lit "A"; lit "B"; lit "C"; empty_str; empty_str; empty_str; empty_str] /\
  parse_location_string (PyStr empty_str) = replicate 7 empty_str.
Proof.
  split; [|split; [|split; [|split; [|split; [|split]]]]].
  - intros v. destruct (isinstance_str v) eqn:Hv.
    + destruct v as [| | |s]; try discriminate.
      rewrite parse_location_string_str. by rewrite length_map, length_seq.
    + by rewrite parse_location_string_not_str.
  - intros s. exists (re_findall (str_strip s)). split.
    + apply re_findall_MaximalRuns.
    + by rewrite parse_location_string_str, re_findall_strip.
  - reflexivity.
  - intros b. by apply parse_location_string_not_str.
  - intros z. by apply parse_location_string_not_str.
  - vm_compute. reflexivity.
  - reflexivity.
Qed.

(** ** C7 *)

Lemma underscore_is_separator : is_separator underscore = true.
Proof. reflexivity. Qed.

(** Joining tokens with single underscores and scanning the result gives
    the tokens back. *)
Lemma re_findall_join toks :
  Forall (fun tok => tok <> [] /\ Forall (fun c => is_separator c = false) tok) toks ->
  re_findall (str_join (lit "_") toks) = toks.
Proof.
  induction 1 as [|tok toks [Hne Htok] Htoks IH]; [by simp re_findall|].
  destruct toks as [|tok' toks].
  - simpl. rewrite <- (app_nil_r tok) at 1.
    rewrite re_findall_token; auto.
  - change (str_join (lit "_") (tok :: tok' :: toks))
      with (tok ++ [underscore] ++ str_join (lit "_") (tok' :: toks)).
    rewrite re_findall_token; auto.
    + rewrite (re_findall_skip [underscore]); [by rewrite IH|].
      constructor; [apply underscore_is_separator|constructor].
    + right. simpl. eauto using underscore_is_separator.
Qed.

(** C7.  When all seven slots of a result are non-empty, joining them with
    single underscores and parsing the joined string gives the same seven
    slots. *)
Theorem parse_location_string_rejoin (v : pyval) :
  Forall (fun slot => slot <> empty_str) (parse_location_string v) ->
  parse_location_string (PyStr (str_join (lit "_") (parse_location_string v)))
  = parse_location_string v.
Proof.
  intros Hfull.
  destruct (isinstance_str v) eqn:Hv.
  - destruct v as [| | |s]; try discriminate.
    rewrite (parse_location_string_str s) in *.
    pose proof (MaximalRuns_tokens _ _ (re_findall_MaximalRuns s)) as Htoks.
    destruct (re_findall s) as [|t0 [|t1 [|t2 [|t3 [|t4 [|t5 [|t6 rest]]]]]]];
      try (exfalso; cbn in Hfull;
           repeat match goal with
                  | H : Forall _ (_ :: _) |- _ => apply Forall_cons_1 in H as [? H]
                  end; done).
    cbn [map seq slot_of nth].
    rewrite parse_location_string_str, re_findall_join; [reflexivity|].
    repeat (apply Forall_cons_1 in Htoks as [? Htoks]).
    repeat (constructor; [assumption|]). constructor.
  - rewrite (parse_location_string_not_str v Hv) in Hfull.
    apply Forall_cons_1 in Hfull as [Habs _]. done.
Qed.

Lemma parse_location_string_rejoin_witness :
  parse_location_string
    (PyStr (str_join (lit "_")
              (parse_location_string (PyStr (lit " L1_R2 B3_4 5_6_7_extra ")))))
  = parse_location_string (PyStr (lit " L1_R2 B3_4 5_6_7_extra ")).
Proof.
  apply (parse_location_string_rejoin (PyStr (lit " L1_R2 B3_4 5_6_7_extra "))).
  vm_compute. repeat (constructor; [discriminate|]). constructor.
Defined.

(* ===================================================================== *)
(** * 15. Properties of the column search                                 *)
(* ===================================================================== *)

Lemma and_then_ok a b : and_then (Ok a) (Ok b) = Ok (a && b).
Proof. by destruct a. Qed.

Lemma or_else_ok a b : or_else (Ok a) (Ok b) = Ok (a || b).
Proof. by destruct a. Qed.

(** On string labels the generator never raises: [next] gives the first
    column that passes the test, or the default. *)
Lemma next_match_str cond rule ups d :
  (forall s, cond (PyStr s) = Ok (rule s)) ->
  next_match cond (map PyStr ups) d = Ok (default d (first_column rule ups)).
Proof.
  intros Hcond. unfold first_column.
  induction ups as [|u ups IH]; simpl; [done|].
  rewrite Hcond. simpl. destruct (rule u); [done|]. exact IH.
Qed.

Lemma getitem_str ups i :
  i < length ups -> getitem (map PyStr ups) i = Ok (column_at ups i).
Proof.
  intros Hi. unfold getitem, column_at.
  rewrite list_lookup_fmap.
  destruct (ups !! i) as [u|] eqn:Hu.
  - simpl. f_equal. f_equal. symmetry. by apply nth_lookup_Some with (d := []) in Hu.
  - apply lookup_ge_None in Hu. lia.
Qed.

(** A column found by a rule that looks for a non-empty text has a
    non-empty name, hence is true in a condition. *)
Lemma first_column_truthy rule ups c :
  rule [] = false -> first_column rule ups = Some c -> truthy c = true.
Proof.
  unfold first_column. intros Hnil.
  destruct (find _ _) as [u|] eqn:Hu; intros Hfind; simplify_eq/=.
  apply find_some in Hu as [_ Hu].
  destruct u; [congruence|reflexivity].
Qed.

(** One step through the search: a generator over string labels is
    replaced by the first column that passes its test. *)
Ltac resolve_step :=
  first
    [ erewrite next_match_str
        by (intros ?; unfold contains; rewrite ?or_else_ok, ?and_then_ok; reflexivity)
    | progress cbn [mbind result_bind] ].

(** The code is the rule list of the specification (on string labels,
    with at least one of them). *)
Lemma find_relevant_columns_by_rules ups :
  ups <> [] ->
  find_relevant_columns (map PyStr ups) = Ok (resolve_by_rules ups).
Proof.
  intros Hne. assert (0 < length ups) by (destruct ups; [done|simpl; lia]).
  unfold find_relevant_columns, resolve_by_rules.
  rewrite length_map, (getitem_str ups 0) by assumption.
  destruct (first_column is_qty_bin ups) as [q1|] eqn:Hq1;
    [pose proof (first_column_truthy _ _ _ eq_refl Hq1) as Ht1|];
    (destruct (first_column is_qty_and_bin ups) as [q2|] eqn:Hq2;
      [pose proof (first_column_truthy _ _ _ eq_refl Hq2) as Ht2|]);
    destruct (decide (1 < length ups)); destruct (decide (2 < length ups));
    try lia;
    try rewrite (getitem_str ups 1) by assumption;
    try rewrite (getitem_str ups 2) by assumption;
    repeat resolve_step;
    unfold is_qty_bin, is_qty_and_bin, has in Hq1, Hq2;
    rewrite ?Hq1, ?Hq2; cbn [default from_option id];
    rewrite ?Ht1, ?Ht2; cbn [negb truthy pyval_truth];
    repeat resolve_step; reflexivity.
Qed.

Lemma is_asciib_true s : is_asciib s = true -> is_ascii s.
Proof.
  unfold is_asciib, is_ascii. rewrite forallb_forall, Forall_forall.
  intros H c Hc. apply N.ltb_lt, H. exact Hc.
Qed.

Lemma str_upper_ascii P s :
  ascii_case P -> is_ascii s -> str_upper P s = map ascii_upper s.
Proof.
  intros HP. unfold str_upper. induction 1 as [|c s Hc _ IH]; [done|].
  cbn [mbind list_bind]. rewrite (HP c Hc). simpl. f_equal. exact IH.
Qed.

Lemma map_str_upper_ascii P names :
  ascii_case P -> forallb is_asciib names = true ->
  map (str_upper P) names = map (map ascii_upper) names.
Proof.
  intros HP Hnames. apply map_ext_in. intros s Hs.
  apply str_upper_ascii; [done|]. apply is_asciib_true.
  rewrite forallb_forall in Hnames. by apply Hnames.
Qed.

Lemma upper_labels_str P names :
  map (upper_label P) (map PyStr names) = map PyStr (map (str_upper P) names).
Proof. by rewrite !map_map. Qed.

Lemma resolve_str P names :
  names <> [] ->
  resolve P (map PyStr names) = Ok (resolve_by_rules (map (str_upper P) names)).
Proof.
  intros Hne. unfold resolve. rewrite upper_labels_str.
  apply find_relevant_columns_by_rules. by destruct names.
Qed.

Lemma resolve_ascii P names :
  ascii_case P -> names <> [] -> forallb is_asciib names = true ->
  resolve P (map PyStr names) = Ok (resolve_by_rules (map (map ascii_upper) names)).
Proof.
  intros HP Hne Hascii. by rewrite resolve_str, (map_str_upper_ascii P).
Qed.

(** ** C3 *)

(** C3.  For the columns Part Number, Description, Location, Qty/Bin and
    Store Location the search succeeds and picks, for part_no, description,
    line_location, quantity_per_bin and store_location, the columns that
    carried these names: the labels it returns are the upper-cased names
    (the match is on upper-cased text), and each stands at the position of
    the name it came from. *)
Theorem resolve_inventory_columns (P : Platform) :
  ascii_case P ->
  let names := map PyStr inventory_columns in
  let cols := map (upper_label P) names in
  exists m,
    resolve P names = Ok m /\
    m = {| part_no_col := PyStr (lit "PART NUMBER");
           desc_col := PyStr (lit "DESCRIPTION");
           qty_bin_col := PyStr (lit "QTY/BIN");
           loc_col := PyStr (lit "LOCATION");
           store_loc_col := PyStr (lit "STORE LOCATION") |} /\
    original_name names cols (part_no_col m) = Some (PyStr (lit "Part Number")) /\
    original_name names cols (desc_col m) = Some (PyStr (lit "Description")) /\
    original_name names cols (loc_col m) = Some (PyStr (lit "Location")) /\
    original_name names cols (qty_bin_col m) = Some (PyStr (lit "Qty/Bin")) /\
    original_name names cols (store_loc_col m) = Some (PyStr (lit "Store Location")).
Proof.
  intros HP names cols.
  assert (Hcols : cols = map PyStr (map (map ascii_upper) inventory_columns)).
  { subst cols names. rewrite upper_labels_str.
    by rewrite (map_str_upper_ascii P). }
  eexists. split.
  - subst names. by apply resolve_ascii.
  - rewrite Hcols. subst names. vm_compute. repeat split; reflexivity.
Qed.

Lemma resolve_inventory_columns_witness :
  let names := map PyStr inventory_columns in
  let cols := map (upper_label ascii_platform) names in
  exists m,
    resolve ascii_platform names = Ok m /\
    m = {| part_no_col := PyStr (lit "PART NUMBER");
           desc_col := PyStr (lit "DESCRIPTION");
           qty_bin_col := PyStr (lit "QTY/BIN");
           loc_col := PyStr (lit "LOCATION");
           store_loc_col := PyStr (lit "STORE LOCATION") |} /\
    original_name names cols (part_no_col m) = Some (PyStr (lit "Part Number")) /\
    original_name names cols (desc_col m) = Some (PyStr (lit "Description")) /\
    original_name names cols (loc_col m) = Some (PyStr (lit "Location")) /\
    original_name names cols (qty_bin_col m) = Some (PyStr (lit "Qty/Bin")) /\
    original_name names cols (store_loc_col m) = Some (PyStr (lit "Store Location")).
Proof.
  apply (resolve_inventory_columns ascii_platform).
  intros c Hc. reflexivity.
Defined.

(** ** C4 *)

Lemma first_column_is_column rule ups v :
  first_column rule ups = Some v -> is_column ups v.
Proof.
  unfold first_column. destruct (find _ _) as [c|] eqn:Hc; intros Hv; simplify_eq/=.
  apply find_some in Hc as [Hin _]. by exists c.
Qed.

Lemma default_is_column rule ups d :
  is_column ups d -> is_column ups (default d (first_column rule ups)).
Proof.
  intros Hd. destruct (first_column rule ups) as [v|] eqn:Hv; [|done].
  by apply first_column_is_column in Hv.
Qed.

Lemma default_column_or_none rule ups d :
  column_or_none ups d -> column_or_none ups (default d (first_column rule ups)).
Proof.
  intros Hd. destruct (first_column rule ups) as [v|] eqn:Hv; [|done].
  right. by apply first_column_is_column in Hv.
Qed.

Lemma column_at_is_column ups i : i < length ups -> is_column ups (column_at ups i).
Proof. intros Hi. exists (nth i ups []). split; [done|]. by apply nth_In. Qed.

Lemma first_column_none rule ups :
  Forall (fun c => rule c = false) ups -> first_column rule ups = None.
Proof.
  unfold first_column. induction 1 as [|c ups Hc _ IH]; [done|].
  simpl. by rewrite Hc.
Qed.

(** C4.  With at least one column (all names strings) the search raises
    nothing and returns a mapping in which part_no, description and
    line_location are columns of the table, and quantity_per_bin and
    store_location are columns or [None].  When no name matches, part_no
    is column 0, description is column 1 (the part_no column when there is
    no column 1) and line_location is column 2 (the description column
    when there is no column 2).  For the names A, B, C the mapping is A, B,
    C with no quantity and no store location. *)
Theorem resolve_total (P : Platform) :
  (forall names : list pystr,
      names <> [] ->
      exists m,
        resolve P (map PyStr names) = Ok m /\
        resolved_with_fallbacks (map (str_upper P) names) m) /\
  (ascii_case P ->
   resolve P (map PyStr [lit "A"; lit "B"; lit "C"])
   = Ok {| part_no_col := PyStr (lit "A");
           desc_col := PyStr (lit "B");
           qty_bin_col := PyNone;
           loc_col := PyStr (lit "C");
           store_loc_col := PyNone |}).
Proof.
  split.
  - intros names Hne. eexists. split; [by apply resolve_str|].
    set (ups := map (str_upper P) names).
    assert (Hlen : 0 < length ups).
    { subst ups. rewrite length_map. destruct names; [done|simpl; lia]. }
    assert (Hpart : is_column ups (part_no_col (resolve_by_rules ups))).
    { simpl. do 2 apply default_is_column. by apply column_at_is_column. }
    assert (Hdesc : is_column ups (desc_col (resolve_by_rules ups))).
    { simpl. do 2 apply default_is_column.
      destruct (decide (1 < length ups)); [by apply column_at_is_column|exact Hpart]. }
    repeat split; try assumption.
    + simpl. apply default_is_column.
      destruct (decide (2 < length ups)); [by apply column_at_is_column|exact Hdesc].
    + simpl. do 4 apply default_column_or_none. by left.
    + simpl. do 2 apply default_column_or_none. by left.
    + intros H1 H2. simpl. by rewrite !first_column_none.
    + intros H1 H2. simpl. by rewrite (first_column_none (has "DESC")),
        (first_column_none (has "NAME")).
    + intros H1. simpl. by rewrite (first_column_none is_loc).
  - intros HP. by rewrite resolve_ascii.
Qed.

Lemma resolve_total_witness :
  exists m,
    resolve ascii_platform (map PyStr [lit "Item"; lit "Part"]) = Ok m /\
    resolved_with_fallbacks (map (str_upper ascii_platform) [lit "Item"; lit "Part"]) m.
Proof.
  apply (proj1 (resolve_total ascii_platform) [lit "Item"; lit "Part"]).
  discriminate.
Defined.

(** ** C10 *)

(** C10.  The roles need not get different columns.  A label that passes
    the test for store_location (it contains STORE and LOC) passes the test
    for line_location (it contains LOC), so the first column found for
    store_location is a candidate for line_location as well; for the one
    column STORE LOCATION both roles get that column. *)
Theorem store_and_line_location_share (P : Platform) :
  (forall col,
      and_then (contains "STORE" col) (contains "LOC" col) = Ok true ->
      or_else (contains "LOC" col)
        (or_else (contains "POS" col) (contains "LOCATION" col)) = Ok true) /\
  (ascii_case P ->
   exists m,
     resolve P [PyStr (lit "STORE LOCATION")] = Ok m /\
     loc_col m = PyStr (lit "STORE LOCATION") /\
     store_loc_col m = PyStr (lit "STORE LOCATION")).
Proof.
  split.
  - intros [| | |s]; try discriminate. unfold contains.
    rewrite and_then_ok, !or_else_ok. intros [= H].
    apply andb_true_iff in H as [_ ->]. reflexivity.
  - intros HP. eexists. split.
    + by apply (resolve_ascii P [lit "STORE LOCATION"]).
    + vm_compute. by split.
Qed.

Lemma store_and_line_location_share_witness :
  exists m,
    resolve ascii_platform [PyStr (lit "STORE LOCATION")] = Ok m /\
    loc_col m = PyStr (lit "STORE LOCATION") /\
    store_loc_col m = PyStr (lit "STORE LOCATION").
Proof.
  apply (proj2 (store_and_line_location_share ascii_platform)).
  intros c Hc. reflexivity.
Defined.

(* ===================================================================== *)
(** * 16. Running the statements                                          *)
(* ===================================================================== *)

Lemma shows_nil w : shows w [] = w.
Proof. destruct w. unfold shows. simpl. by rewrite app_nil_r. Qed.

Lemma shows_shows w evs1 evs2 : shows (shows w evs1) evs2 = shows w (evs1 ++ evs2).
Proof. unfold shows. simpl. by rewrite app_assoc. Qed.

Lemma bind_run {A B} (m : M A) (k : A -> M B) w a w' :
  m w = (Ok a, w') -> (m ≫= k) w = k a w'.
Proof. intros Hm. unfold mbind, M_bind. by rewrite Hm. Qed.

Lemma bind_raise {A B} (m : M A) (k : A -> M B) w e w' :
  m w = (Raise e, w') -> (m ≫= k) w = (Raise e, w').
Proof. intros Hm. unfold mbind, M_bind. by rewrite Hm. Qed.

Lemma emit_run e w : emit e w = (Ok tt, shows w [e]).
Proof. reflexivity. Qed.

Lemma generate_qr_code_run P data w :
  exists evs, generate_qr_code P data w = (Ok (qr_image_of P data), shows w evs).
Proof.
  unfold generate_qr_code, qr_image_of. destruct (qr_error P data) as [e|].
  - eexists. reflexivity.
  - exists []. by rewrite shows_nil.
Qed.

(** The progress value of row [k] of [n] is a fraction between 0 and 1. *)
Lemma progress_in_range (k n : Z) :
  (0 <= k < n)%Z ->
  exists v, true_div (k + 1) n = Ok v /\ Qle_bool 0 v && Qle_bool v 1 = true.
Proof.
  intros Hk. unfold true_div. destruct (decide (n = 0)%Z) as [->|Hn]; [lia|].
  eexists. split; [reflexivity|].
  assert (Hpos : (0 < inject_Z n)%Q).
  { change 0%Q with (inject_Z 0). rewrite <- Zlt_Qlt. lia. }
  apply andb_true_iff. split; apply Qle_bool_iff.
  - apply Qle_shift_div_l; [done|]. rewrite Qmult_0_l.
    change 0%Q with (inject_Z 0). rewrite <- Zle_Qle. lia.
  - apply Qle_shift_div_r; [done|]. rewrite Qmult_1_l.
    rewrite <- Zle_Qle. lia.
Qed.

(** Making the label succeeds with the label of the record, or raises
    what the first paragraph that cannot be parsed raises. *)
Lemma new_sticker_table_outcome P (r : StickerRecord) (qr_image : option Flowable) :
  new_sticker_table P r qr_image
  = match first_error P (label_texts r qr_image) with
    | Some e => Raise e
    | None => Ok (sticker_table r qr_image)
    end.
Proof.
  unfold new_sticker_table, label_texts, new_Paragraph. cbn [app first_error].
  destruct (paragraph_error P (part_no r)); [done|].
  destruct (paragraph_error P (desc_text (desc r))); [done|].
  destruct (paragraph_error P (qty_bin r)); [done|].
  destruct (paragraph_error P (lit "S.LOC")); [done|].
  destruct (paragraph_error P (lit "L.LOC")); [done|].
  destruct qr_image as [img|]; cbn [app first_error mbind result_bind]; [done|].
  by destruct (paragraph_error P (lit "QR")).
Qed.

Lemma new_sticker_table_made P (r : StickerRecord) :
  label_error P r = None ->
  new_sticker_table P r (qr_image_of P (qr_data_of r))
  = Ok (sticker_table r (qr_image_of P (qr_data_of r))).
Proof. intros Hr. rewrite new_sticker_table_outcome. unfold label_error in Hr. by rewrite Hr. Qed.

Lemma sticker_elements_run P m progress_bar status_container n k row r w :
  extract_data P m row = Ok r ->
  label_error P r = None ->
  (0 <= k < n)%Z ->
  exists evs,
    sticker_elements P m progress_bar status_container n k row w
    = (Ok (sticker_of P r), shows w evs).
Proof.
  intros Hr Hlabel Hk. unfold sticker_elements.
  destruct (progress_in_range k n Hk) as (v & Hv & Hrange).
  assert (exists evs1,
            when progress_bar
              (v ← lift (true_div (k + 1) n); progress_bar_progress v) w
            = (Ok tt, shows w evs1)) as [evs1 H1].
  { destruct progress_bar.
    - exists [progress v]. simpl. unfold mbind, M_bind, lift. rewrite Hv.
      unfold progress_bar_progress. by rewrite Hrange.
    - exists []. by rewrite shows_nil. }
  rewrite (bind_run _ _ _ _ _ H1).
  match goal with
  | |- context [when status_container ?stmt] =>
      assert (exists evs2, when status_container stmt (shows w evs1)
                           = (Ok tt, shows w (evs1 ++ evs2))) as [evs2 H2]
  end.
  { destruct status_container.
    - eexists [_]. simpl. by rewrite emit_run, shows_shows.
    - exists []. by rewrite app_nil_r. }
  rewrite (bind_run _ _ _ _ _ H2).
  rewrite (bind_run _ _ _ r (shows w (evs1 ++ evs2))); [|by unfold lift; rewrite Hr].
  destruct (generate_qr_code_run P (qr_data_of r) (shows w (evs1 ++ evs2)))
    as [evs3 H3].
  rewrite (bind_run _ _ _ _ _ H3). rewrite shows_shows.
  set (w3 := shows w _).
  rewrite (bind_run _ _ w3 (sticker_table r (qr_image_of P (qr_data_of r))) w3);
    [|by unfold lift; rewrite (new_sticker_table_made P r Hlabel)].
  eexists. reflexivity.
Qed.

(** ** Reading a row whose labels are distinct strings *)

Lemma py_eqb_str s t : py_eqb (PyStr s) (PyStr t) = bool_decide (s = t).
Proof. reflexivity. Qed.

Lemma cells_at_absent ups cells c :
  ~ In c ups -> cells_at (map PyStr ups) cells (PyStr c) = [].
Proof.
  revert cells. induction ups as [|u ups IH]; intros cells Hc; [done|].
  cbn [map cells_at]. rewrite py_eqb_str.
  rewrite bool_decide_eq_false_2 by (intros ->; apply Hc; by left).
  apply IH. intros Hin. apply Hc. by right.
Qed.

Lemma cells_at_unique ups cells c :
  NoDup ups -> In c ups -> exists x, cells_at (map PyStr ups) cells (PyStr c) = [x].
Proof.
  intros Hnd. revert cells. induction Hnd as [|u ups Hu Hnd IH]; intros cells Hc.
  - destruct Hc.
  - cbn [map cells_at]. rewrite py_eqb_str. destruct (decide (u = c)) as [->|Hne].
    + rewrite bool_decide_eq_true_2 by done.
      rewrite cells_at_absent; [by eexists|].
      intros Hin. apply Hu. by apply list_elem_of_In.
    + rewrite bool_decide_eq_false_2 by done.
      destruct Hc as [->|Hc]; [done|]. by apply IH.
Qed.

Lemma row_getitem_scalar ups name cells c :
  NoDup ups -> In c ups ->
  exists x, row_getitem (mkRow (map PyStr ups) name cells) (PyStr c) = Ok (Scalar x).
Proof.
  intros Hnd Hc. unfold row_getitem. simpl.
  destruct (cells_at_unique ups cells c Hnd Hc) as [x ->]. by exists x.
Qed.

Lemma optional_field_ok P ups name cells col :
  NoDup ups -> column_or_none ups col ->
  exists s, optional_field P (mkRow (map PyStr ups) name cells) col = Ok s.
Proof.
  intros Hnd Hcol. unfold optional_field.
  destruct Hcol as [->|(c & -> & Hc)]; [by eexists|].
  destruct (truthy (PyStr c) && row_contains _ (PyStr c)); [|by eexists].
  destruct (row_getitem_scalar ups name cells c Hnd Hc) as [x ->]. by eexists.
Qed.

(** With distinct string labels every row can be read. *)
Lemma extract_data_ok P ups m name cells :
  NoDup ups ->
  is_column ups (part_no_col m) ->
  is_column ups (desc_col m) ->
  column_or_none ups (qty_bin_col m) ->
  is_column ups (loc_col m) ->
  column_or_none ups (store_loc_col m) ->
  exists r, extract_data P m (mkRow (map PyStr ups) name cells) = Ok r.
Proof.
  intros Hnd (c1 & H1 & Hc1) (c2 & H2 & Hc2) Hqty Hloc Hstore.
  unfold extract_data. rewrite H1, H2.
  destruct (row_getitem_scalar ups name cells c1 Hnd Hc1) as [x1 ->].
  destruct (row_getitem_scalar ups name cells c2 Hnd Hc2) as [x2 ->].
  cbn [fmap result_fmap mbind result_bind].
  destruct (optional_field_ok P ups name cells (loc_col m) Hnd (or_intror Hloc))
    as [s3 ->].
  destruct (optional_field_ok P ups name cells (store_loc_col m) Hnd Hstore)
    as [s4 ->].
  assert (exists q,
    (and_then (Ok (truthy (qty_bin_col m)))
       (and_then (Ok (row_contains (mkRow (map PyStr ups) name cells) (qty_bin_col m)))
          (row_getitem (mkRow (map PyStr ups) name cells) (qty_bin_col m) ≫= notna_truth))
     ≫= λ c : bool,
     if c then item_str P <$> row_getitem (mkRow (map PyStr ups) name cells) (qty_bin_col m)
     else Ok empty_str) = Ok q) as [q ->]; [|by eexists].
  destruct Hqty as [->|(c & -> & Hc)]; [by eexists|].
  destruct (row_getitem_scalar ups name cells c Hnd Hc) as [x ->].
  unfold and_then. cbn [mbind result_bind notna_truth].
  destruct (truthy (PyStr c)); [|by eexists].
  destruct (row_contains _ _); [|by eexists].
  destruct (notna x); by eexists.
Qed.

(** ** The loop over the rows of a freshly read table *)

Lemma appended_with_breaks n k stickers :
  k + length stickers = n -> appended_from n k stickers = with_breaks stickers.
Proof.
  revert k. induction stickers as [|sticker rest IH]; intros k Hk; [done|].
  cbn [appended_from]. rewrite IH by (simpl in Hk; lia).
  destruct rest as [|next rest].
  - simpl in Hk. rewrite decide_False by lia. simpl. by rewrite app_nil_r.
  - simpl in Hk. rewrite decide_True by lia. reflexivity.
Qed.

(** With distinct string labels the rows of a table are read, one record
    for each. *)
Lemma records_from_exist P (ups : list pystr) m (body : list (list cell)) (k : nat) :
  NoDup ups ->
  is_column ups (part_no_col m) ->
  is_column ups (desc_col m) ->
  column_or_none ups (qty_bin_col m) ->
  is_column ups (loc_col m) ->
  column_or_none ups (store_loc_col m) ->
  exists recs, records_from P m (map PyStr ups) k body recs.
Proof.
  intros Hnd H1 H2 H3 H4 H5. revert k.
  induction body as [|cells body IH]; intros k; [exists []; constructor|].
  destruct (extract_data_ok P ups m (Z.of_nat k) cells Hnd H1 H2 H3 H4 H5) as [r Hr].
  destruct (IH (S k)) as [recs Hrecs]. exists (r :: recs). by constructor.
Qed.

Lemma sticker_loop_run P m (progress_bar status_container : bool)
    (cols : list pyval) (n : nat) :
  forall (body : list (list cell)) (recs : list StickerRecord) (k : nat)
         (all_elements : list Flowable) (w : world),
    records_from P m cols k body recs ->
    labels_made P recs ->
    len (df w) = Z.of_nat n ->
    k + length body = n ->
    exists evs,
      sticker_loop P m progress_bar status_container (Z.of_nat n)
        (map (row_of cols) (RangeIndex k body)) all_elements w
      = (Ok (all_elements ++ appended_from n k (map (sticker_of P) recs)),
         shows w evs).
Proof.
  induction body as [|cells body IH]; intros recs k all_elements w Hrecs Hmade Hlen Hk.
  - apply Forall2_nil_inv_l in Hrecs as ->. exists []. simpl.
    by rewrite app_nil_r, shows_nil.
  - unfold records_from in Hrecs. cbn [RangeIndex] in Hrecs.
    apply Forall2_cons_inv_l in Hrecs as (r & recs' & Hr & Hrecs' & ->).
    pose proof (Forall_inv Hmade) as Hlabel. simpl in Hlabel.
    pose proof (Forall_inv_tail Hmade) as Hmade'.
    simpl in Hk.
    destruct (sticker_elements_run P m progress_bar status_container
                (Z.of_nat n) (Z.of_nat k) _ r w Hr Hlabel ltac:(lia)) as [evs1 Hrun].
    destruct (IH recs' (S k)
                (all_elements ++ sticker_of P r
                   ++ (if decide (Z.of_nat k < Z.of_nat n - 1)%Z then [PageBreak] else []))
                (shows w evs1) Hrecs' Hmade' Hlen ltac:(lia)) as (evs2 & Hloop).
    exists (evs1 ++ evs2).
    cbn [RangeIndex map row_of sticker_loop appended_from].
    rewrite (bind_run _ _ _ _ _ Hrun).
    unfold get_df at 1. unfold mbind at 1, M_bind at 1.
    change (df (shows w evs1)) with (df w). rewrite Hlen.
    rewrite <- shows_shows.
    destruct (decide (Z.of_nat k < Z.of_nat n - 1)%Z).
    + rewrite <- !app_assoc in Hloop. rewrite <- !app_assoc. exact Hloop.
    + rewrite !app_nil_r in Hloop. rewrite <- !app_assoc in Hloop.
      exact Hloop.
Qed.

(** ** Pages *)

(** A sticker is a spacer of 0.3 cm over a table of 3 cm: the frame has
    room for it. *)
Lemma flowable_height_sticker (r : StickerRecord) (qr_image : option Flowable) :
  flowable_height (sticker_table r qr_image) = fold_left Qplus [CONTENT_BOX_HEIGHT] 0%Q.
Proof. reflexivity. Qed.

Lemma frame_takes_sticker (r : StickerRecord) (qr_image : option Flowable) :
  frame_takes [Spacer 1 (0.3 * cm)%Q] (sticker_table r qr_image) = true.
Proof.
  unfold frame_takes. rewrite flowable_height_sticker. vm_compute. reflexivity.
Qed.

Lemma lay_out_sticker P (r : StickerRecord) (story : list Flowable) :
  lay_out None (sticker_of P r ++ story) = lay_out (Some (sticker_of P r)) story.
Proof.
  unfold sticker_of. cbn [app lay_out]. by rewrite frame_takes_sticker.
Qed.

Lemma lay_out_with_breaks P (recs : list StickerRecord) :
  lay_out None (with_breaks (map (sticker_of P) recs)) = map (sticker_of P) recs.
Proof.
  induction recs as [|r recs IH]; [done|].
  destruct recs as [|r' recs].
  - cbn [map with_breaks]. rewrite <- (app_nil_r (sticker_of P r)) at 1.
    by rewrite lay_out_sticker.
  - change (with_breaks (map (sticker_of P) (r :: r' :: recs)))
      with (sticker_of P r ++ PageBreak :: with_breaks (map (sticker_of P) (r' :: recs))).
    rewrite lay_out_sticker. cbn [lay_out default from_option id]. by rewrite IH.
Qed.

Lemma paginate_stickers P recs :
  paginate (with_breaks (map (sticker_of P) recs))
  = map (fun r => mkPage draw_border (sticker_of P r)) recs.
Proof. unfold paginate. by rewrite lay_out_with_breaks, map_map. Qed.

Lemma count_breaks_app s1 s2 : count_breaks (s1 ++ s2) = count_breaks s1 + count_breaks s2.
Proof. unfold count_breaks. by rewrite List.filter_app, length_app. Qed.


(** ** Statements that only show something *)

Lemma only_shows_emit e : only_shows (emit e).
Proof. intros w. by exists [e]. Qed.

Lemma only_shows_skip : only_shows (mret tt).
Proof. intros w. exists []. by rewrite shows_nil. Qed.

Lemma only_shows_seq s1 s2 : only_shows s1 -> only_shows s2 -> only_shows (s1 ;; s2).
Proof.
  intros H1 H2 w. destruct (H1 w) as [evs1 E1]. destruct (H2 (shows w evs1)) as [evs2 E2].
  exists (evs1 ++ evs2). rewrite (bind_run _ _ _ _ _ E1), E2. by rewrite shows_shows.
Qed.

Lemma only_shows_when c s : only_shows s -> only_shows (when c s).
Proof. intros Hs. destruct c; [exact Hs|apply only_shows_skip]. Qed.

Create HintDb shows.
#[export] Hint Resolve only_shows_emit only_shows_skip only_shows_seq only_shows_when : shows.

(** ** The whole function on a table that has just been read *)

Lemma len_read_table header body : len (read_table header body) = Z.of_nat (length body).
Proof.
  unfold len, read_table. simpl. f_equal.
  generalize 0. induction body as [|cells body IH]; intros k; [done|].
  simpl. by rewrite IH.
Qed.

Lemma identify_columns_run P status_container (names : list pystr) rws scr :
  names <> [] ->
  exists evs,
    identify_columns P status_container
      {| df := {| columns := map PyStr names; rows := rws |}; screen := scr |}
    = (Ok (resolve_by_rules (map (str_upper P) names)),
       {| df := {| columns := map PyStr (map (str_upper P) names); rows := rws |};
          screen := scr ++ evs |}).
Proof.
  intros Hne. unfold identify_columns.
  unfold get_df at 1. unfold mbind at 1, M_bind at 1. cbn [df columns].
  unfold set_columns at 1. unfold mbind at 1, M_bind at 1. cbn [df columns rows screen].
  unfold get_df at 1. unfold mbind at 1, M_bind at 1. cbn [df columns].
  rewrite upper_labels_str.
  rewrite find_relevant_columns_by_rules by (by destruct names).
  unfold lift at 1. unfold mbind at 1, M_bind at 1.
  set (m := resolve_by_rules _).
  match goal with
  | |- context [when status_container ?stmt] =>
      assert (only_shows (when status_container stmt)) as Hshow
        by auto 10 with shows
  end.
  destruct (Hshow (mkWorld (mkDataFrame (map PyStr (map (str_upper P) names)) rws) scr))
    as [evs E].
  exists evs. rewrite (bind_run _ _ _ _ _ E). reflexivity.
Qed.

Lemma records_from_length P m cols k body recs :
  records_from P m cols k body recs -> length recs = length body.
Proof.
  unfold records_from. intros H. apply Forall2_length in H. rewrite <- H.
  clear. revert k. induction body as [|cells body IH]; intros k; [done|].
  simpl. by rewrite IH.
Qed.

(** The mapping found for distinct string labels names columns only. *)
Lemma resolve_by_rules_columns (ups : list pystr) :
  ups <> [] ->
  let m := resolve_by_rules ups in
  is_column ups (part_no_col m) /\ is_column ups (desc_col m) /\
  column_or_none ups (qty_bin_col m) /\ is_column ups (loc_col m) /\
  column_or_none ups (store_loc_col m).
Proof.
  intros Hne m.
  assert (Hlen : 0 < length ups) by (destruct ups; [done|simpl; lia]).
  assert (Hpart : is_column ups (part_no_col m)).
  { simpl. do 2 apply default_is_column. by apply column_at_is_column. }
  assert (Hdesc : is_column ups (desc_col m)).
  { simpl. do 2 apply default_is_column.
    destruct (decide (1 < length ups)); [by apply column_at_is_column|exact Hpart]. }
  repeat split; try assumption.
  - simpl. do 4 apply default_column_or_none. by left.
  - simpl. apply default_is_column.
    destruct (decide (2 < length ups)); [by apply column_at_is_column|exact Hdesc].
  - simpl. do 2 apply default_column_or_none. by left.
Qed.

(** The run of [generate_sticker_labels] on a table that has just been
    read, with string labels that stay distinct when upper-cased: the
    columns are found and every row gives a record; when the label of
    every record can be made, the story is the stickers of the records
    with a break between two of them, and the outcome is the paginated
    story unless [doc.build] raises. *)
Lemma generate_sticker_labels_run P (progress_bar status_container : bool)
    (names : list pystr) (body : list (list cell)) :
  names <> [] ->
  NoDup (map (str_upper P) names) ->
  let ups := map (str_upper P) names in
  let m := resolve_by_rules ups in
  exists recs evs1,
    records_from P m (map PyStr ups) 0 body recs /\
    identify_columns P status_container (uploaded (map PyStr names) body)
    = (Ok m, {| df := read_table (map PyStr ups) body; screen := evs1 |}) /\
    (labels_made P recs ->
     exists evs2 evs3,
       assemble_story P m progress_bar status_container
         {| df := read_table (map PyStr ups) body; screen := evs1 |}
       = (Ok (with_breaks (map (sticker_of P) recs)),
          {| df := read_table (map PyStr ups) body; screen := evs1 ++ evs2 |}) /\
       generate_sticker_labels P progress_bar status_container
         (uploaded (map PyStr names) body)
       = (Ok (match build_error P (with_breaks (map (sticker_of P) recs)) with
              | None => Some (paginate (with_breaks (map (sticker_of P) recs)))
              | Some _ => None
              end),
          {| df := read_table (map PyStr ups) body; screen := evs1 ++ evs2 ++ evs3 |})).
Proof.
  intros Hne Hnd ups m.
  assert (Hups : ups <> []) by (subst ups; by destruct names).
  destruct (resolve_by_rules_columns ups Hups) as (H1 & H2 & H3 & H4 & H5).
  destruct (identify_columns_run P status_container names (RangeIndex 0 body) [] Hne)
    as [evs1 Hid].
  change (mkWorld (mkDataFrame (map PyStr names) (RangeIndex 0 body)) [])
    with (uploaded (map PyStr names) body) in Hid.
  change (mkDataFrame (map PyStr (map (str_upper P) names)) (RangeIndex 0 body))
    with (read_table (map PyStr ups) body) in Hid.
  simpl in Hid. fold ups m in Hid.
  set (w1 := {| df := read_table (map PyStr ups) body; screen := evs1 |}) in *.
  destruct (records_from_exist P ups m body 0 Hnd H1 H2 H3 H4 H5) as [recs Hrecs].
  exists recs, evs1. split; [exact Hrecs|]. split; [exact Hid|]. intros Hmade.
  destruct (sticker_loop_run P m progress_bar status_container (map PyStr ups)
              (length body) body recs 0 [] w1 Hrecs Hmade
              (len_read_table _ _) eq_refl) as (evs2 & Hloop).
  rewrite appended_with_breaks in Hloop
    by (rewrite length_map, (records_from_length _ _ _ _ _ _ Hrecs); done).
  assert (Hstory : assemble_story P m progress_bar status_container w1
                   = (Ok (with_breaks (map (sticker_of P) recs)), shows w1 evs2)).
  { unfold assemble_story. unfold get_df, mbind, M_bind.
    change (len (df w1)) with (len (read_table (map PyStr ups) body)).
    rewrite len_read_table.
    assert (iterrows (df w1)
            = map (row_of (map PyStr ups)) (RangeIndex 0 body)) as ->.
    { unfold iterrows. apply map_ext. by intros [index cells]. }
    exact Hloop. }
  assert (exists evs3,
            build_document P status_container (with_breaks (map (sticker_of P) recs))
              (shows w1 evs2)
            = (Ok (match build_error P (with_breaks (map (sticker_of P) recs)) with
                   | None => Some (paginate (with_breaks (map (sticker_of P) recs)))
                   | Some _ => None
                   end), shows (shows w1 evs2) evs3)) as [evs3 Hbuild].
  { unfold build_document. destruct (build_error P _) as [e|].
    - destruct (only_shows_when status_container
                  (emit (status_error (lit "Error building PDF: " ++ e)))
                  (only_shows_emit _) (shows w1 evs2)) as [evs3 E].
      exists evs3. by rewrite (bind_run _ _ _ _ _ E).
    - destruct (only_shows_when status_container
                  (emit (status_success (lit "PDF generated successfully!")))
                  (only_shows_emit _) (shows w1 evs2)) as [evs3 E].
      exists evs3. by rewrite (bind_run _ _ _ _ _ E). }
  exists evs2, evs3. split; [exact Hstory|].
  unfold generate_sticker_labels.
  rewrite (bind_run _ _ _ _ _ Hid), (bind_run _ _ _ _ _ Hstory), Hbuild.
  rewrite shows_shows. reflexivity.
Qed.

(* ===================================================================== *)
(** * 17. Properties of the stickers and of the document                  *)
(* ===================================================================== *)

(** ** C5 *)

(** A step of the body that completes tells which record was read. *)
Lemma sticker_elements_inv P m progress_bar status_container n k row w elements w' :
  sticker_elements P m progress_bar status_container n k row w = (Ok elements, w') ->
  exists r, extract_data P m row = Ok r /\ elements = sticker_of P r.
Proof.
  unfold sticker_elements. unfold mbind at 1, M_bind at 1.
  destruct (when progress_bar _ w) as [[[]|e] w1]; [|discriminate].
  unfold mbind at 1, M_bind at 1.
  destruct (when status_container _ w1) as [[[]|e] w2]; [|discriminate].
  unfold mbind at 1, M_bind at 1, lift at 1.
  destruct (extract_data P m row) as [r|e]; [|discriminate].
  destruct (generate_qr_code_run P (qr_data_of r) w2) as [evs Hqr].
  rewrite (bind_run _ _ _ _ _ Hqr).
  unfold mbind at 1, M_bind at 1, lift at 1.
  rewrite new_sticker_table_outcome.
  destruct (first_error P _); [discriminate|].
  intros [= <- _]. by exists r.
Qed.

(** C5.  In the label of a record the description cell holds the first 30
    code points of the description followed by three dots when the
    description is longer than 30, and the description itself when it has
    30 code points or fewer; every sticker the loop body produces is such a
    label, for the record read from its row. *)
Theorem description_truncated_after_30 :
  (forall (r : StickerRecord) (qr_image : option Flowable),
      exists text,
        rendered_desc (sticker_table r qr_image) = Some (Paragraph text desc_style) /\
        (30 < length (desc r) -> text = take 30 (desc r) ++ lit "...") /\
        (length (desc r) <= 30 -> text = desc r)) /\
  (forall P m progress_bar status_container n k row w elements w',
      sticker_elements P m progress_bar status_container n k row w = (Ok elements, w') ->
      exists r qr_image,
        extract_data P m row = Ok r /\
        elements = [Spacer 1 (0.3 * cm)%Q; sticker_table r qr_image]).
Proof.
  split.
  - intros r qr_image. exists (desc_text (desc r)). split; [reflexivity|].
    unfold desc_text. split; intros Hlen.
    + by rewrite decide_True.
    + by rewrite decide_False by lia.
  - intros P m progress_bar status_container n k row w elements w' Hrun.
    apply sticker_elements_inv in Hrun as (r & Hr & ->).
    by exists r, (qr_image_of P (qr_data_of r)).
Qed.

Lemma description_truncated_after_30_witness :
  exists text,
    rendered_desc
      (sticker_table
         (mkStickerRecord (lit "P-100") (lit "Hexagon head bolt M8 x 40 zinc plated")
            (lit "12") (lit "A_1_2") empty_str) None)
    = Some (Paragraph text desc_style) /\
    text = lit "Hexagon head bolt M8 x 40 zinc..." /\
    length text = 33.
Proof.
  destruct (proj1 description_truncated_after_30
              (mkStickerRecord (lit "P-100") (lit "Hexagon head bolt M8 x 40 zinc plated")
                 (lit "12") (lit "A_1_2") empty_str) None)
    as (text & Hcell & Hlong & _).
  exists text. split; [exact Hcell|].
  rewrite Hlong by (vm_compute; lia). split; reflexivity.
Defined.

(** ** C9 *)

Lemma keeps_df_ret {A} (a : A) : keeps_df (mret a).
Proof. by intros w. Qed.

Lemma keeps_df_lift {A} (r : result A) : keeps_df (lift r).
Proof. by intros w. Qed.

Lemma keeps_df_emit e : keeps_df (emit e).
Proof. by intros w. Qed.

Lemma keeps_df_get : keeps_df get_df.
Proof. by intros w. Qed.

Lemma keeps_df_bind {A B} (stmt : M A) (k : A -> M B) :
  keeps_df stmt -> (forall a, keeps_df (k a)) -> keeps_df (stmt ≫= k).
Proof.
  intros Hs Hk w. unfold mbind, M_bind. specialize (Hs w).
  destruct (stmt w) as [[a|e] w1]; simpl in Hs; [|done].
  by rewrite Hk.
Qed.

Lemma keeps_df_when c stmt : keeps_df stmt -> keeps_df (when c stmt).
Proof. intros Hs. destruct c; [exact Hs|apply keeps_df_ret]. Qed.

Create HintDb frame.
#[export] Hint Resolve keeps_df_ret keeps_df_lift keeps_df_emit keeps_df_get
  keeps_df_when : frame.

Ltac frame :=
  repeat first
    [ apply keeps_df_bind
    | apply keeps_df_when
    | match goal with |- forall _, _ => intros ? end
    | solve [auto with frame] ].

Lemma keeps_df_progress v : keeps_df (progress_bar_progress v).
Proof. unfold progress_bar_progress. destruct (_ && _); auto with frame. Qed.

Lemma keeps_df_generate_qr_code P data : keeps_df (generate_qr_code P data).
Proof. unfold generate_qr_code. destruct (qr_error P data); frame. Qed.

#[export] Hint Resolve keeps_df_progress keeps_df_generate_qr_code : frame.

Lemma keeps_df_sticker_elements P m progress_bar status_container n k row :
  keeps_df (sticker_elements P m progress_bar status_container n k row).
Proof. unfold sticker_elements. frame. Qed.

#[export] Hint Resolve keeps_df_sticker_elements : frame.

Lemma keeps_df_sticker_loop P m progress_bar status_container n todo all_elements :
  keeps_df (sticker_loop P m progress_bar status_container n todo all_elements).
Proof.
  revert all_elements. induction todo as [|[index row] todo IH]; intros all_elements.
  - apply keeps_df_ret.
  - cbn [sticker_loop]. frame.
Qed.

#[export] Hint Resolve keeps_df_sticker_loop : frame.

Lemma keeps_df_assemble_story P m progress_bar status_container :
  keeps_df (assemble_story P m progress_bar status_container).
Proof. unfold assemble_story. frame. Qed.

Lemma keeps_df_build_document P status_container all_elements :
  keeps_df (build_document P status_container all_elements).
Proof. unfold build_document. destruct (build_error P all_elements); frame. Qed.

#[export] Hint Resolve keeps_df_assemble_story keeps_df_build_document : frame.

Lemma identify_columns_df P status_container w :
  df (identify_columns P status_container w).2
  = {| columns := map (upper_label P) (columns (df w)); rows := rows (df w) |}.
Proof.
  unfold identify_columns.
  rewrite (bind_run get_df _ w (df w) w eq_refl).
  rewrite (bind_run (set_columns _) _ w tt _ eq_refl).
  match goal with
  | |- df (?rest ?w1).2 = _ =>
      assert (keeps_df rest) as Hrest by frame; rewrite (Hrest w1)
  end.
  reflexivity.
Qed.

(** C9.  Whatever the table and whatever the outcome (a document, [None]
    or an exception), the call leaves the rows of the caller's table as
    they were, cell by cell and in the same order, and replaces the column
    labels by their upper-cased forms (labels that are not strings stay). *)
Theorem only_the_labels_change (P : Platform) (progress_bar status_container : bool)
    (w : world) :
  let w' := (generate_sticker_labels P progress_bar status_container w).2 in
  rows (df w') = rows (df w) /\
  len (df w') = len (df w) /\
  columns (df w') = map (upper_label P) (columns (df w)) /\
  (forall names : list pystr,
      columns (df w) = map PyStr names ->
      columns (df w') = map PyStr (map (str_upper P) names)).
Proof.
  intros w'.
  assert (Hdf : df w' = {| columns := map (upper_label P) (columns (df w));
                           rows := rows (df w) |}).
  { subst w'. unfold generate_sticker_labels, mbind, M_bind.
    pose proof (identify_columns_df P status_container w) as Hid.
    destruct (identify_columns P status_container w) as [[m|e] w1]; simpl in Hid;
      [|exact Hid].
    assert (keeps_df (fun w =>
              match assemble_story P m progress_bar status_container w with
              | (Ok a, w') => build_document P status_container a w'
              | (Raise e, w') => (Raise e, w')
              end)) as Hrest.
    { apply (keeps_df_bind (assemble_story P m progress_bar status_container)
               (build_document P status_container)); auto with frame. }
    by rewrite (Hrest w1). }
  rewrite Hdf. unfold len. simpl. repeat split.
  intros names ->. apply upper_labels_str.
Qed.

(** ** C2 *)


Lemma inventory_columns_distinct P :
  ascii_case P -> NoDup (map (str_upper P) inventory_columns).
Proof.
  intros HP. rewrite (map_str_upper_ascii P) by done.
  apply (bool_decide_unpack _). vm_compute. exact I.
Qed.

Lemma test_platform_case capacity : ascii_case (test_platform capacity).
Proof. intros c Hc. reflexivity. Qed.




(** ** C8 *)

(** C8.  On a table with at least one column (the names strings) and no
    row, the columns are found, the loop adds nothing to the story, the
    empty story has no page, and the call returns the document of no page,
    not [None], once [doc.build] accepts the empty story. *)
Theorem empty_table_zero_pages (P : Platform) (progress_bar status_container : bool)
    (names : list pystr) :
  names <> [] ->
  exists m w1,
    identify_columns P status_container (uploaded (map PyStr names) []) = (Ok m, w1) /\
    assemble_story P m progress_bar status_container w1 = (Ok [], w1) /\
    paginate [] = [] /\
    (build_error P [] = None ->
     (generate_sticker_labels P progress_bar status_container
        (uploaded (map PyStr names) [])).1 = Ok (Some [])).
Proof.
  intros Hne.
  destruct (identify_columns_run P status_container names [] [] Hne) as [evs Hid].
  set (m := resolve_by_rules _) in Hid.
  match type of Hid with _ = (_, ?w) => set (w1 := w) in Hid end.
  assert (Hstory : assemble_story P m progress_bar status_container w1 = (Ok [], w1))
    by reflexivity.
  exists m, w1. split; [exact Hid|]. split; [exact Hstory|]. split; [reflexivity|].
  intros Hbuild. unfold generate_sticker_labels.
  rewrite (bind_run _ _ _ _ _ Hid), (bind_run _ _ _ _ _ Hstory).
  unfold build_document. rewrite Hbuild.
  destruct (only_shows_when status_container
              (emit (status_success (lit "PDF generated successfully!")))
              (only_shows_emit _) w1) as [evs' E].
  by rewrite (bind_run _ _ _ _ _ E).
Qed.

Lemma empty_table_zero_pages_witness :
  (generate_sticker_labels ascii_platform true true
     (uploaded (map PyStr inventory_columns) [])).1 = Ok (Some []).
Proof.
  destruct (empty_table_zero_pages ascii_platform true true inventory_columns)
    as (m & w1 & _ & _ & _ & Hrun).
  - discriminate.
  - apply Hrun. reflexivity.
Defined.

(* ===================================================================== *)
(** * 18. The rules behind the search and the tokens                      *)
(* ===================================================================== *)

(** X1.  On string labels, at least one of them, the column search of the
    code is the rule list of the specification: each role takes the first
    column of its first rule that has one, down to the positional column
    or to no column. *)
Theorem column_search_is_the_rule_list (P : Platform) (names : list pystr) :
  names <> [] ->
  resolve P (map PyStr names) = Ok (resolve_by_rules (map (str_upper P) names)).
Proof. intros Hne. by apply resolve_str. Qed.

Lemma column_search_is_the_rule_list_witness :
  resolve ascii_platform (map PyStr inventory_columns)
  = Ok (resolve_by_rules (map (str_upper ascii_platform) inventory_columns)).
Proof.
  apply (column_search_is_the_rule_list ascii_platform inventory_columns).
  discriminate.
Defined.

(** X2.  A string has one tokenization into maximal runs, the one the
    regular expression finds, and trimming the string first does not
    change it. *)
Theorem maximal_runs_are_what_findall_finds (s : pystr) :
  MaximalRuns s (re_findall s) /\
  (forall toks, MaximalRuns s toks -> toks = re_findall s) /\
  re_findall (str_strip s) = re_findall s.
Proof.
  split; [apply re_findall_MaximalRuns|].
  split; [apply MaximalRuns_re_findall|apply re_findall_strip].
Qed.

(* ===================================================================== *)
(** * 19. More on the location parser                                     *)
(* ===================================================================== *)

Lemma slots_of_tokens (matches : list pystr) (n : nat) :
  map (slot_of matches) (seq 0 n)
  = take n matches ++ replicate (n - length (take n matches)) empty_str.
Proof.
  revert n. induction matches as [|tok matches IH]; intros n.
  - rewrite take_nil. simpl. rewrite Nat.sub_0_r.
    generalize 0. induction n as [|n IHn]; intros k; [done|].
    simpl. rewrite IHn. by destruct k.
  - destruct n as [|n]; [done|].
    cbn [seq map take length]. rewrite <- seq_shift, map_map.
    change (slot_of (tok :: matches) 0) with tok.
    rewrite (map_ext _ (slot_of matches)) by done.
    rewrite IH. reflexivity.
Qed.

(** X7.  The seven slots are the tokens, at most seven of them, followed
    by empty slots: no slot holds a separator and no empty slot stands
    before a token. *)
Theorem slots_are_tokens_then_blanks (v : pyval) :
  exists toks,
    length toks <= 7 /\
    Forall (fun tok => tok <> empty_str /\ Forall (fun c => is_separator c = false) tok)
           toks /\
    parse_location_string v = toks ++ replicate (7 - length toks) empty_str.
Proof.
  destruct (isinstance_str v) eqn:Hv.
  - destruct v as [| | |s]; try discriminate.
    exists (take 7 (re_findall s)). split; [rewrite length_take; lia|]. split.
    + apply Forall_take.
      exact (MaximalRuns_tokens s _ (re_findall_MaximalRuns s)).
    + rewrite parse_location_string_str. apply slots_of_tokens.
  - exists []. split; [simpl; lia|]. split; [constructor|].
    by rewrite parse_location_string_not_str.
Qed.

Lemma re_findall_between (a : pystr) (toks : list pystr) :
  MaximalRuns a toks ->
  forall seps b,
    seps <> [] -> Forall (fun c => is_separator c = true) seps ->
    re_findall (a ++ seps ++ b) = toks ++ re_findall b.
Proof.
  induction 1 as [seps0 Hseps0|seps0 tok rest toks Hseps0 Hne Htok Hrest Hruns IH];
    intros seps b Hne' Hseps.
  - by rewrite !re_findall_skip.
  - rewrite <- !app_assoc. rewrite re_findall_skip by done.
    rewrite re_findall_token; [|done|done|].
    + simpl. f_equal. by apply IH.
    + right. destruct Hrest as [->|(c & rest' & -> & Hc)].
      * destruct seps as [|c seps]; [done|]. inversion Hseps; subst.
        by exists c, (seps ++ b).
      * by exists c, (rest' ++ seps ++ b).
Qed.

(** X8.  Between two parts of a location any non-empty run of underscores
    and whitespace separates the same way: the tokens are those of the
    left part followed by those of the right part, so the slots do not
    depend on which separators are used nor on how many. *)
Theorem separators_are_interchangeable (a b seps seps' : pystr) :
  seps <> [] -> Forall (fun c => is_separator c = true) seps ->
  seps' <> [] -> Forall (fun c => is_separator c = true) seps' ->
  re_findall (a ++ seps ++ b) = re_findall a ++ re_findall b /\
  parse_location_string (PyStr (a ++ seps ++ b))
  = parse_location_string (PyStr (a ++ seps' ++ b)).
Proof.
  intros Hne Hseps Hne' Hseps'.
  pose proof (re_findall_between a _ (re_findall_MaximalRuns a)) as Hb.
  split; [by apply Hb|].
  rewrite !parse_location_string_str. by rewrite !Hb.
Qed.

Lemma separators_are_interchangeable_witness :
  re_findall (lit "A1" ++ lit "_" ++ lit "B2 C3")
  = re_findall (lit "A1") ++ re_findall (lit "B2 C3") /\
  parse_location_string (PyStr (lit "A1" ++ lit "_" ++ lit "B2 C3"))
  = parse_location_string (PyStr (lit "A1" ++ lit " _ " ++ lit "B2 C3")).
Proof.
  apply (separators_are_interchangeable (lit "A1") (lit "B2 C3") (lit "_") (lit " _ "));
    try discriminate; by repeat constructor.
Defined.

(* ===================================================================== *)
(** * 20. More on the column search                                       *)
(* ===================================================================== *)

Lemma startswith_iff (p t : pystr) : startswith p t = true <-> exists b, t = p ++ b.
Proof.
  revert t. induction p as [|a p IH]; intros t.
  - split; [by exists t|done].
  - destruct t as [|b t]; simpl.
    + split; [done|]. by intros [? ?].
    + rewrite andb_true_iff, N.eqb_eq, IH. split.
      * intros [-> [r ->]]. by exists r.
      * intros [r Hr]. injection Hr as -> ->. split; [done|]. by exists r.
Qed.

(** [p in t]: [t] holds [p] somewhere. *)
Lemma str_contains_iff (p t : pystr) :
  str_contains p t = true <-> exists a b, t = a ++ p ++ b.
Proof.
  induction t as [|c t IH].
  - simpl. rewrite orb_false_r, startswith_iff. split.
    + intros [b Hb]. by exists [], b.
    + intros (a & b & Hab). destruct a; [by exists b|done].
  - cbn [str_contains]. rewrite orb_true_iff, startswith_iff, IH. split.
    + intros [[b Hb]|(a & b & ->)]; [by exists [], b|by exists (c :: a), b].
    + intros ([|c' a] & b & Hab).
      * left. by exists b.
      * right. injection Hab as -> ->. by exists a, b.
Qed.

Lemma has_part (small big : string) (c : pystr) :
  has big c = true -> str_contains (lit small) (lit big) = true -> has small c = true.
Proof.
  unfold has. rewrite !str_contains_iff.
  intros (a' & b' & ->) (a & b & ->).
  exists (a' ++ a), (b ++ b'). by rewrite <- !app_assoc.
Qed.

Lemma find_existsb {A} (rule : A -> bool) (l : list A) :
  existsb rule l = match find rule l with Some _ => true | None => false end.
Proof. induction l as [|x l IH]; [done|]. simpl. by destruct (rule x). Qed.

Lemma existsb_impl {A} (r1 r2 : A -> bool) (l : list A) :
  (forall x, r1 x = true -> r2 x = true) -> existsb r1 l = true -> existsb r2 l = true.
Proof.
  intros Himp. rewrite !existsb_exists. intros (x & Hx & Hr). exists x. auto.
Qed.

(** A generator that meets a label which is not a string: the first match
    when it comes earlier, [TypeError] otherwise. *)
Lemma next_match_prefix cond (rule : pystr -> bool) (ups : list pystr) v rest d :
  (forall s, cond (PyStr s) = Ok (rule s)) ->
  cond v = Raise TypeError ->
  next_match cond (map PyStr ups ++ v :: rest) d
  = match find rule ups with Some c => Ok (PyStr c) | None => Raise TypeError end.
Proof.
  intros Hcond Hv. induction ups as [|u ups IH]; simpl.
  - by rewrite Hv.
  - rewrite Hcond. simpl. destruct (rule u); [done|exact IH].
Qed.

Lemma next_match_among names cols d : exists x, next_match (among names) cols d = Ok x.
Proof.
  induction cols as [|col cols IH]; simpl; [by eexists|].
  destruct (existsb _ names); [by eexists|exact IH].
Qed.

Lemma getitem_lt cols i : i < length cols -> exists x, getitem cols i = Ok x.
Proof.
  intros Hi. unfold getitem. destruct (cols !! i) eqn:E; [by eexists|].
  apply lookup_ge_None in E. lia.
Qed.

Lemma contains_not_str needle v : isinstance_str v = false -> contains needle v = Raise TypeError.
Proof. by destruct v. Qed.

Lemma find_none_impl {A} (r1 r2 : A -> bool) (l : list A) :
  (forall x, r1 x = true -> r2 x = true) -> find r2 l = None -> find r1 l = None.
Proof.
  intros Himp H2. destruct (find r1 l) as [x|] eqn:H1; [|done].
  apply find_some in H1 as [Hx Hr].
  pose proof (find_none _ _ H2 x Hx). pose proof (Himp x Hr). congruence.
Qed.

Lemma qty_bin_is_qty_and_bin c : is_qty_bin c = true -> is_qty_and_bin c = true.
Proof.
  unfold is_qty_bin, is_qty_and_bin. rewrite !orb_true_iff, andb_true_iff.
  intros [H|[H|H]]; split;
    first [exact (has_part "QTY" _ c H eq_refl) | exact (has_part "BIN" _ c H eq_refl)].
Qed.

Lemma storelocation_is_store_loc c : has "STORELOCATION" c = true -> is_store_loc c = true.
Proof.
  unfold is_store_loc. rewrite andb_true_iff.
  intros H; split;
    [exact (has_part "STORE" _ c H eq_refl) | exact (has_part "LOC" _ c H eq_refl)].
Qed.

Lemma store_loc_is_loc c : is_store_loc c = true -> is_loc c = true.
Proof.
  unfold is_store_loc, is_loc. rewrite andb_true_iff, !orb_true_iff. tauto.
Qed.

Ltac rule_side v Hv :=
  first
    [ intros ?; unfold contains, is_part_no, is_qty_bin, is_qty_and_bin, is_loc,
        is_store_loc, has;
      rewrite ?or_else_ok, ?and_then_ok; reflexivity
    | rewrite ?(contains_not_str _ v Hv); reflexivity ].

(** The search on labels of which one is not a string: it raises
    [TypeError] unless every generator that runs finds its column among
    the strings that come first. *)
Lemma find_relevant_columns_prefix (ups : list pystr) (v : pyval) (rest : list pyval) :
  isinstance_str v = false ->
  find_relevant_columns (map PyStr ups ++ v :: rest)
  = if settles_every_role ups then Ok (resolve_by_rules ups) else Raise TypeError.
Proof.
  intros Hv. unfold find_relevant_columns, settles_every_role.
  rewrite !find_existsb.
  set (cols := map PyStr ups ++ v :: rest).
  assert (Hlen : 0 < length cols) by (subst cols; rewrite length_app; simpl; lia).
  destruct (getitem_lt cols 0 Hlen) as [d0 ->].
  cbn [mbind result_bind].
  destruct (next_match_among ["PARTNO"; "PART"]%string cols d0) as [d1 ->].
  cbn [mbind result_bind]. subst cols.
  rewrite (next_match_prefix _ is_part_no ups v rest d1) by rule_side v Hv.
  destruct (find is_part_no ups) as [c1|] eqn:H1; [|reflexivity].
  cbn [mbind result_bind].
  assert (exists d2, (if decide (1 < length (map PyStr ups ++ v :: rest))
                      then getitem (map PyStr ups ++ v :: rest) 1 else Ok (PyStr c1))
                     = Ok d2) as [d2 ->].
  { destruct (decide (1 < length _)); [by apply getitem_lt|by eexists]. }
  cbn [mbind result_bind].
  rewrite (next_match_prefix _ (has "NAME") ups v rest d2) by rule_side v Hv.
  destruct (find (has "NAME") ups) as [c2|] eqn:H2; [|reflexivity].
  cbn [mbind result_bind].
  rewrite (next_match_prefix _ (has "DESC") ups v rest (PyStr c2)) by rule_side v Hv.
  destruct (find (has "DESC") ups) as [c3|] eqn:H3; [|reflexivity].
  cbn [mbind result_bind].
  rewrite (next_match_prefix
             (fun col => and_then (contains "QTY" col) (contains "BIN" col))
             is_qty_and_bin ups v rest PyNone) by rule_side v Hv.
  destruct (find is_qty_and_bin ups) as [c4|] eqn:H4; cycle 1.
  { rewrite (find_none_impl _ _ ups qty_bin_is_qty_and_bin H4). reflexivity. }
  cbn [mbind result_bind].
  rewrite (next_match_prefix _ is_qty_bin ups v rest (PyStr c4)) by rule_side v Hv.
  destruct (find is_qty_bin ups) as [c5|] eqn:H5; [|reflexivity].
  cbn [mbind result_bind].
  assert (Ht : truthy (PyStr c5) = true).
  { apply find_some in H5 as [_ H5]. by destruct c5. }
  rewrite Ht. cbn [negb mbind result_bind].
  assert (exists d3, (if decide (2 < length (map PyStr ups ++ v :: rest))
                      then getitem (map PyStr ups ++ v :: rest) 2 else Ok (PyStr c3))
                     = Ok d3) as [d3 ->].
  { destruct (decide (2 < length _)); [by apply getitem_lt|by eexists]. }
  cbn [mbind result_bind].
  rewrite (next_match_prefix _ is_loc ups v rest d3) by rule_side v Hv.
  destruct (find is_loc ups) as [c6|] eqn:H6; cycle 1.
  { rewrite (find_none_impl (has "STORELOCATION") _ ups
               (fun c H => store_loc_is_loc c (storelocation_is_store_loc c H)) H6).
    reflexivity. }
  cbn [mbind result_bind].
  rewrite (next_match_prefix (contains "STORELOCATION") (has "STORELOCATION")
             ups v rest PyNone) by rule_side v Hv.
  destruct (find (has "STORELOCATION") ups) as [c7|] eqn:H7; [|reflexivity].
  cbn [mbind result_bind].
  rewrite (next_match_prefix _ is_store_loc ups v rest (PyStr c7)) by rule_side v Hv.
  destruct (find is_store_loc ups) as [c8|] eqn:H8; cycle 1.
  { apply find_some in H7 as [Hin H7].
    apply storelocation_is_store_loc in H7.
    by rewrite (find_none _ _ H8 c7 Hin) in H7. }
  cbn [mbind result_bind andb].
  unfold resolve_by_rules, first_column. rewrite H1, H3, H5, H6, H8. reflexivity.
Qed.

Lemma upper_labels_prefix P (pre : list pystr) (v : pyval) (rest : list pyval) :
  isinstance_str v = false ->
  map (upper_label P) (map PyStr pre ++ v :: rest)
  = map PyStr (map (str_upper P) pre) ++ v :: map (upper_label P) rest.
Proof.
  intros Hv. rewrite map_app, upper_labels_str. simpl. by destruct v.
Qed.

(** X6.  A label that is not a string (a number or a date in the header
    of a spreadsheet) is left as it is by the upper-casing, and a substring
    test that reaches it raises [TypeError].  The searches for a part
    number, for NAME, for DESC, for a quantity per bin and for
    STORELOCATION always run to their first match, so the search survives
    such a label exactly when each of the five has found its column among
    the string labels [pre] that come before it; the mapping is then the
    one of these labels alone.  Otherwise [generate_sticker_labels] ends in
    [TypeError] with the labels upper-cased and nothing shown. *)
Theorem label_that_is_no_string (P : Platform) (progress_bar status_container : bool)
    (pre : list pystr) (v : pyval) (rest : list pyval) (rws : list (Z * list cell)) :
  isinstance_str v = false ->
  let ups := map (str_upper P) pre in
  let labels := map PyStr pre ++ v :: rest in
  resolve P labels
  = (if settles_every_role ups then Ok (resolve_by_rules ups) else Raise TypeError) /\
  (settles_every_role ups = false ->
   generate_sticker_labels P progress_bar status_container
     {| df := {| columns := labels; rows := rws |}; screen := [] |}
   = (Raise TypeError,
      {| df := {| columns := map PyStr ups ++ v :: map (upper_label P) rest; rows := rws |};
         screen := [] |})).
Proof.
  intros Hv ups labels.
  assert (Hres : resolve P labels
                 = if settles_every_role ups then Ok (resolve_by_rules ups)
                   else Raise TypeError).
  { unfold resolve, labels. rewrite upper_labels_prefix by done.
    by apply find_relevant_columns_prefix. }
  split; [exact Hres|]. intros Hno. rewrite Hno in Hres.
  unfold generate_sticker_labels, identify_columns, mbind, M_bind, get_df, set_columns, lift.
  cbn [df columns rows screen]. unfold resolve in Hres. rewrite Hres.
  unfold labels. by rewrite upper_labels_prefix.
Qed.

Lemma label_that_is_no_string_witness :
  resolve ascii_platform [PyStr (lit "Part No"); PyStr (lit "Description"); PyInt 2024]
  = Raise TypeError /\
  (generate_sticker_labels ascii_platform true true
     {| df := {| columns := [PyStr (lit "Part No"); PyStr (lit "Description"); PyInt 2024];
                 rows := RangeIndex 0 sample_rows |};
        screen := [] |}).1
  = Raise TypeError.
Proof.
  destruct (label_that_is_no_string ascii_platform true true
              [lit "Part No"; lit "Description"] (PyInt 2024) [] (RangeIndex 0 sample_rows)
              eq_refl) as [Hres Hgen].
  split; [exact Hres|]. cbn [map app] in Hgen. by rewrite Hgen.
Defined.

(** X9.  The names of the columns are read without regard to case: two
    headers of ASCII names that differ only in the case of their letters
    give the same columns, and on the same rows the same run, with the
    same outcome, the same messages and the same labels left on the
    table. *)
Theorem headers_differing_in_case (P : Platform) (progress_bar status_container : bool)
    (names names' : list pystr) (rws : list (Z * list cell)) (scr : list event) :
  ascii_case P ->
  forallb is_asciib names = true ->
  forallb is_asciib names' = true ->
  map (map ascii_upper) names = map (map ascii_upper) names' ->
  resolve P (map PyStr names) = resolve P (map PyStr names') /\
  generate_sticker_labels P progress_bar status_container
    {| df := {| columns := map PyStr names; rows := rws |}; screen := scr |}
  = generate_sticker_labels P progress_bar status_container
      {| df := {| columns := map PyStr names'; rows := rws |}; screen := scr |}.
Proof.
  intros HP Hnames Hnames' Heq.
  assert (Hup : map (upper_label P) (map PyStr names)
                = map (upper_label P) (map PyStr names')).
  { rewrite !upper_labels_str, !(map_str_upper_ascii P) by done. by rewrite Heq. }
  split; [unfold resolve; by rewrite Hup|].
  unfold generate_sticker_labels, identify_columns, mbind, M_bind, get_df, set_columns.
  cbn [df columns rows screen]. by rewrite Hup.
Qed.

Lemma headers_differing_in_case_witness :
  resolve ascii_platform (map PyStr [lit "Part No"; lit "qty/bin"])
  = resolve ascii_platform (map PyStr [lit "PART no"; lit "Qty/Bin"]) /\
  generate_sticker_labels ascii_platform true true
    {| df := {| columns := map PyStr [lit "Part No"; lit "qty/bin"];
                rows := RangeIndex 0 sample_rows |};
       screen := [] |}
  = generate_sticker_labels ascii_platform true true
      {| df := {| columns := map PyStr [lit "PART no"; lit "Qty/Bin"];
                  rows := RangeIndex 0 sample_rows |};
         screen := [] |}.
Proof.
  apply (headers_differing_in_case ascii_platform true true
           [lit "Part No"; lit "qty/bin"] [lit "PART no"; lit "Qty/Bin"]
           (RangeIndex 0 sample_rows) []); [apply test_platform_case|reflexivity..].
Defined.

Lemma find_only_match (rule : pystr -> bool) (ups : list pystr) (c : pystr) :
  only_match rule ups c -> first_column rule ups = Some (PyStr c).
Proof.
  intros (Hin & Hc & Hone). unfold first_column.
  destruct (find rule ups) as [c'|] eqn:Hfind.
  - apply find_some in Hfind as [Hin' Hc']. by rewrite (Hone c' Hin' Hc').
  - by rewrite (find_none _ _ Hfind c Hin) in Hc.
Qed.

Lemma only_match_Permutation (rule : pystr -> bool) (ups ups' : list pystr) (c : pystr) :
  Permutation ups ups' -> only_match rule ups c -> only_match rule ups' c.
Proof.
  intros Hp (Hin & Hc & Hone). split; [by apply (Permutation_in _ Hp)|].
  split; [done|]. intros c' Hin'. apply Hone.
  by apply (Permutation_in _ (Permutation_sym Hp)).
Qed.

(** X10.  The order of the columns does not matter to a role whose first
    rule is passed by one column only: however the columns are permuted,
    the role gets that column.  (The fallbacks by position, and the choice
    among several matching columns, do depend on the order.) *)
Theorem column_search_ignores_order (P : Platform) (names names' : list pystr) :
  names <> [] ->
  Permutation names names' ->
  let ups := map (str_upper P) names in
  exists m m',
    resolve P (map PyStr names) = Ok m /\
    resolve P (map PyStr names') = Ok m' /\
    (forall c, only_match is_part_no ups c ->
               part_no_col m = PyStr c /\ part_no_col m' = PyStr c) /\
    (forall c, only_match (has "DESC") ups c ->
               desc_col m = PyStr c /\ desc_col m' = PyStr c) /\
    (forall c, only_match is_qty_bin ups c ->
               qty_bin_col m = PyStr c /\ qty_bin_col m' = PyStr c) /\
    (forall c, only_match is_loc ups c ->
               loc_col m = PyStr c /\ loc_col m' = PyStr c) /\
    (forall c, only_match is_store_loc ups c ->
               store_loc_col m = PyStr c /\ store_loc_col m' = PyStr c).
Proof.
  intros Hne Hp ups.
  assert (Hne' : names' <> []).
  { intros ->. apply Permutation_sym, Permutation_nil in Hp. done. }
  assert (Hups : Permutation ups (map (str_upper P) names')) by by apply Permutation_map.
  exists (resolve_by_rules ups), (resolve_by_rules (map (str_upper P) names')).
  split; [by apply resolve_str|]. split; [by apply resolve_str|].
  repeat split; intros;
    match goal with
    | H : only_match ?rule ups ?c |- _ =>
        pose proof (find_only_match _ _ _ H) as Hf;
        pose proof (find_only_match _ _ _ (only_match_Permutation _ _ _ _ Hups H)) as Hf'
    end;
    cbn [resolve_by_rules part_no_col desc_col qty_bin_col loc_col store_loc_col];
    rewrite ?Hf, ?Hf'; reflexivity.
Qed.

Lemma column_search_ignores_order_witness :
  exists m m',
    resolve ascii_platform (map PyStr inventory_columns) = Ok m /\
    resolve ascii_platform (map PyStr (rev inventory_columns)) = Ok m' /\
    part_no_col m = PyStr (lit "PART NUMBER") /\
    part_no_col m' = PyStr (lit "PART NUMBER") /\
    qty_bin_col m = PyStr (lit "QTY/BIN") /\
    qty_bin_col m' = PyStr (lit "QTY/BIN").
Proof.
  destruct (column_search_ignores_order ascii_platform inventory_columns
              (rev inventory_columns))
    as (m & m' & Hm & Hm' & Hpart & _ & Hqty & _);
    [discriminate|apply Permutation_rev|].
  exists m, m'. split; [exact Hm|]. split; [exact Hm'|].
  assert (H1 : only_match is_part_no
                 (map (str_upper ascii_platform) inventory_columns) (lit "PART NUMBER")).
  { split; [vm_compute; tauto|]. split; [reflexivity|].
    intros c Hin Hc. vm_compute in Hin.
    repeat (destruct Hin as [<-|Hin]; [first [reflexivity|discriminate Hc]|]).
    destruct Hin. }
  assert (H2 : only_match is_qty_bin
                 (map (str_upper ascii_platform) inventory_columns) (lit "QTY/BIN")).
  { split; [vm_compute; tauto|]. split; [reflexivity|].
    intros c Hin Hc. vm_compute in Hin.
    repeat (destruct Hin as [<-|Hin]; [first [reflexivity|discriminate Hc]|]).
    destruct Hin. }
  destruct (Hpart _ H1) as [E1 E1']. destruct (Hqty _ H2) as [E2 E2'].
  by repeat split.
Defined.

(* ===================================================================== *)
(** * 21. The run, row by row                                             *)
(* ===================================================================== *)

(** [(k + 1) / n] is accepted by the progress bar exactly for the index
    labels from [-1] to [n - 1]. *)
Lemma progress_value (k n : Z) :
  (0 < n)%Z ->
  true_div (k + 1) n = Ok (inject_Z (k + 1) / inject_Z n)%Q /\
  (Qle_bool 0 (inject_Z (k + 1) / inject_Z n) && Qle_bool (inject_Z (k + 1) / inject_Z n) 1
   = true <-> progress_accepts n k).
Proof.
  intros Hn. split.
  - unfold true_div. by rewrite decide_False by lia.
  - unfold progress_accepts. rewrite andb_true_iff, !Qle_bool_iff.
    destruct n as [|p|p]; try lia.
    unfold Qle, Qdiv, Qmult, Qinv, inject_Z. simpl. lia.
Qed.

Lemma when_run (c : bool) (stmt : M unit) (evs : list event) (w : world) :
  (c = true -> stmt w = (Ok tt, shows w evs)) ->
  when c stmt w = (Ok tt, shows w (if c then evs else [])).
Proof.
  intros Hs. destruct c; [by apply Hs|]. by rewrite shows_nil.
Qed.

Lemma report_progress_run (progress_bar : bool) (n k : Z) (w : world) :
  (progress_bar = true -> progress_accepts n k) ->
  when progress_bar (v ← lift (true_div (k + 1) n); progress_bar_progress v) w
  = (Ok tt, shows w (if progress_bar
                     then [progress (inject_Z (k + 1) / inject_Z n)%Q] else [])).
Proof.
  intros Hk. apply when_run. intros Hp. pose proof (Hk Hp) as Hacc.
  destruct (progress_value k n (proj1 Hacc)) as [Hv Hrange].
  unfold mbind, M_bind, lift. rewrite Hv. unfold progress_bar_progress.
  by rewrite (proj2 Hrange Hacc).
Qed.

Lemma generate_qr_code_trace P data w :
  generate_qr_code P data w
  = (Ok (qr_image_of P data),
     shows w match qr_error P data with
             | Some e => [st_error (lit "Error generating QR code: " ++ e)]
             | None => []
             end).
Proof.
  unfold generate_qr_code, qr_image_of. destruct (qr_error P data) as [e|].
  - reflexivity.
  - by rewrite shows_nil.
Qed.

(** One pass through the body of the loop. *)
Lemma sticker_elements_trace P m (progress_bar status_container : bool) n k row r w :
  extract_data P m row = Ok r ->
  (progress_bar = true -> progress_accepts n k) ->
  sticker_elements P m progress_bar status_container n k row w
  = (match label_error P r with
     | Some e => Raise e
     | None => Ok (sticker_of P r)
     end,
     shows w (row_events P progress_bar status_container n k r)).
Proof.
  intros Hr Hk. unfold sticker_elements, row_events.
  rewrite (bind_run _ _ _ _ _ (report_progress_run progress_bar n k w Hk)).
  set (w1 := shows w _).
  match goal with
  | |- context [when status_container (emit ?e)] =>
      rewrite (bind_run _ _ w1 _ _
                 (when_run status_container (emit e) [e] w1 (fun _ => emit_run e w1)))
  end.
  set (w2 := shows w1 _).
  rewrite (bind_run _ _ w2 r w2); [|by unfold lift; rewrite Hr].
  rewrite (bind_run _ _ w2 _ _ (generate_qr_code_trace P (qr_data_of r) w2)).
  unfold mbind, M_bind, lift. rewrite new_sticker_table_outcome.
  fold (label_error P r). subst w2 w1. rewrite !shows_shows.
  by destruct (label_error P r).
Qed.

(** The loop over rows that can be read and whose labels can be made. *)
Lemma sticker_loop_trace P m (progress_bar status_container : bool) (n : Z)
    (cols : list pyval) (rws : list (Z * list cell)) :
  forall (recs : list StickerRecord) (all_elements : list Flowable) (w : world),
    reads P m cols rws recs ->
    labels_made P recs ->
    (progress_bar = true -> Forall (fun it => progress_accepts n it.1) rws) ->
    sticker_loop P m progress_bar status_container n
      (map (row_of cols) rws) all_elements w
    = (Ok (all_elements ++ story_of P (len (df w)) (labelled_with rws recs)),
       shows w (events_of P progress_bar status_container n (labelled_with rws recs))).
Proof.
  induction rws as [|[index cells] rws IH]; intros recs all_elements w Hrecs Hmade Hp.
  - inversion Hrecs; subst. simpl. by rewrite app_nil_r, shows_nil.
  - inversion Hrecs as [|? r ? recs' Hr Hrecs']; subst. simpl in Hr.
    pose proof (Forall_inv Hmade) as Hlabel. simpl in Hlabel.
    pose proof (Forall_inv_tail Hmade) as Hmade'.
    cbn [map row_of sticker_loop].
    pose proof (sticker_elements_trace P m progress_bar status_container n index _ r w Hr
                  (fun H => Forall_inv (Hp H))) as Hrow.
    rewrite Hlabel in Hrow. rewrite (bind_run _ _ _ _ _ Hrow).
    unfold get_df at 1. unfold mbind at 1, M_bind at 1.
    change (df (shows w ?evs)) with (df w).
    match goal with
    | |- sticker_loop _ _ _ _ _ _ ?acc ?w1 = _ =>
        rewrite (IH recs' acc w1 Hrecs' Hmade' (fun H => Forall_inv_tail (Hp H)))
    end.
    change (df (shows w ?evs)) with (df w). rewrite shows_shows.
    unfold labelled_with, story_of, events_of, row_story. cbn [map fst zip zip_with concat].
    f_equal. f_equal. destruct (decide (index < len (df w) - 1)%Z).
    + by rewrite <- !app_assoc.
    + by rewrite !app_nil_r, <- !app_assoc.
Qed.

Lemma labels_made_first_error P (recs : list StickerRecord) :
  labels_made P recs <-> first_label_error P recs = None.
Proof.
  unfold labels_made. induction recs as [|r recs IH]; simpl.
  - split; [done|constructor].
  - split.
    + intros Hall. rewrite (Forall_inv Hall). apply IH. exact (Forall_inv_tail Hall).
    + destruct (label_error P r) eqn:E; [discriminate|].
      intros Hrest. constructor; [exact E|by apply IH].
Qed.

(** The loop stops at the first row whose label cannot be made, with the
    exception of its paragraph. *)
Lemma sticker_loop_unmade P m (progress_bar status_container : bool) (n : Z)
    (cols : list pyval) (rws : list (Z * list cell)) (e : exn) :
  forall (recs : list StickerRecord) (all_elements : list Flowable) (w : world),
    reads P m cols rws recs ->
    first_label_error P recs = Some e ->
    (progress_bar = true -> Forall (fun it => progress_accepts n it.1) rws) ->
    (sticker_loop P m progress_bar status_container n
       (map (row_of cols) rws) all_elements w).1
    = Raise e.
Proof.
  induction rws as [|[index cells] rws IH]; intros recs all_elements w Hrecs Herr Hp.
  - inversion Hrecs; subst. discriminate Herr.
  - inversion Hrecs as [|? r ? recs' Hr Hrecs']; subst. simpl in Hr, Herr.
    cbn [map row_of sticker_loop].
    pose proof (sticker_elements_trace P m progress_bar status_container n index _ r w Hr
                  (fun H => Forall_inv (Hp H))) as Hrow.
    destruct (label_error P r) as [e'|].
    + injection Herr as ->. by rewrite (bind_raise _ _ _ _ _ Hrow).
    + rewrite (bind_run _ _ _ _ _ Hrow).
      unfold get_df at 1. unfold mbind at 1, M_bind at 1.
      apply (IH recs' _ _ Hrecs' Herr (fun H => Forall_inv_tail (Hp H))).
Qed.

(** ** Reading a row whose labels may repeat *)

Lemma cells_at_length (ups : list pystr) (cells : list cell) (c : pystr) :
  length (cells_at (map PyStr ups) cells (PyStr c)) = occurrences c ups.
Proof.
  unfold occurrences. revert cells.
  induction ups as [|u ups IH]; intros cells; [done|].
  cbn [map cells_at List.filter]. rewrite py_eqb_str, length_app, IH.
  by destruct (bool_decide (u = c)).
Qed.

Lemma occurrences_In (ups : list pystr) (c : pystr) : In c ups -> 0 < occurrences c ups.
Proof.
  unfold occurrences. intros Hin.
  assert (Hf : In c (List.filter (fun u => bool_decide (u = c)) ups)).
  { apply filter_In. split; [done|]. by apply bool_decide_eq_true_2. }
  destruct (List.filter _ ups); [done|simpl; lia].
Qed.

Lemma occurrences_NoDup (ups : list pystr) (c : pystr) : NoDup ups -> occurrences c ups <= 1.
Proof.
  unfold occurrences. induction 1 as [|u ups Hu Hnd IH]; [simpl; lia|].
  cbn [List.filter]. destruct (bool_decide (u = c)) eqn:E; [|done].
  apply bool_decide_eq_true_1 in E as ->.
  destruct (List.filter _ ups) as [|x l] eqn:Hf; [simpl; lia|].
  assert (Hx : In x (List.filter (fun u => bool_decide (u = c)) ups))
    by (rewrite Hf; by left).
  apply filter_In in Hx as [Hx E]. apply bool_decide_eq_true_1 in E as ->.
  exfalso. apply Hu. by apply list_elem_of_In.
Qed.

Lemma row_getitem_column (ups : list pystr) name cells (c : pystr) :
  In c ups ->
  exists x, row_getitem (mkRow (map PyStr ups) name cells) (PyStr c) = Ok x /\
            (occurrences c ups = 1 -> exists y, x = Scalar y) /\
            (1 < occurrences c ups -> notna_truth x = Raise ValueError).
Proof.
  intros Hin. apply occurrences_In in Hin. unfold row_getitem. simpl.
  pose proof (cells_at_length ups cells c) as Hlen.
  destruct (cells_at (map PyStr ups) cells (PyStr c)) as [|x [|y l]]; simpl in Hlen.
  - lia.
  - eexists. split; [done|]. split; [by eexists|lia].
  - eexists. split; [done|]. split; [lia|done].
Qed.

Lemma optional_field_total P (ups : list pystr) name cells col :
  column_or_none ups col ->
  exists s, optional_field P (mkRow (map PyStr ups) name cells) col = Ok s.
Proof.
  intros Hcol. unfold optional_field.
  destruct Hcol as [->|(c & -> & Hc)]; [by eexists|].
  destruct (truthy (PyStr c) && row_contains _ (PyStr c)); [|by eexists].
  destruct (row_getitem_column ups name cells c Hc) as (x & -> & _). by eexists.
Qed.

Lemma row_contains_column (ups : list pystr) name cells (c : pystr) :
  In c ups -> row_contains (mkRow (map PyStr ups) name cells) (PyStr c) = true.
Proof.
  intros Hin. unfold row_contains. simpl. apply existsb_exists.
  exists (PyStr c). split; [by apply in_map|]. rewrite py_eqb_str.
  by apply bool_decide_eq_true_2.
Qed.

(** A row is read unless the quantity stands under a label that several
    columns carry: the condition [pd.notna(row[qty_bin_col])] is then the
    truth value of a Series, which pandas refuses with [ValueError]. *)
Lemma extract_data_outcome P (ups : list pystr) m name cells :
  is_column ups (part_no_col m) ->
  is_column ups (desc_col m) ->
  column_or_none ups (qty_bin_col m) ->
  is_column ups (loc_col m) ->
  column_or_none ups (store_loc_col m) ->
  (forall q, qty_bin_col m = PyStr q -> q <> empty_str) ->
  if quantity_is_series ups m
  then extract_data P m (mkRow (map PyStr ups) name cells) = Raise ValueError
  else exists r, extract_data P m (mkRow (map PyStr ups) name cells) = Ok r.
Proof.
  intros (c1 & H1 & Hc1) (c2 & H2 & Hc2) Hqty Hloc Hstore Hq.
  unfold extract_data, quantity_is_series. rewrite H1, H2.
  destruct (row_getitem_column ups name cells c1 Hc1) as (x1 & -> & _).
  destruct (row_getitem_column ups name cells c2 Hc2) as (x2 & -> & _).
  cbn [fmap result_fmap mbind result_bind].
  destruct (optional_field_total P ups name cells (loc_col m) (or_intror Hloc))
    as [s3 ->].
  destruct (optional_field_total P ups name cells (store_loc_col m) Hstore)
    as [s4 ->].
  destruct Hqty as [->|(q & Hqc & Hin)]; [by eexists|].
  rewrite Hqc. specialize (Hq q Hqc).
  assert (Ht : truthy (PyStr q) = true) by by destruct q.
  rewrite Ht, (row_contains_column ups name cells q Hin).
  destruct (row_getitem_column ups name cells q Hin) as (x & -> & Hone & Hmany).
  unfold and_then. cbn [mbind result_bind].
  pose proof (occurrences_In ups q Hin) as Hpos.
  destruct (bool_decide (1 < occurrences q ups)) eqn:E.
  - apply bool_decide_eq_true_1 in E. by rewrite (Hmany E).
  - apply bool_decide_eq_false_1 in E.
    destruct Hone as [y ->]; [lia|]. simpl. destruct (notna y); by eexists.
Qed.

Lemma resolved_quantity_not_empty (ups : list pystr) (q : pystr) :
  qty_bin_col (resolve_by_rules ups) = PyStr q -> q <> empty_str.
Proof.
  cbn [resolve_by_rules qty_bin_col]. unfold first_column.
  intros Hq Hnil. subst q.
  destruct (find is_qty_bin ups) as [c|] eqn:E1; simpl in Hq.
  { apply find_some in E1 as [_ E1]. injection Hq as ->. discriminate E1. }
  destruct (find is_qty_and_bin ups) as [c|] eqn:E2; simpl in Hq.
  { apply find_some in E2 as [_ E2]. injection Hq as ->. discriminate E2. }
  destruct (find (has "QTY") ups) as [c|] eqn:E3; simpl in Hq.
  { apply find_some in E3 as [_ E3]. injection Hq as ->. discriminate E3. }
  destruct (find (has "QUANTITY") ups) as [c|] eqn:E4; simpl in Hq.
  { apply find_some in E4 as [_ E4]. injection Hq as ->. discriminate E4. }
  done.
Qed.

(** Every row of a table with string labels is read, or none is. *)
Lemma reads_resolved P (ups : list pystr) (rws : list (Z * list cell)) :
  ups <> [] ->
  let m := resolve_by_rules ups in
  if quantity_is_series ups m
  then forall it, In it rws ->
                  extract_data P m (mkRow (map PyStr ups) it.1 it.2) = Raise ValueError
  else exists recs, reads P m (map PyStr ups) rws recs.
Proof.
  intros Hne m.
  destruct (resolve_by_rules_columns ups Hne) as (H1 & H2 & H3 & H4 & H5).
  pose proof (fun name cells =>
                extract_data_outcome P ups m name cells H1 H2 H3 H4 H5
                  (resolved_quantity_not_empty ups)) as Hrow.
  destruct (quantity_is_series ups m).
  - intros it _. apply Hrow.
  - induction rws as [|it rws [recs IH]]; [exists []; constructor|].
    destruct (Hrow it.1 it.2) as [r Hr]. exists (r :: recs). by constructor.
Qed.

(** ** The three parts of the function, with what they show *)

Lemma identify_columns_trace P (status_container : bool) (names : list pystr) rws scr :
  names <> [] ->
  let m := resolve_by_rules (map (str_upper P) names) in
  identify_columns P status_container
    {| df := {| columns := map PyStr names; rows := rws |}; screen := scr |}
  = (Ok m,
     {| df := {| columns := map PyStr (map (str_upper P) names); rows := rws |};
        screen := scr ++ column_events status_container m |}).
Proof.
  intros Hne m. unfold identify_columns.
  unfold get_df at 1. unfold mbind at 1, M_bind at 1. cbn [df columns].
  unfold set_columns at 1. unfold mbind at 1, M_bind at 1. cbn [df columns rows screen].
  unfold get_df at 1. unfold mbind at 1, M_bind at 1. cbn [df columns].
  rewrite upper_labels_str.
  rewrite find_relevant_columns_by_rules by (by destruct names).
  unfold lift at 1. unfold mbind at 1, M_bind at 1. fold m.
  unfold column_events. destruct status_container; cbn [when].
  - unfold mbind, M_bind, emit, when. cbn [df screen].
    destruct (truthy (store_loc_col m)); cbn [df screen mret M_ret];
      by rewrite <- !app_assoc.
  - unfold mbind, M_bind, mret, M_ret. by rewrite app_nil_r.
Qed.

Lemma build_document_trace P (status_container : bool) story w :
  build_document P status_container story w
  = (Ok (built P story), shows w (build_events P status_container story)).
Proof.
  unfold build_document, built, build_events.
  destruct (build_error P story) as [e|]; destruct status_container; cbn [when];
    unfold mbind, M_bind, mret, M_ret, emit; by rewrite ?shows_nil.
Qed.

(** The whole run on a table with string labels, whatever its index
    labels, when every row can be read and every label can be made: every
    row gives its sticker and the story goes to [doc.build]. *)
Lemma generate_sticker_labels_trace P (progress_bar status_container : bool)
    (names : list pystr) (rws : list (Z * list cell)) (scr : list event)
    (recs : list StickerRecord) :
  names <> [] ->
  let ups := map (str_upper P) names in
  let m := resolve_by_rules ups in
  let n := Z.of_nat (length rws) in
  let labelled := labelled_with rws recs in
  reads P m (map PyStr ups) rws recs ->
  labels_made P recs ->
  (progress_bar = true -> Forall (fun it => progress_accepts n it.1) rws) ->
  generate_sticker_labels P progress_bar status_container
    {| df := {| columns := map PyStr names; rows := rws |}; screen := scr |}
  = (Ok (built P (story_of P n labelled)),
     {| df := {| columns := map PyStr ups; rows := rws |};
        screen := scr ++ column_events status_container m
                    ++ events_of P progress_bar status_container n labelled
                    ++ build_events P status_container (story_of P n labelled) |}).
Proof.
  intros Hne ups m n labelled Hrecs Hmade Hp.
  unfold generate_sticker_labels.
  rewrite (bind_run _ _ _ _ _ (identify_columns_trace P status_container names rws scr Hne)).
  fold ups m. set (w1 := mkWorld _ _).
  assert (Hstory : assemble_story P m progress_bar status_container w1
                   = (Ok (story_of P n labelled),
                      shows w1 (events_of P progress_bar status_container n labelled))).
  { unfold assemble_story. unfold get_df, mbind, M_bind.
    assert (iterrows (df w1) = map (row_of (map PyStr ups)) rws) as ->.
    { unfold iterrows. apply map_ext. by intros [index cells]. }
    change (len (df w1)) with n.
    rewrite (sticker_loop_trace P m progress_bar status_container n _ rws recs [] w1
               Hrecs Hmade Hp).
    reflexivity. }
  rewrite (bind_run _ _ _ _ _ Hstory), build_document_trace.
  unfold shows, w1. cbn [df screen]. by rewrite <- !app_assoc.
Qed.

(** The default index passes the progress bar. *)
Lemma RangeIndex_accepted (body : list (list cell)) (k n : nat) :
  k + length body = n ->
  Forall (fun it => progress_accepts (Z.of_nat n) it.1) (RangeIndex k body).
Proof.
  revert k. induction body as [|cells body IH]; intros k Hk; [constructor|].
  simpl in Hk. constructor; [unfold progress_accepts; simpl; lia|].
  apply IH. lia.
Qed.

Lemma length_RangeIndex (body : list (list cell)) (k : nat) :
  length (RangeIndex k body) = length body.
Proof. revert k. induction body as [|cells body IH]; intros k; [done|]. simpl. by rewrite IH. Qed.


(** ** A row that stops the loop *)


Lemma sticker_elements_refused P m (status_container : bool) n k row w :
  (0 < n)%Z -> ~ progress_accepts n k ->
  sticker_elements P m true status_container n k row w
  = (Raise StreamlitAPIException, w).
Proof.
  intros Hn Hk. unfold sticker_elements.
  destruct (progress_value k n Hn) as [Hv Hrange].
  apply bind_raise. cbn [when]. unfold mbind, M_bind, lift. rewrite Hv.
  unfold progress_bar_progress.
  destruct (Qle_bool 0 _ && Qle_bool _ 1) eqn:E; [|reflexivity].
  exfalso. apply Hk. by apply Hrange.
Qed.

(** The loop over the rows up to a given one, and over the rest. *)
Lemma sticker_loop_app P m (progress_bar status_container : bool) n
    (todo1 todo2 : list (Z * Row)) :
  forall (all_elements : list Flowable) (w : world),
    sticker_loop P m progress_bar status_container n (todo1 ++ todo2) all_elements w
    = match sticker_loop P m progress_bar status_container n todo1 all_elements w with
      | (Ok all_elements', w') =>
          sticker_loop P m progress_bar status_container n todo2 all_elements' w'
      | (Raise e, w') => (Raise e, w')
      end.
Proof.
  induction todo1 as [|[index row] todo1 IH]; intros all_elements w; [done|].
  cbn [app sticker_loop]. unfold mbind at 1 3, M_bind at 1 3.
  destruct (sticker_elements P m progress_bar status_container n index row w)
    as [[elements|e] w1]; [|done].
  unfold get_df at 1 2. unfold mbind, M_bind. apply IH.
Qed.

(** ** Breaks and pages *)

Lemma sticker_no_break P r : Forall (fun f => is_PageBreak f = false) (sticker_of P r).
Proof. repeat constructor. Qed.

Lemma count_breaks_sticker P r : count_breaks (sticker_of P r) = 0.
Proof. reflexivity. Qed.

Lemma count_breaks_story P n (labelled : list (Z * StickerRecord)) :
  count_breaks (story_of P n labelled)
  = length (List.filter (breaks_after n) (map fst labelled)).
Proof.
  induction labelled as [|[index r] labelled IH]; [done|].
  unfold story_of in *. cbn [map concat fst snd List.filter].
  rewrite count_breaks_app, IH. unfold row_story, breaks_after.
  rewrite count_breaks_app, count_breaks_sticker.
  destruct (decide (index < n - 1)%Z).
  - by rewrite bool_decide_eq_true_2.
  - by rewrite bool_decide_eq_false_2.
Qed.

Lemma fst_labelled_with rws recs (P : Platform) m cols :
  reads P m cols rws recs -> map fst (labelled_with rws recs) = map fst rws.
Proof.
  intros Hrecs. unfold labelled_with. apply fst_zip.
  apply Forall2_length in Hrecs. rewrite length_map. lia.
Qed.

(** The run up to the loop. *)
Lemma generate_sticker_labels_loop P (progress_bar status_container : bool)
    (names : list pystr) (rws : list (Z * list cell)) (scr : list event) :
  names <> [] ->
  let ups := map (str_upper P) names in
  let m := resolve_by_rules ups in
  generate_sticker_labels P progress_bar status_container
    {| df := {| columns := map PyStr names; rows := rws |}; screen := scr |}
  = match sticker_loop P m progress_bar status_container (Z.of_nat (length rws))
            (map (row_of (map PyStr ups)) rws) []
            {| df := {| columns := map PyStr ups; rows := rws |};
               screen := scr ++ column_events status_container m |}
    with
    | (Ok story, w) => build_document P status_container story w
    | (Raise e, w) => (Raise e, w)
    end.
Proof.
  intros Hne ups m. unfold generate_sticker_labels.
  rewrite (bind_run _ _ _ _ _ (identify_columns_trace P status_container names rws scr Hne)).
  fold ups m. set (w1 := mkWorld _ _).
  unfold assemble_story, get_df, mbind, M_bind. reflexivity.
Qed.

(** The run on rows of which one has a label that cannot be made. *)
Lemma generate_sticker_labels_unmade P (progress_bar status_container : bool)
    (names : list pystr) (rws : list (Z * list cell)) (scr : list event)
    (recs : list StickerRecord) (e : exn) :
  names <> [] ->
  let ups := map (str_upper P) names in
  let m := resolve_by_rules ups in
  reads P m (map PyStr ups) rws recs ->
  first_label_error P recs = Some e ->
  (progress_bar = true ->
   Forall (fun it => progress_accepts (Z.of_nat (length rws)) it.1) rws) ->
  (generate_sticker_labels P progress_bar status_container
     {| df := {| columns := map PyStr names; rows := rws |}; screen := scr |}).1
  = Raise e.
Proof.
  intros Hne ups m Hrecs Herr Hp.
  rewrite (generate_sticker_labels_loop P progress_bar status_container names rws scr Hne).
  fold ups m.
  pose proof (sticker_loop_unmade P m progress_bar status_container
                (Z.of_nat (length rws)) (map PyStr ups) rws e recs []
                {| df := {| columns := map PyStr ups; rows := rws |};
                   screen := scr ++ column_events status_container m |}
                Hrecs Herr Hp) as Hloop.
  destruct (sticker_loop _ _ _ _ _ _ _ _) as [[story|e'] w2]; simpl in Hloop.
  - discriminate Hloop.
  - injection Hloop as ->. reflexivity.
Qed.

(** The outcome of a run on rows that can be read. *)
Lemma generate_sticker_labels_outcome P (progress_bar status_container : bool)
    (names : list pystr) (rws : list (Z * list cell)) (scr : list event)
    (recs : list StickerRecord) :
  names <> [] ->
  let ups := map (str_upper P) names in
  let m := resolve_by_rules ups in
  let n := Z.of_nat (length rws) in
  reads P m (map PyStr ups) rws recs ->
  (progress_bar = true -> Forall (fun it => progress_accepts n it.1) rws) ->
  (generate_sticker_labels P progress_bar status_container
     {| df := {| columns := map PyStr names; rows := rws |}; screen := scr |}).1
  = match first_label_error P recs with
    | Some e => Raise e
    | None => Ok (built P (story_of P n (labelled_with rws recs)))
    end.
Proof.
  intros Hne ups m n Hrecs Hp.
  destruct (first_label_error P recs) as [e|] eqn:Herr.
  - by apply (generate_sticker_labels_unmade P progress_bar status_container names rws scr
                recs e).
  - apply labels_made_first_error in Herr.
    by rewrite (generate_sticker_labels_trace P progress_bar status_container names rws scr
                  recs Hne Hrecs Herr Hp).
Qed.

(** X4.  The test [index < len(df) - 1] reads the index label of the row,
    not its position.  On a table with any integer index labels (that the
    progress bar, if there is one, accepts) every row is read, and when
    the labels can be made the story has a break after exactly the rows
    whose label is below [len(df) - 1]: a row whose label is [len(df) - 1]
    or more is not followed by a break, whether it is the last row or
    not, and a last row with a smaller label is.  When the paragraph of a
    label cannot be made the call raises what the first such paragraph
    raises. *)
Theorem index_labels_decide_the_breaks (P : Platform)
    (progress_bar status_container : bool) (names : list pystr)
    (rws : list (Z * list cell)) :
  names <> [] ->
  let ups := map (str_upper P) names in
  let m := resolve_by_rules ups in
  let n := Z.of_nat (length rws) in
  let labels := map fst rws in
  quantity_is_series ups m = false ->
  (progress_bar = true -> Forall (fun it => progress_accepts n it.1) rws) ->
  exists recs,
    reads P m (map PyStr ups) rws recs /\
    let story := story_of P n (labelled_with rws recs) in
    (generate_sticker_labels P progress_bar status_container
       {| df := {| columns := map PyStr names; rows := rws |}; screen := [] |}).1
    = match first_label_error P recs with
      | Some e => Raise e
      | None => Ok (built P story)
      end /\
    story = concat (zip_with (fun index r =>
                      sticker_of P r ++ (if breaks_after n index then [PageBreak] else []))
                    labels recs) /\
    count_breaks story = length (List.filter (breaks_after n) labels).
Proof.
  intros Hne ups m n labels Hq Hp.
  assert (Hups : ups <> []) by (subst ups; by destruct names).
  pose proof (reads_resolved P ups rws Hups) as Hreads. cbv zeta in Hreads.
  fold m in Hreads. rewrite Hq in Hreads. destruct Hreads as [recs Hrecs].
  exists recs. split; [exact Hrecs|]. intros story.
  split; [|split].
  - by apply (generate_sticker_labels_outcome P progress_bar status_container names rws []
                recs).
  - unfold story, story_of, labelled_with, labels.
    clear Hrecs. clear story. generalize (map fst rws). intros l. revert recs.
    induction l as [|index l IH]; intros [|r recs]; try reflexivity.
    cbn [zip zip_with map concat fst snd]. rewrite <- IH. f_equal.
    unfold row_story, breaks_after. f_equal.
    destruct (decide (index < n - 1)%Z).
    + by rewrite bool_decide_eq_true_2.
    + by rewrite bool_decide_eq_false_2.
  - unfold story. by rewrite count_breaks_story, (fst_labelled_with _ _ _ _ _ Hrecs).
Qed.

Lemma index_labels_decide_the_breaks_witness :
  let rws := [ (5%Z, [CellStr (lit "P-100"); CellStr (lit "Bolt")]);
               (7%Z, [CellStr (lit "P-200"); CellStr (lit "Washer")]) ] in
  let ups := map (str_upper ascii_platform) inventory_columns in
  let m := resolve_by_rules ups in
  exists recs,
    reads ascii_platform m (map PyStr ups) rws recs /\
    let story := story_of ascii_platform 2 (labelled_with rws recs) in
    (generate_sticker_labels ascii_platform false false
       {| df := {| columns := map PyStr inventory_columns; rows := rws |};
          screen := [] |}).1
    = Ok (built ascii_platform story) /\
    count_breaks story = 0.
Proof.
  intros rws ups m.
  destruct (index_labels_decide_the_breaks ascii_platform false false inventory_columns rws)
    as (recs & Hrecs & Hrun & _ & Hbreaks);
    [discriminate|reflexivity|discriminate|].
  exists recs. split; [exact Hrecs|]. split; [|exact Hbreaks].
  rewrite Hrun.
  assert (Hnone : first_label_error ascii_platform recs = None).
  { unfold reads in Hrecs.
    apply Forall2_cons_inv_l in Hrecs as (r1 & recs1 & Hr1 & Hrecs & ->).
    apply Forall2_cons_inv_l in Hrecs as (r2 & recs2 & Hr2 & Hrecs & ->).
    apply Forall2_nil_inv_l in Hrecs as ->.
    vm_compute in Hr1. injection Hr1 as <-.
    vm_compute in Hr2. injection Hr2 as <-.
    reflexivity. }
  by rewrite Hnone.
Defined.

(** ** What stops a run *)



(** X11.  A progress bar takes values from 0 to 1 only.  On a table whose
    index labels are not the positions (a filtered or re-indexed frame) the
    first row whose label is below [-1], or [len(df)] or more, ends the
    call in [StreamlitAPIException], when the labels of the rows before it
    could be made; otherwise the call has ended before, in what
    [Paragraph(...)] raised at the first row whose label could not be
    made. *)
Theorem progress_refuses_index_label (P : Platform) (status_container : bool)
    (names : list pystr) (before after : list (Z * list cell))
    (index : Z) (cells : list cell) :
  names <> [] ->
  let ups := map (str_upper P) names in
  let m := resolve_by_rules ups in
  let rws := before ++ (index, cells) :: after in
  let n := Z.of_nat (length rws) in
  quantity_is_series ups m = false ->
  Forall (fun it => progress_accepts n it.1) before ->
  (index < -1 \/ n <= index)%Z ->
  exists recs,
    reads P m (map PyStr ups) before recs /\
    (generate_sticker_labels P true status_container
       {| df := {| columns := map PyStr names; rows := rws |}; screen := [] |}).1
    = match first_label_error P recs with
      | Some e => Raise e
      | None => Raise StreamlitAPIException
      end.
Proof.
  intros Hne ups m rws n Hq Hbefore Hindex.
  assert (Hups : ups <> []) by (subst ups; by destruct names).
  pose proof (reads_resolved P ups before Hups) as Hreads. cbv zeta in Hreads.
  fold m in Hreads. rewrite Hq in Hreads. destruct Hreads as [recs Hrecs].
  exists recs. split; [exact Hrecs|].
  rewrite (generate_sticker_labels_loop P true status_container names rws [] Hne).
  fold ups m n. unfold rws at 1. rewrite map_app, sticker_loop_app.
  set (w1 := mkWorld _ _).
  destruct (first_label_error P recs) as [e|] eqn:Herr.
  - pose proof (sticker_loop_unmade P m true status_container n (map PyStr ups) before e
                  recs [] w1 Hrecs Herr (fun _ => Hbefore)) as Hloop.
    destruct (sticker_loop _ _ _ _ _ _ _ _) as [[story|e'] w2]; simpl in Hloop.
    + discriminate Hloop.
    + injection Hloop as ->. reflexivity.
  - apply labels_made_first_error in Herr.
    rewrite (sticker_loop_trace P m true status_container n _ before recs [] w1 Hrecs Herr
               (fun _ => Hbefore)).
    cbn [map row_of sticker_loop].
    assert (Hn : (0 < n)%Z) by (subst n rws; rewrite length_app; simpl; lia).
    assert (Hno : ~ progress_accepts n index) by (unfold progress_accepts; lia).
    by rewrite (bind_raise _ _ _ _ _
                  (sticker_elements_refused P m status_container n index _ _ Hn Hno)).
Qed.

Lemma progress_refuses_index_label_witness :
  (generate_sticker_labels ascii_platform true true
     {| df := {| columns := map PyStr inventory_columns;
                 rows := [ (0%Z, [CellStr (lit "P-100"); CellStr (lit "Bolt")]);
                           (5%Z, [CellStr (lit "P-200"); CellStr (lit "Washer")]) ] |};
        screen := [] |}).1
  = Raise StreamlitAPIException.
Proof.
  destruct (progress_refuses_index_label ascii_platform true inventory_columns
              [ (0%Z, [CellStr (lit "P-100"); CellStr (lit "Bolt")]) ] []
              5%Z [CellStr (lit "P-200"); CellStr (lit "Washer")])
    as (recs & Hrecs & Hrun).
  - discriminate.
  - reflexivity.
  - constructor; [|constructor]. unfold progress_accepts. simpl. lia.
  - right. simpl. lia.
  - refine (eq_trans Hrun _). unfold reads in Hrecs.
    apply Forall2_cons_inv_l in Hrecs as (r1 & recs1 & Hr1 & Hrecs & ->).
    apply Forall2_nil_inv_l in Hrecs as ->.
    vm_compute in Hr1. injection Hr1 as <-. reflexivity.
Defined.

Lemma reads_records_from P m (cols : list pyval) (body : list (list cell))
    (recs : list StickerRecord) :
  reads P m cols (RangeIndex 0 body) recs <-> records_from P m cols 0 body recs.
Proof.
  unfold reads, records_from.
  split; intros H; induction H as [|[index cells] r rws recs' Hr _ IH]; constructor;
    solve [exact Hr | exact IH].
Qed.

(** ** C6 *)

(** C6.  A failure of the QR encoder on the text of one row stays in
    that row: it raises nothing, and the code region of that row's sticker
    holds the paragraph QR (Helvetica-Bold, centred) in place of the image
    of the row's text.  The page of every row is the sticker of that row's
    record alone.  The call raises only what [Paragraph(...)] raises on a
    text of a label, and once [Paragraph(...)] accepts the text QR of the
    placeholder, whether it does so is the same for a row on which the
    encoder failed and for one on which it did not; when no paragraph
    raises, the call returns the pages unless [doc.build] itself fails,
    whichever rows the encoder failed on. *)
Theorem qr_failure_absorbed (P : Platform) (progress_bar status_container : bool)
    (names : list pystr) (body : list (list cell)) :
  names <> [] ->
  NoDup (map (str_upper P) names) ->
  exists m recs,
    resolve P (map PyStr names) = Ok m /\
    records_from P m (map PyStr (map (str_upper P) names)) 0 body recs /\
    (let story := with_breaks (map (sticker_of P) recs) in
     let pages := map (fun r => mkPage draw_border (sticker_of P r)) recs in
     (generate_sticker_labels P progress_bar status_container
        (uploaded (map PyStr names) body)).1
     = match first_label_error P recs with
       | Some e => Raise e
       | None => Ok (match build_error P story with
                     | None => Some pages
                     | Some _ => None
                     end)
       end) /\
    (paragraph_error P (lit "QR") = None ->
     forall r,
       label_error P r
       = first_error P [part_no r; desc_text (desc r); qty_bin r; lit "S.LOC"; lit "L.LOC"]) /\
    (forall r, In r recs ->
       exists label,
         sticker_of P r = [Spacer 1 (0.3 * cm)%Q; label] /\
         code_region label
         = Some (match qr_error P (qr_data_of r) with
                 | Some _ =>
                     Paragraph (lit "QR")
                       (mkParagraphStyle "QRPlaceholder" "Helvetica-Bold" 10 TA_CENTER 12)
                 | None =>
                     Image (mkQRCode 1 "ERROR_CORRECT_M" 10 4 (qr_data_of r))
                           (1.5 * cm)%Q (1.5 * cm)%Q
                 end)).
Proof.
  intros Hne Hnd.
  destruct (generate_sticker_labels_run P progress_bar status_container names body
              Hne Hnd) as (recs & evs1 & Hrecs & Hid & Hrun).
  eexists _, recs. split; [by apply resolve_str|]. split; [exact Hrecs|].
  split; [|split].
  - cbv zeta. destruct (first_label_error P recs) as [e|] eqn:Herr.
    + unfold uploaded, read_table.
      apply (generate_sticker_labels_unmade P progress_bar status_container names
               (RangeIndex 0 body) [] recs e Hne
               (proj2 (reads_records_from P _ _ body recs) Hrecs) Herr).
      intros _. rewrite length_RangeIndex. by apply RangeIndex_accepted.
    + apply labels_made_first_error in Herr.
      destruct (Hrun Herr) as (evs2 & evs3 & _ & Hgen).
      rewrite Hgen. simpl. by rewrite paginate_stickers.
  - intros Hqr r. unfold label_error, label_texts.
    destruct (qr_image_of P (qr_data_of r)); [by rewrite app_nil_r|].
    cbn [app first_error]. rewrite Hqr. reflexivity.
  - intros r _. eexists. split; [reflexivity|].
    unfold qr_image_of. by destruct (qr_error P (qr_data_of r)).
Qed.

Lemma qr_failure_absorbed_witness :
  let P := test_platform 100 in
  exists r1 r2,
    (generate_sticker_labels P true true
       (uploaded (map PyStr inventory_columns) overlong_rows)).1
    = Ok (Some [mkPage draw_border (sticker_of P r1);
                mkPage draw_border (sticker_of P r2)]) /\
    qr_error P (qr_data_of r1) = None /\
    qr_error P (qr_data_of r2) = Some (lit "data overflow") /\
    (exists label png,
        sticker_of P r1 = [Spacer 1 (0.3 * cm)%Q; label] /\
        code_region label = Some (Image png (1.5 * cm)%Q (1.5 * cm)%Q)) /\
    (exists label,
        sticker_of P r2 = [Spacer 1 (0.3 * cm)%Q; label] /\
        code_region label = Some qr_placeholder).
Proof.
  intros P.
  destruct (qr_failure_absorbed P true true inventory_columns overlong_rows)
    as (m & recs & Hm & Hrecs & Hrun & _ & Hregion).
  - discriminate.
  - apply inventory_columns_distinct, test_platform_case.
  - rewrite (resolve_ascii P inventory_columns (test_platform_case 100)) in Hm;
      [|discriminate|vm_compute; reflexivity].
    injection Hm as <-. unfold records_from in Hrecs.
    apply Forall2_cons_inv_l in Hrecs as (r1 & recs1 & Hr1 & Hrecs & ->).
    apply Forall2_cons_inv_l in Hrecs as (r2 & recs2 & Hr2 & Hrecs & ->).
    apply Forall2_nil_inv_l in Hrecs as ->.
    assert (H1 : qr_error P (qr_data_of r1) = None).
    { vm_compute in Hr1. injection Hr1 as <-. vm_compute. reflexivity. }
    assert (H2 : qr_error P (qr_data_of r2) = Some (lit "data overflow")).
    { vm_compute in Hr2. injection Hr2 as <-. vm_compute. reflexivity. }
    assert (Hmade : labels_made P [r1; r2]).
    { vm_compute in Hr1. injection Hr1 as <-.
      vm_compute in Hr2. injection Hr2 as <-.
      repeat constructor. }
    apply labels_made_first_error in Hmade. rewrite Hmade in Hrun.
    exists r1, r2. split; [exact Hrun|]. split; [exact H1|]. split; [exact H2|].
    split.
    + destruct (Hregion r1) as (label & Hl & Hc); [by left|].
      rewrite H1 in Hc. eauto.
    + destruct (Hregion r2) as (label & Hl & Hc); [right; by left|].
      rewrite H2 in Hc. eauto.
Defined.

(** ** What a run shows *)







(* ===================================================================== *)
(** * 22. More on the label                                               *)
(* ===================================================================== *)

Lemma parse_location_string_length v : length (parse_location_string v) = 7.
Proof.
  destruct (isinstance_str v) eqn:Hv.
  - destruct v as [| | |s]; try discriminate.
    by rewrite parse_location_string_str, length_map, length_seq.
  - by rewrite parse_location_string_not_str.
Qed.

Lemma well_shaped_Table data colWidths rowHeights style :
  well_shaped (Table data colWidths rowHeights style)
  = (length data =? length rowHeights)%nat
    && forallb (fun row => (length row =? length colWidths)%nat
                           && forallb (fun c => match c with
                                                | Text _ => true
                                                | Flow g => well_shaped g
                                                end) row)
               data.
Proof. reflexivity. Qed.

Lemma texts_well_shaped (values : list pystr) :
  forallb (fun c => match c with Text _ => true | Flow g => well_shaped g end)
          (map Text values) = true.
Proof. by induction values. Qed.

Lemma loc_table_well_shaped (caption : Flowable) (values : list pystr) :
  well_shaped caption = true -> length values = 7 ->
  well_shaped (loc_table caption (loc_inner_table values)) = true.
Proof.
  intros Hc Hv. unfold loc_table, loc_inner_table.
  rewrite well_shaped_Table. cbn [length forallb Nat.eqb andb].
  rewrite Hc, well_shaped_Table. cbn [length forallb Nat.eqb andb].
  rewrite texts_well_shaped, length_map, Hv. reflexivity.
Qed.

Lemma store_loc_values_parse (store_location : pystr) :
  store_loc_values store_location = parse_location_string (PyStr store_location).
Proof. unfold store_loc_values. by destruct store_location. Qed.

(** X13.  Every label is a well-shaped table, down to the tables in its
    cells: as many row heights as rows and as many column widths as cells
    in a row, which is what [Table(...)] asks of its arguments.  In the two
    location rows the seven widths of [COLUMN_WIDTH_PROPORTIONS] meet the
    seven slots of [parse_location_string]: the boxes of the S.LOC row hold
    the slots of the store location, those of the L.LOC row the slots of
    the line location. *)
Theorem labels_are_well_shaped (P : Platform) (r : StickerRecord) :
  let label := sticker_table r (qr_image_of P (qr_data_of r)) in
  well_shaped label = true /\
  store_loc_boxes label
  = Some (map Text (parse_location_string (PyStr (store_location r)))) /\
  line_loc_boxes label
  = Some (map Text (parse_location_string (PyStr (location_str r)))) /\
  length (parse_location_string (PyStr (store_location r))) = length inner_col_widths /\
  length (parse_location_string (PyStr (location_str r))) = length inner_col_widths.
Proof.
  intros label. split; [|split; [|split; [|split]]].
  - unfold label, sticker_table, final_table, main_content_table.
    rewrite well_shaped_Table. cbn [length forallb Nat.eqb andb].
    rewrite well_shaped_Table. cbn [length forallb Nat.eqb andb].
    unfold store_loc_table, line_loc_table.
    rewrite !loc_table_well_shaped
      by first [reflexivity | rewrite ?store_loc_values_parse;
                              apply parse_location_string_length].
    unfold qr_table, qr_image_of. by destruct (qr_error P (qr_data_of r)).
  - unfold label, sticker_table, store_loc_table.
    by rewrite store_loc_values_parse.
  - reflexivity.
  - by rewrite parse_location_string_length.
  - by rewrite parse_location_string_length.
Qed.

(** ** The record read from a row *)

Lemma cells_at_position (ups : list pystr) (cells : list cell) (c : pystr) (i : nat) :
  NoDup ups -> ups !! i = Some c ->
  cells_at (map PyStr ups) cells (PyStr c) = [cell_at cells i].
Proof.
  intros Hnd. revert i cells.
  induction Hnd as [|u ups Hu Hnd IH]; intros i cells Hi; [done|].
  cbn [map cells_at]. rewrite py_eqb_str. destruct i as [|i]; simpl in Hi.
  - injection Hi as ->. rewrite bool_decide_eq_true_2 by done.
    rewrite cells_at_absent by (intros Hin; apply Hu; by apply list_elem_of_In).
    by destruct cells.
  - rewrite bool_decide_eq_false_2.
    + rewrite (IH i (tl cells) Hi). unfold cell_at. by destruct cells, i.
    + intros ->. apply Hu. by apply list_elem_of_lookup_2 in Hi.
Qed.

Lemma row_getitem_position (ups : list pystr) name (cells : list cell) (c : pystr) (i : nat) :
  NoDup ups -> ups !! i = Some c ->
  row_getitem (mkRow (map PyStr ups) name cells) (PyStr c) = Ok (Scalar (cell_at cells i)).
Proof.
  intros Hnd Hi. unfold row_getitem. simpl. by rewrite (cells_at_position ups cells c i).
Qed.

(** X14.  What goes on the label from a row, for distinct labels with the
    five roles at the positions [i_part], [i_desc], [i_qty], [i_loc] and
    [i_store]: every field is [str()] of the cell at the position of its
    column, except that a missing quantity ([nan], [None], or a row that is
    short of cells) gives an empty text.  A missing part number,
    description or location is not left out: it is printed as the text
    nan. *)
Theorem record_of_a_row (P : Platform) (ups : list pystr) (name : Z) (cells : list cell)
    (i_part i_desc i_qty i_loc i_store : nat)
    (c_part c_desc c_qty c_loc c_store : pystr) :
  NoDup ups ->
  ups !! i_part = Some c_part ->
  ups !! i_desc = Some c_desc ->
  ups !! i_qty = Some c_qty ->
  ups !! i_loc = Some c_loc ->
  ups !! i_store = Some c_store ->
  c_qty <> empty_str -> c_loc <> empty_str -> c_store <> empty_str ->
  extract_data P
    {| part_no_col := PyStr c_part; desc_col := PyStr c_desc; qty_bin_col := PyStr c_qty;
       loc_col := PyStr c_loc; store_loc_col := PyStr c_store |}
    (mkRow (map PyStr ups) name cells)
  = Ok {| part_no := py_str (cell_at cells i_part);
          desc := py_str (cell_at cells i_desc);
          qty_bin := if notna (cell_at cells i_qty)
                     then py_str (cell_at cells i_qty) else empty_str;
          location_str := py_str (cell_at cells i_loc);
          store_location := py_str (cell_at cells i_store) |}.
Proof.
  intros Hnd H1 H2 H3 H4 H5 Hq Hl Hs.
  unfold extract_data, optional_field. cbn [part_no_col desc_col qty_bin_col loc_col store_loc_col].
  assert (Hin : forall i c, ups !! i = Some c ->
                  row_contains (mkRow (map PyStr ups) name cells) (PyStr c) = true).
  { intros i c Hi. apply row_contains_column. apply list_elem_of_In.
    by apply list_elem_of_lookup_2 in Hi. }
  rewrite (row_getitem_position ups name cells c_part i_part Hnd H1).
  rewrite (row_getitem_position ups name cells c_desc i_desc Hnd H2).
  rewrite (row_getitem_position ups name cells c_qty i_qty Hnd H3).
  rewrite (row_getitem_position ups name cells c_loc i_loc Hnd H4).
  rewrite (row_getitem_position ups name cells c_store i_store Hnd H5).
  rewrite (Hin _ _ H3), (Hin _ _ H4), (Hin _ _ H5).
  assert (Ht : forall c : pystr, c <> empty_str -> truthy (PyStr c) = true)
    by (intros c Hc; by destruct c).
  rewrite (Ht _ Hq), (Ht _ Hl), (Ht _ Hs).
  unfold and_then. cbn [mbind result_bind fmap result_fmap notna_truth andb item_str].
  by destruct (notna (cell_at cells i_qty)).
Qed.

Lemma record_of_a_row_witness :
  extract_data ascii_platform
    {| part_no_col := PyStr (lit "PART NUMBER"); desc_col := PyStr (lit "DESCRIPTION");
       qty_bin_col := PyStr (lit "QTY/BIN"); loc_col := PyStr (lit "LOCATION");
       store_loc_col := PyStr (lit "STORE LOCATION") |}
    (mkRow (map PyStr [lit "PART NUMBER"; lit "DESCRIPTION"; lit "LOCATION"; lit "QTY/BIN";
                       lit "STORE LOCATION"])
           1 [CellStr (lit "P-200"); CellNone; CellStr (lit "A_1"); CellNaN])
  = Ok {| part_no := lit "P-200"; desc := lit "nan"; qty_bin := empty_str;
          location_str := lit "A_1"; store_location := lit "nan" |}.
Proof.
  apply (record_of_a_row ascii_platform
           [lit "PART NUMBER"; lit "DESCRIPTION"; lit "LOCATION"; lit "QTY/BIN";
            lit "STORE LOCATION"]
           1 [CellStr (lit "P-200"); CellNone; CellStr (lit "A_1"); CellNaN]
           0 1 3 2 4); try reflexivity; try discriminate.
  apply (bool_decide_unpack _). vm_compute. exact I.
Defined.

(** ** The text of the QR code *)

Lemma until_newline (a b x y : pystr) :
  one_line a -> one_line b -> a ++ newline ++ x = b ++ newline ++ y -> a = b /\ x = y.
Proof.
  unfold one_line, newline. revert b.
  induction a as [|c a IH]; intros [|d b] Ha Hb Heq; simpl in *.
  - by injection Heq as ->.
  - injection Heq as <- _. exfalso. apply Hb. by left.
  - injection Heq as -> _. exfalso. apply Ha. by left.
  - injection Heq as -> Heq. destruct (IH b) as [-> ->]; auto.
Qed.

(** X12.  The text of the QR code tells the records apart: when part
    number, description and the two locations hold no line break, two
    records with the same text are the same record. *)
Theorem qr_text_identifies_the_record (r r' : StickerRecord) :
  one_line (part_no r) -> one_line (desc r) ->
  one_line (location_str r) -> one_line (store_location r) ->
  one_line (part_no r') -> one_line (desc r') ->
  one_line (location_str r') -> one_line (store_location r') ->
  qr_data_of r = qr_data_of r' -> r = r'.
Proof.
  intros H1 H2 H3 H4 H1' H2' H3' H4'. unfold qr_data_of.
  rewrite <- !app_assoc. intros Heq.
  apply app_inv_head in Heq. apply until_newline in Heq as [E1 Heq]; [|done..].
  apply app_inv_head in Heq. apply until_newline in Heq as [E2 Heq]; [|done..].
  apply app_inv_head in Heq. apply until_newline in Heq as [E3 Heq]; [|done..].
  apply app_inv_head in Heq. apply until_newline in Heq as [E4 Heq]; [|done..].
  apply app_inv_head in Heq.
  destruct r, r'. simpl in *. by subst.
Qed.

Lemma qr_text_identifies_the_record_witness :
  {| part_no := lit "P-100"; desc := lit "Bolt"; qty_bin := lit "12";
     location_str := lit "A_1"; store_location := lit "S_4" |}
  = {| part_no := lit "P-" ++ lit "100"; desc := lit "Bolt"; qty_bin := lit "1" ++ lit "2";
       location_str := lit "A_1"; store_location := lit "S_4" |}.
Proof.
  apply qr_text_identifies_the_record;
    first [reflexivity | unfold one_line; simpl; intuition discriminate].
Defined.

(* ===================================================================== *)
(** * 23. The page of [main]                                              *)
(* ===================================================================== *)

Lemma join_labels_str (sep : pystr) (names : list pystr) :
  join_labels sep (map PyStr names) = Ok (str_join sep names).
Proof.
  induction names as [|s names IH]; [done|].
  destruct names as [|t names]; [done|].
  change (join_labels sep (map PyStr (s :: t :: names)))
    with (u ← join_labels sep (map PyStr (t :: names)); Ok (s ++ sep ++ u)).
  by rewrite IH.
Qed.

Lemma join_labels_not_str (sep : pystr) (labels : list pyval) :
  Exists (fun v => isinstance_str v = false) labels ->
  join_labels sep labels = Raise TypeError.
Proof.
  induction 1 as [v labels Hv|v labels Hex IH].
  - by destruct v.
  - destruct v as [| | |s]; try done.
    destruct labels as [|v' labels]; [by inversion Hex|].
    change (join_labels sep (PyStr s :: v' :: labels))
      with (u ← join_labels sep (v' :: labels); Ok (s ++ sep ++ u)).
    by rewrite IH.
Qed.

(** The labels of a table are all strings, or one of them is not. *)
Lemma labels_strings_or_not (labels : list pyval) :
  (exists names, labels = map PyStr names) \/
  Exists (fun v => isinstance_str v = false) labels.
Proof.
  induction labels as [|v labels [[names ->]|Hex]].
  - left. by exists [].
  - destruct v as [| | |s]; try (right; by constructor).
    left. by exists (s :: names).
  - right. by constructor.
Qed.

Lemma on_page_no_download (evs : list event) label pdf_data name mime :
  ~ In (page_download_button label pdf_data name mime) (map on_page evs).
Proof.
  intros Hin. apply in_map_iff in Hin as (e & He & _). by destruct e.
Qed.

(** The page for a file that has been read, with string labels. *)
Lemma main_read (P : Platform) (H : Host) (f : UploadedFile) (clicked : bool)
    (table : DataFrame) (names : list pystr) :
  load_file H f = inr table ->
  columns table = map PyStr names ->
  main P H (Some f) clicked
  = preview f table names ++ (if clicked then generate_clicked P H f table else []).
Proof.
  intros Hload Hcols. unfold main, file_section.
  by rewrite Hload, Hcols, join_labels_str.
Qed.

Lemma generate_clicked_outcome (P : Platform) (H : Host) (f : UploadedFile)
    (table : DataFrame) :
  let run := generate_sticker_labels P true true {| df := table; screen := [] |} in
  generate_clicked P H f table
  = working ++ map on_page (screen run.2)
      ++ match run.1 with
         | Ok (Some pdf_data) => offer f pdf_data
         | Ok None => failed
         | Raise e => [error_reading_file (exception_str H e)]
         end.
Proof.
  intros run. unfold generate_clicked. fold run. by destruct run as [[[pdf|]|e] w].
Qed.

(** ** The name of the download *)

Lemma str_split1_head (sep : codepoint) (s : pystr) :
  exists stem parts,
    str_split1 sep s = stem :: parts /\
    ~ In sep stem /\
    (s = stem \/ exists rest, s = stem ++ sep :: rest).
Proof.
  induction s as [|c s (stem & parts & Hsplit & Hstem & Hs)].
  - exists [], []. split; [done|]. split; [by intros []|by left].
  - cbn [str_split1]. destruct (c =? sep)%N eqn:E.
    + apply N.eqb_eq in E as ->. exists [], (str_split1 sep s).
      split; [done|]. split; [by intros []|]. right. by exists s.
    + apply N.eqb_neq in E. rewrite Hsplit. exists (c :: stem), parts.
      split; [done|]. split.
      * intros [->|Hin]; [done|by apply Hstem].
      * destruct Hs as [->|[rest ->]]; [by left|]. right. by exists rest.
Qed.

(** X16.  The download is named after the file up to its first dot,
    whatever follows: the stem holds no dot, and the name of the file is
    the stem, or the stem, a dot and the rest. *)
Theorem download_name_is_the_stem (name : pystr) :
  exists stem,
    download_file_name name = stem ++ lit "_sticker_labels.pdf" /\
    ~ In dot stem /\
    (name = stem \/ exists rest, name = stem ++ dot :: rest).
Proof.
  destruct (str_split1_head dot name) as (stem & parts & Hsplit & Hstem & Hname).
  exists stem. unfold download_file_name. by rewrite Hsplit.
Qed.

(** ** Which loader reads the file *)

Lemma str_endswith_iff (suffix s : pystr) :
  str_endswith suffix s = true <-> exists a, s = a ++ suffix.
Proof.
  unfold str_endswith. rewrite startswith_iff. split.
  - intros [b Hb]. exists (rev b).
    by rewrite <- (rev_involutive s), Hb, rev_app_distr, rev_involutive.
  - intros [a ->]. exists (rev a). by rewrite rev_app_distr.
Qed.

Lemma ascii_lower_ascii (ext : pystr) :
  is_ascii (map ascii_lower ext) -> is_ascii ext.
Proof.
  unfold is_ascii. induction ext as [|c ext IH]; [done|].
  simpl. intros Hall. inversion Hall as [|? ? Hc Hext]; subst.
  constructor; [|by apply IH].
  unfold ascii_lower in Hc.
  destruct ((65 <=? c) && (c <=? 90))%N eqn:E; [|done].
  apply andb_true_iff in E as [_ E]. apply N.leb_le in E. lia.
Qed.

(** X19.  The loader is chosen by the extension, whatever its case: a
    name that ends in .csv, .CSV or .Csv goes to [pd.read_csv], and a name
    of ASCII characters that does not goes to [pd.read_excel]. *)
Theorem csv_by_extension (H : Host) (f : UploadedFile) :
  lower_law H ->
  (forall stem ext,
     file_name f = stem ++ ext -> map ascii_lower ext = lit ".csv" ->
     load_file H f = read_csv H f) /\
  (is_ascii (file_name f) ->
   (forall stem ext, file_name f = stem ++ ext -> map ascii_lower ext <> lit ".csv") ->
   load_file H f = read_excel H f).
Proof.
  intros Hlaw. split.
  - intros stem ext Hname Hext. unfold load_file.
    assert (Hascii : is_ascii ext).
    { apply ascii_lower_ascii. rewrite Hext. by apply is_asciib_true. }
    destruct (Hlaw stem ext Hascii) as (s' & Hlow & _).
    rewrite Hname, Hlow, Hext.
    by rewrite (proj2 (str_endswith_iff (lit ".csv") (s' ++ lit ".csv")) (ex_intro _ s' eq_refl)).
  - intros Hascii Hno. unfold load_file.
    destruct (Hlaw [] (file_name f) Hascii) as (s' & Hlow & Hs').
    rewrite (Hs' eq_refl) in Hlow. cbn [app] in Hlow. rewrite Hlow.
    destruct (str_endswith _ _) eqn:E; [|done].
    apply str_endswith_iff in E as [a Ha].
    exfalso.
    assert (Hcut : file_name f = take (length a) (file_name f) ++ drop (length a) (file_name f))
      by by rewrite take_drop.
    apply (Hno _ _ Hcut).
    rewrite <- skipn_map, Ha, drop_app_length. reflexivity.
Qed.

Lemma test_host_lower table : lower_law (test_host table).
Proof.
  intros s t _. exists (map ascii_lower s). split; [apply map_app|by intros ->].
Qed.

Lemma csv_by_extension_witness :
  load_file (test_host (read_table (map PyStr inventory_columns) sample_rows))
    (mkUploadedFile (lit "Stock.2024.CSV") [])
  = read_csv (test_host (read_table (map PyStr inventory_columns) sample_rows))
      (mkUploadedFile (lit "Stock.2024.CSV") []).
Proof.
  apply (proj1 (csv_by_extension
                  (test_host (read_table (map PyStr inventory_columns) sample_rows))
                  (mkUploadedFile (lit "Stock.2024.CSV") [])
                  (test_host_lower _))
           (lit "Stock.2024") (lit ".CSV")); reflexivity.
Defined.

(** ** What the button brings *)

Lemma no_download_in (page : list widget) pdf_data name :
  Forall (fun x => match x with page_download_button _ _ _ _ => False | _ => True end) page ->
  ~ offers_download page pdf_data name.
Proof.
  intros Hall (label & mime & Hin). rewrite Forall_forall in Hall.
  exact (Hall _ Hin).
Qed.

Lemma offers_download_app (page1 page2 : list widget) pdf_data name :
  offers_download (page1 ++ page2) pdf_data name
  <-> offers_download page1 pdf_data name \/ offers_download page2 pdf_data name.
Proof.
  unfold offers_download. split.
  - intros (label & mime & Hin). apply in_app_or in Hin as [Hin|Hin]; eauto.
  - intros [(label & mime & Hin)|(label & mime & Hin)];
      exists label, mime; apply in_or_app; auto.
Qed.

Lemma shown_offers_nothing (evs : list event) pdf_data name :
  ~ offers_download (map on_page evs) pdf_data name.
Proof. intros (label & mime & Hin). by apply on_page_no_download in Hin. Qed.

Lemma preview_offers_nothing f table names pdf_data name :
  ~ offers_download (preview f table names) pdf_data name.
Proof. apply no_download_in. by repeat constructor. Qed.

Lemma working_offers_nothing pdf_data name : ~ offers_download working pdf_data name.
Proof. apply no_download_in. by repeat constructor. Qed.

Lemma offer_offers f pdf pdf_data name :
  offers_download (offer f pdf) pdf_data name
  <-> pdf_data = pdf /\ name = download_file_name (file_name f).
Proof.
  unfold offers_download, offer. split.
  - intros (label & mime & [Heq|[Heq|[]]]); [|done]. by injection Heq as _ -> -> _.
  - intros [-> ->]. eexists _, _. by left.
Qed.

(** X17.  The page offers a download exactly when a file was uploaded,
    could be read into a table whose labels are all strings, the button
    was pressed, and [generate_sticker_labels], called on that table with
    a progress bar and a status area, returned a document; the download
    then holds that document under the name made from the name of the
    file. *)
Theorem download_is_what_was_generated (P : Platform) (H : Host)
    (uploaded_file : option UploadedFile) (clicked : bool)
    (pdf_data : Document) (name : pystr) :
  offers_download (main P H uploaded_file clicked) pdf_data name
  <-> exists f table names,
        uploaded_file = Some f /\
        load_file H f = inr table /\
        columns table = map PyStr names /\
        clicked = true /\
        (generate_sticker_labels P true true {| df := table; screen := [] |}).1
        = Ok (Some pdf_data) /\
        name = download_file_name (file_name f).
Proof.
  split.
  - destruct uploaded_file as [f|]; cycle 1.
    { intros Hoff. exfalso. revert Hoff. apply no_download_in. by repeat constructor. }
    destruct (load_file H f) as [msg|table] eqn:Hload.
    { unfold main, file_section. rewrite Hload.
      intros Hoff. exfalso. revert Hoff. apply no_download_in. by repeat constructor. }
    destruct (labels_strings_or_not (columns table)) as [[names Hcols]|Hex].
    + rewrite (main_read P H f clicked table names Hload Hcols).
      rewrite offers_download_app. intros [Hoff|Hoff].
      { by apply preview_offers_nothing in Hoff. }
      destruct clicked.
      * rewrite generate_clicked_outcome in Hoff. cbv zeta in Hoff.
        rewrite !offers_download_app in Hoff.
        destruct Hoff as [Hoff|[Hoff|Hoff]].
        { by apply working_offers_nothing in Hoff. }
        { by apply shown_offers_nothing in Hoff. }
        destruct (generate_sticker_labels P true true _).1 as [[pdf|]|e] eqn:Hrun.
        -- apply offer_offers in Hoff as [-> ->]. by exists f, table, names.
        -- exfalso. revert Hoff. apply no_download_in. by repeat constructor.
        -- exfalso. revert Hoff. apply no_download_in. by repeat constructor.
      * exfalso. revert Hoff. apply no_download_in. constructor.
    + unfold main, file_section. rewrite Hload, (join_labels_not_str _ _ Hex).
      intros Hoff. exfalso. revert Hoff. apply no_download_in. by repeat constructor.
  - intros (f & table & names & -> & Hload & Hcols & -> & Hrun & ->).
    rewrite (main_read P H f true table names Hload Hcols).
    rewrite generate_clicked_outcome. cbv zeta. rewrite Hrun.
    rewrite !offers_download_app. right. right. right. by apply offer_offers.
Qed.

(** X18.  A table with a label that is not a string never reaches the
    button: the line that lists the columns joins the labels, which
    raises [TypeError], and the page ends with the error of the [except]
    clause whether the button was pressed or not. *)
Theorem preview_needs_string_labels (P : Platform) (H : Host) (f : UploadedFile)
    (clicked : bool) (table : DataFrame) :
  load_file H f = inr table ->
  Exists (fun v => isinstance_str v = false) (columns table) ->
  main P H (Some f) clicked
  = [ page_success (lit "File uploaded: " ++ file_name f);
      page_subheader (icon_preview ++ lit " Data Preview");
      page_write (lit "**Total rows:** " ++ py_str (PyInt (len table)));
      error_reading_file (exception_str H TypeError) ].
Proof.
  intros Hload Hex. unfold main, file_section.
  by rewrite Hload, (join_labels_not_str _ _ Hex).
Qed.

Lemma preview_needs_string_labels_witness :
  let table := read_table [PyStr (lit "Part No"); PyInt 2024] sample_rows in
  let f := mkUploadedFile (lit "stock.csv") [] in
  main ascii_platform (test_host table) (Some f) true
  = [ page_success (lit "File uploaded: " ++ file_name f);
      page_subheader (icon_preview ++ lit " Data Preview");
      page_write (lit "**Total rows:** " ++ py_str (PyInt (len table)));
      error_reading_file (exception_str (test_host table) TypeError) ].
Proof.
  intros table f.
  apply (preview_needs_string_labels ascii_platform (test_host table) f true table).
  - reflexivity.
  - right. by left.
Defined.



(** X21.  An exception that [generate_sticker_labels] raises is caught by
    the [except] clause that surrounds the reading of the file: the page
    ends with Error reading file and the text of the exception, and the
    call of [main] itself completes. *)
Theorem generation_errors_read_as_file_errors (P : Platform) (H : Host) (f : UploadedFile)
    (table : DataFrame) (names : list pystr) (e : exn) :
  load_file H f = inr table ->
  columns table = map PyStr names ->
  (generate_sticker_labels P true true {| df := table; screen := [] |}).1 = Raise e ->
  list.last (main P H (Some f) true) = Some (error_reading_file (exception_str H e)).
Proof.
  intros Hload Hcols Hrun.
  rewrite (main_read P H f true table names Hload Hcols).
  rewrite generate_clicked_outcome. cbv zeta. rewrite Hrun.
  by rewrite !app_assoc, last_snoc.
Qed.

Lemma generation_errors_read_as_file_errors_witness :
  let table := read_table [] sample_rows in
  list.last (main ascii_platform (test_host table) (Some (mkUploadedFile (lit "stock.csv") []))
               true)
  = Some (error_reading_file (lit "list index out of range")).
Proof.
  intros table.
  apply (generation_errors_read_as_file_errors ascii_platform (test_host table)
           (mkUploadedFile (lit "stock.csv") []) table [] IndexError); reflexivity.
Defined.

(** X3.  A table without columns gets no document: [cols[0]] raises
    [IndexError] before anything is shown or drawn, whatever the rows, and
    the table is left as it was; on the page of [main] the preview lists no
    column, and the button brings nothing but the error of the [except]
    clause. *)
Theorem no_column_no_document (P : Platform) (progress_bar status_container : bool)
    (rws : list (Z * list cell)) (scr : list event) :
  let table := {| columns := []; rows := rws |} in
  generate_sticker_labels P progress_bar status_container {| df := table; screen := scr |}
  = (Raise IndexError, {| df := table; screen := scr |}) /\
  (forall (H : Host) (f : UploadedFile),
     load_file H f = inr table ->
     main P H (Some f) true
     = preview f table [] ++ working ++ [error_reading_file (exception_str H IndexError)]).
Proof.
  intros table. split; [reflexivity|]. intros H f Hload.
  rewrite (main_read P H f true table [] Hload eq_refl).
  by rewrite generate_clicked_outcome.
Qed.

(* ===================================================================== *)
(** * 24. The exceptions of a run                                         *)
(* ===================================================================== *)

Lemma ends_in_bind {A B} (Q1 : A -> Prop) (Q2 : B -> Prop) (E : exn -> Prop)
    (r : result A) (k : A -> result B) :
  ends_in Q1 E r -> (forall a, Q1 a -> ends_in Q2 E (k a)) -> ends_in Q2 E (r ≫= k).
Proof. destruct r as [a|e]; simpl; auto. Qed.

Lemma ends_in_impl {A} (Q1 Q2 : A -> Prop) (E1 E2 : exn -> Prop) (r : result A) :
  ends_in Q1 E1 r -> (forall a, Q1 a -> Q2 a) -> (forall e, E1 e -> E2 e) ->
  ends_in Q2 E2 r.
Proof. destruct r as [a|e]; simpl; auto. Qed.

(** ** The search for the columns *)

Lemma label_test_contains needle : label_test (contains needle).
Proof. intros [| | |s]; simpl; auto. Qed.

Lemma label_test_among names : label_test (among names).
Proof. intros col. exact I. Qed.

Lemma label_test_and (a b : pyval -> result bool) :
  label_test a -> label_test b -> label_test (fun col => and_then (a col) (b col)).
Proof.
  intros Ha Hb col. specialize (Ha col). specialize (Hb col). unfold and_then.
  destruct (a col) as [[]|e]; simpl; auto.
Qed.

Lemma label_test_or (a b : pyval -> result bool) :
  label_test a -> label_test b -> label_test (fun col => or_else (a col) (b col)).
Proof.
  intros Ha Hb col. specialize (Ha col). specialize (Hb col). unfold or_else.
  destruct (a col) as [[]|e]; simpl; auto.
Qed.

Create HintDb tests.
#[export] Hint Resolve label_test_contains label_test_among label_test_and label_test_or
  : tests.

Lemma next_match_ends cond (cols : list pyval) (d : pyval) :
  label_test cond ->
  ends_in (fun x => In x cols \/ x = d)
          (fun e => e = TypeError /\ Exists (fun v => isinstance_str v = false) cols)
          (next_match cond cols d).
Proof.
  intros Hcond. induction cols as [|col cols IH]; simpl; [by right|].
  specialize (Hcond col). destruct (cond col) as [[]|e]; simpl in *.
  - left. by left.
  - eapply ends_in_impl; [exact IH| |].
    + intros x [Hx|Hx]; [left; by right|by right].
    + intros e [He Hex]. split; [done|]. by constructor.
  - destruct Hcond as [-> Hcol]. split; [done|]. by constructor.
Qed.

(** A generator whose default is a label of the table, or [None]. *)
Lemma next_match_label cond (cols : list pyval) (d : pyval) :
  label_test cond -> In d cols ->
  ends_in (fun x => In x cols) (search_error cols) (next_match cond cols d).
Proof.
  intros Hcond Hd. eapply ends_in_impl; [by apply next_match_ends| |].
  - by intros x [Hx| ->].
  - intros e He. by right.
Qed.

Lemma next_match_optional cond (cols : list pyval) (d : pyval) :
  label_test cond -> d = PyNone \/ In d cols ->
  ends_in (fun x => x = PyNone \/ In x cols) (search_error cols) (next_match cond cols d).
Proof.
  intros Hcond Hd. eapply ends_in_impl; [by apply next_match_ends| |].
  - intros x [Hx| ->]; [by right|done].
  - intros e He. by right.
Qed.

Lemma getitem_label (cols : list pyval) (i : nat) :
  i < length cols -> ends_in (fun x => In x cols) (search_error cols) (getitem cols i).
Proof.
  intros Hi. unfold getitem. destruct (cols !! i) as [x|] eqn:E.
  - simpl. apply list_elem_of_In. by apply list_elem_of_lookup_2 in E.
  - apply lookup_ge_None in E. lia.
Qed.

(** The search ends in a mapping onto labels of the table, in
    [IndexError] when there is no column, or in [TypeError] when some label
    is not a string. *)
Lemma find_relevant_columns_ends (cols : list pyval) :
  ends_in (mapping_in cols) (search_error cols) (find_relevant_columns cols).
Proof.
  destruct cols as [|c0 cols'] eqn:Hcols; [left; by split|]. rewrite <- Hcols.
  assert (Hlen : 0 < length cols) by (rewrite Hcols; simpl; lia).
  unfold find_relevant_columns.
  apply (ends_in_bind (fun x => In x cols)).
  { apply (ends_in_bind (fun x => In x cols)); [by apply getitem_label|].
    intros d0 Hd0.
    apply (ends_in_bind (fun x => In x cols));
      [apply next_match_label; auto with tests|].
    intros d1 Hd1. apply next_match_label; auto 10 with tests. }
  intros part Hpart.
  apply (ends_in_bind (fun x => In x cols)).
  { apply (ends_in_bind (fun x => In x cols)).
    { destruct (decide (1 < length cols)); [by apply getitem_label|exact Hpart]. }
    intros d0 Hd0.
    apply (ends_in_bind (fun x => In x cols));
      [apply next_match_label; auto with tests|].
    intros d1 Hd1. apply next_match_label; auto with tests. }
  intros description Hdesc.
  apply (ends_in_bind (fun x => x = PyNone \/ In x cols)).
  { apply (ends_in_bind (fun x => x = PyNone \/ In x cols));
      [apply next_match_optional; auto with tests|].
    intros d1 Hd1. apply next_match_optional; auto 10 with tests. }
  intros qty Hqty.
  apply (ends_in_bind (fun x => x = PyNone \/ In x cols)).
  { destruct (negb (truthy qty)); [|exact Hqty].
    apply (ends_in_bind (fun x => x = PyNone \/ In x cols));
      [apply next_match_optional; auto with tests|].
    intros d1 Hd1. apply next_match_optional; auto with tests. }
  intros qty' Hqty'.
  apply (ends_in_bind (fun x => In x cols)).
  { apply (ends_in_bind (fun x => In x cols)).
    { destruct (decide (2 < length cols)); [by apply getitem_label|exact Hdesc]. }
    intros d0 Hd0. apply next_match_label; auto 10 with tests. }
  intros loc Hloc.
  apply (ends_in_bind (fun x => x = PyNone \/ In x cols)).
  { apply (ends_in_bind (fun x => x = PyNone \/ In x cols));
      [apply next_match_optional; auto with tests|].
    intros d1 Hd1. apply next_match_optional; auto with tests. }
  intros store Hstore.
  simpl. unfold mapping_in. simpl. auto.
Qed.

(** ** The rows *)

Lemma py_eqb_refl (v : pyval) : py_eqb v v = true.
Proof.
  destruct v as [|b|z|s]; simpl.
  - done.
  - by destruct b.
  - apply Z.eqb_refl.
  - by apply bool_decide_eq_true_2.
Qed.

(** A label of the row is found in the row. *)
Lemma row_getitem_label (labels : list pyval) name (cells : list cell) (col : pyval) :
  In col labels -> exists x, row_getitem (mkRow labels name cells) col = Ok x.
Proof.
  intros Hin. unfold row_getitem. simpl.
  assert (Hne : cells_at labels cells col <> []).
  { revert cells. induction labels as [|l labels IH]; intros cells; [done|].
    simpl. destruct Hin as [->|Hin].
    - by rewrite py_eqb_refl.
    - destruct (py_eqb l col); [done|]. by apply IH. }
  destruct (cells_at labels cells col) as [|x [|y l]]; [done|by eexists..].
Qed.

Lemma optional_field_ends P (labels : list pyval) name cells (col : pyval) :
  col = PyNone \/ In col labels ->
  exists s, optional_field P (mkRow labels name cells) col = Ok s.
Proof.
  intros [->|Hin]; unfold optional_field; [by eexists|].
  destruct (truthy col && row_contains _ col); [|by eexists].
  destruct (row_getitem_label labels name cells col Hin) as [x ->]. by eexists.
Qed.

(** Reading a row raises nothing but the [ValueError] of the quantity. *)
Lemma extract_data_ends P (labels : list pyval) (m : ColumnMapping) name cells :
  mapping_in labels m ->
  ends_in (fun _ => True) (fun e => e = ValueError)
          (extract_data P m (mkRow labels name cells)).
Proof.
  intros (H1 & H2 & H3 & H4 & H5). unfold extract_data.
  destruct (row_getitem_label labels name cells _ H1) as [x1 ->].
  destruct (row_getitem_label labels name cells _ H2) as [x2 ->].
  cbn [fmap result_fmap mbind result_bind].
  destruct (optional_field_ends P labels name cells _ (or_intror H3)) as [s3 ->].
  destruct (optional_field_ends P labels name cells _ H5) as [s4 ->].
  destruct H4 as [->|H4]; [exact I|].
  destruct (row_getitem_label labels name cells _ H4) as [x ->].
  unfold and_then. cbn [mbind result_bind].
  destruct (truthy (qty_bin_col m)); [|exact I].
  destruct (row_contains _ _); [|exact I].
  destruct x as [c|label nm cs]; simpl; [by destruct (notna c)|done].
Qed.

Lemma runs_to_bind {A B} (Q1 : A -> Prop) (Q2 : B -> Prop) (E : exn -> Prop)
    (stmt : M A) (k : A -> M B) :
  runs_to Q1 E stmt -> (forall a, Q1 a -> runs_to Q2 E (k a)) -> runs_to Q2 E (stmt ≫= k).
Proof.
  intros Hs Hk w. specialize (Hs w). unfold mbind, M_bind.
  destruct (stmt w) as [[a|e] w1]; simpl in *; [by apply Hk|done].
Qed.

Lemma runs_to_ret {A} (Q : A -> Prop) (E : exn -> Prop) (a : A) :
  Q a -> runs_to Q E (mret a).
Proof. intros Ha w. exact Ha. Qed.

Lemma runs_to_emit (E : exn -> Prop) (e : event) : runs_to (fun _ => True) E (emit e).
Proof. intros w. exact I. Qed.

Lemma runs_to_lift {A} (Q : A -> Prop) (E : exn -> Prop) (r : result A) :
  ends_in Q E r -> runs_to Q E (lift r).
Proof. intros Hr w. exact Hr. Qed.

Lemma runs_to_when (E : exn -> Prop) (c : bool) (stmt : M unit) :
  (c = true -> runs_to (fun _ => True) E stmt) -> runs_to (fun _ => True) E (when c stmt).
Proof. intros Hs. destruct c; [by apply Hs|]. by apply runs_to_ret. Qed.

Lemma runs_to_generate_qr_code P (E : exn -> Prop) data :
  runs_to (fun _ => True) E (generate_qr_code P data).
Proof.
  intros w. unfold generate_qr_code. by destruct (qr_error P data).
Qed.

Lemma first_error_raised P (texts : list pystr) (e : exn) :
  first_error P texts = Some e ->
  exists text, In text texts /\ paragraph_error P text = Some e.
Proof.
  induction texts as [|text texts IH]; [done|]. simpl.
  destruct (paragraph_error P text) as [e'|] eqn:E.
  - intros [= ->]. exists text. split; [by left|done].
  - intros He. destruct (IH He) as (text' & Hin & Htext). exists text'.
    split; [by right|done].
Qed.

(** Making the label raises nothing but what [Paragraph(...)] raises. *)
Lemma new_sticker_table_ends P (progress_bar : bool) (r : StickerRecord)
    (qr_image : option Flowable) :
  ends_in (fun _ => True) (loop_error P progress_bar) (new_sticker_table P r qr_image).
Proof.
  rewrite new_sticker_table_outcome.
  destruct (first_error P (label_texts r qr_image)) as [e|] eqn:E; [|exact I].
  destruct (first_error_raised P _ e E) as (text & _ & Htext).
  right. right. by exists text.
Qed.

(** The body of the loop, for a table that has rows. *)
Lemma sticker_elements_ends P (m : ColumnMapping) (progress_bar status_container : bool)
    (labels : list pyval) (n index : Z) (cells : list cell) :
  mapping_in labels m -> n <> 0%Z ->
  runs_to (fun _ => True) (loop_error P progress_bar)
    (sticker_elements P m progress_bar status_container n index
       (mkRow labels index cells)).
Proof.
  intros Hm Hn. unfold sticker_elements.
  apply (runs_to_bind (fun _ => True)).
  { apply runs_to_when. intros ->.
    apply (runs_to_bind (fun _ => True)).
    - apply runs_to_lift. unfold true_div. by rewrite decide_False.
    - intros v _ w. unfold progress_bar_progress.
      destruct (Qle_bool 0 v && Qle_bool v 1); [exact I|]. right. left. by split. }
  intros _ _. apply (runs_to_bind (fun _ => True)).
  { apply runs_to_when. intros _. apply runs_to_emit. }
  intros _ _. apply (runs_to_bind (fun _ => True)).
  { apply runs_to_lift. eapply ends_in_impl; [by apply extract_data_ends|done|].
    intros e ->. by left. }
  intros r _. apply (runs_to_bind (fun _ => True)); [apply runs_to_generate_qr_code|].
  intros qr _. apply (runs_to_bind (fun _ => True)).
  { apply runs_to_lift, new_sticker_table_ends. }
  intros final_table _. by apply runs_to_ret.
Qed.

Lemma sticker_loop_ends P (m : ColumnMapping) (progress_bar status_container : bool)
    (labels : list pyval) (n : Z) (rws : list (Z * list cell)) :
  mapping_in labels m -> (rws <> [] -> n <> 0%Z) ->
  forall all_elements,
    runs_to (fun _ => True) (loop_error P progress_bar)
      (sticker_loop P m progress_bar status_container n (map (row_of labels) rws)
         all_elements).
Proof.
  intros Hm. induction rws as [|[index cells] rws IH]; intros Hn all_elements.
  - by apply runs_to_ret.
  - cbn [map row_of sticker_loop].
    apply (runs_to_bind (fun _ => True)).
    { apply sticker_elements_ends; [done|]. by apply Hn. }
    intros elements _. apply (runs_to_bind (fun _ => True)); [by intros w|].
    intros d _. apply IH. intros _. by apply Hn.
Qed.

(** The search as the function runs it: on the upper-cased labels, which
    it leaves on the table. *)
Lemma identify_columns_ends P (status_container : bool) (w : world) :
  let cols := map (upper_label P) (columns (df w)) in
  match identify_columns P status_container w with
  | (Ok m, w1) => mapping_in cols m /\ df w1 = {| columns := cols; rows := rows (df w) |}
  | (Raise e, _) => search_error cols e
  end.
Proof.
  intros cols. pose proof (find_relevant_columns_ends cols) as Hsearch.
  unfold identify_columns.
  unfold get_df at 1. unfold mbind at 1, M_bind at 1.
  unfold set_columns at 1. unfold mbind at 1, M_bind at 1.
  unfold get_df at 1. unfold mbind at 1, M_bind at 1. cbn [df columns rows screen].
  fold cols. unfold lift at 1. unfold mbind at 1, M_bind at 1.
  destruct (find_relevant_columns cols) as [m|e]; [|exact Hsearch].
  match goal with
  | |- context [when status_container ?stmt] =>
      assert (only_shows (when status_container stmt)) as Hshow
        by auto 10 with shows
  end.
  destruct (Hshow (mkWorld (mkDataFrame cols (rows (df w))) (screen w))) as [evs E].
  rewrite (bind_run _ _ _ _ _ E). by split.
Qed.

(** X22.  The exceptions of the statements of [generate_sticker_labels],
    on any table with integer index labels and with any arguments:
    [IndexError] when the table has no column, [TypeError] when a label of
    a column is not a string, [ValueError] from reading the quantity of a
    row, the exception of the progress bar when there is one, and what
    [Paragraph(...)] raises on a text.  The last three need a table that
    has rows.  [row[col]] never fails with [KeyError], for the columns are
    taken from the labels of the table, and the progress is never divided
    by zero, for the loop runs on a table that has rows.  (What [qrcode]
    and [doc.build] raise is caught by the script.) *)
Theorem exceptions_of_a_run (P : Platform) (progress_bar status_container : bool)
    (w : world) (e : exn) :
  (generate_sticker_labels P progress_bar status_container w).1 = Raise e ->
  (e = IndexError /\ columns (df w) = []) \/
  (e = TypeError /\ Exists (fun v => isinstance_str v = false) (columns (df w))) \/
  (e = ValueError /\ rows (df w) <> []) \/
  (e = StreamlitAPIException /\ progress_bar = true /\ rows (df w) <> []) \/
  ((exists text, paragraph_error P text = Some e) /\ rows (df w) <> []).
Proof.
  intros Hrun.
  pose proof (identify_columns_ends P status_container w) as Hid. cbv zeta in Hid.
  unfold generate_sticker_labels in Hrun. unfold mbind at 1, M_bind at 1 in Hrun.
  destruct (identify_columns P status_container w) as [[m|e0] w1]; cycle 1.
  { simpl in Hrun. injection Hrun as <-.
    destruct Hid as [[-> Hnil]|[-> Hex]].
    - left. split; [done|]. by destruct (columns (df w)).
    - right. left. split; [done|].
      apply Exists_exists in Hex as (v & Hin & Hv).
      apply in_map_iff in Hin as (v0 & <- & Hin).
      apply Exists_exists. exists v0. split; [done|]. by destruct v0. }
  destruct Hid as [Hm Hdf]. right. right.
  unfold mbind at 1, M_bind at 1 in Hrun.
  assert (Hloop : ends_in (fun _ => True) (loop_error P progress_bar)
                    (assemble_story P m progress_bar status_container w1).1
                  /\ (rows (df w) = [] ->
                      exists story w2,
                        assemble_story P m progress_bar status_container w1
                        = (Ok story, w2))).
  { unfold assemble_story, get_df, mbind, M_bind. rewrite Hdf.
    assert (iterrows {| columns := map (upper_label P) (columns (df w));
                        rows := rows (df w) |}
            = map (row_of (map (upper_label P) (columns (df w)))) (rows (df w))) as ->.
    { unfold iterrows. apply map_ext. by intros [index cells]. }
    split.
    - apply sticker_loop_ends; [done|]. unfold len. simpl.
      destruct (rows (df w)); [done|]. intros _. simpl. lia.
    - intros ->. by eexists _, _. }
  destruct Hloop as [Hends Hempty].
  destruct (assemble_story P m progress_bar status_container w1) as [[story|e1] w2].
  - rewrite build_document_trace in Hrun. discriminate Hrun.
  - simpl in Hrun, Hends. injection Hrun as <-.
    assert (Hrows : rows (df w) <> []).
    { intros Hnil. destruct (Hempty Hnil) as (story & w3 & Heq). discriminate Heq. }
    destruct Hends as [->|[[-> ->]|Htext]]; [by left|right; by left|right; by right].
Qed.

Lemma exceptions_of_a_run_witness :
  (ValueError = IndexError /\ map PyStr [lit "Part"; lit "qty"; lit "QTY"] = []) \/
  (ValueError = TypeError /\
   Exists (fun v => isinstance_str v = false) (map PyStr [lit "Part"; lit "qty"; lit "QTY"])) \/
  (ValueError = ValueError /\
   RangeIndex 0 [[CellStr (lit "P-100"); CellScalar (lit "1"); CellScalar (lit "2")]] <> []) \/
  (ValueError = StreamlitAPIException /\ true = true /\
   RangeIndex 0 [[CellStr (lit "P-100"); CellScalar (lit "1"); CellScalar (lit "2")]] <> []) \/
  ((exists text, paragraph_error ascii_platform text = Some ValueError) /\
   RangeIndex 0 [[CellStr (lit "P-100"); CellScalar (lit "1"); CellScalar (lit "2")]] <> []).
Proof.
  apply (exceptions_of_a_run ascii_platform true true
           (uploaded (map PyStr [lit "Part"; lit "qty"; lit "QTY"])
              [[CellStr (lit "P-100"); CellScalar (lit "1"); CellScalar (lit "2")]])
           ValueError).
  vm_compute. reflexivity.
Defined.
